(** * simple-physx: the [PhysicsEngine] facade over the PhysX SDK

    A shallow embedding of [PhysicsEngine.h] / [PhysicsEngine.cpp].

    - The SDK is a black box.  Every SDK call is recorded in a trace and
      receives its result from an oracle indexed by the number of SDK calls
      made so far, so that every possible behaviour of the SDK is covered
      by quantifying over oracles.
    - Pointers are integers, [nullptr] is [0].
    - [size_t] and [uint32_t] are integers with the wrap-around written out.
    - [float] and [double] are IEEE 754 binary32 and binary64 values; every
      operation rounds to nearest, ties to even, and the conversions between
      the two, from integers and to integers are written out.
    - Undefined behaviour of the C++ source (reading a [std::vector] out of
      range, calling through a null pointer, converting an out-of-range
      float to an integer) is an explicit outcome, [Undefined]. *)

From Stdlib Require Import ZArith QArith Qpower String List Lia SpecFloat.
From stdpp Require Import base list.
Import ListNotations.

Local Open Scope Z_scope.

(** ** Machine integers *)

Definition wrap64 (z : Z) : Z := z mod 2 ^ 64.
Definition wrap32 (z : Z) : Z := z mod 2 ^ 32.

(** [std::vector::size()], a [size_t]. *)
Definition size {A} (v : list A) : Z := wrap64 (Z.of_nat (length v)).

(** [sizeof(float)]. *)
Definition sizeof_float : Z := 4.

(** ** Outcomes *)

Inductive UB : Type :=
| NullDereference
| OutOfBounds
| FloatToIntOverflow.

Inductive Res (A : Type) : Type :=
| Ok (a : A)
| Undefined (why : UB).
Arguments Ok {A} a.
Arguments Undefined {A} why.

(** ** Floating point

    [float] is IEEE 754 binary32 and [double] is binary64.  The operations
    are those of the standard library's specification of floating-point
    arithmetic, at precision 24 (exponents below 128) and at precision 53
    (exponents below 1024): each rounds its exact result to nearest, ties
    to even, overflows to an infinity, and yields NaN where IEEE 754 does. *)

Definition float : Type := spec_float.
Definition double : Type := spec_float.

Definition fadd : float -> float -> float := SFadd 24 128.
Definition fsub : float -> float -> float := SFsub 24 128.
Definition fmul : float -> float -> float := SFmul 24 128.
Definition fdiv : float -> float -> float := SFdiv 24 128.

(** [x >= y]: false when either is NaN. *)
Definition fge (x y : float) : bool := SFleb y x.

Definition dadd : double -> double -> double := SFadd 53 1024.
Definition dmul : double -> double -> double := SFmul 53 1024.

(** The value of a decimal literal, and the value of the type nearest to a
    rational: what a literal such as [0.6f] or [0.1] denotes. *)
Definition decimal_value (d : Decimal.decimal) : Q :=
  let '(i, f, e) :=
    match d with
    | Decimal.Decimal i f => (i, f, Decimal.Pos Decimal.Nil)
    | Decimal.DecimalExp i f e => (i, f, e)
    end in
  let num := Z.of_int (Decimal.app_int i f) in
  let den := Nat.iter (Decimal.nb_digits f) (Pos.mul 10) 1%positive in
  match Z.of_int e with
  | Z0 => num # den
  | Zpos e => (num * Z.pow_pos 10 e) # den
  | Zneg e => num # (den * Pos.pow 10 e)
  end.

Definition nearest (prec emax : Z) (q : Q) : spec_float :=
  match Qnum q with
  | Z0 => S754_zero false
  | Zpos n =>
      SFdiv prec emax (S754_finite false n 0) (S754_finite false (Qden q) 0)
  | Zneg n =>
      SFdiv prec emax (S754_finite true n 0) (S754_finite false (Qden q) 0)
  end.

Definition float_literal (n : Number.number) : option spec_float :=
  match n with
  | Number.Decimal d => Some (nearest 24 128 (decimal_value d))
  | Number.Hexadecimal _ => None
  end.

Definition double_literal (n : Number.number) : option spec_float :=
  match n with
  | Number.Decimal d => Some (nearest 53 1024 (decimal_value d))
  | Number.Hexadecimal _ => None
  end.

Definition no_literal (x : spec_float) : option Number.number := None.

Declare Scope f32_scope.
Delimit Scope f32_scope with f32.
Bind Scope f32_scope with float.
Declare Scope f64_scope.
Delimit Scope f64_scope with f64.
Bind Scope f64_scope with double.

Number Notation spec_float float_literal no_literal : f32_scope.
Number Notation spec_float double_literal no_literal : f64_scope.

Notation "x + y" := (fadd x y) : f32_scope.
Notation "x - y" := (fsub x y) : f32_scope.
Notation "x * y" := (fmul x y) : f32_scope.
Notation "x / y" := (fdiv x y) : f32_scope.
Notation "x >=? y" := (fge x y) : f32_scope.
Notation "x + y" := (dadd x y) : f64_scope.
Notation "x * y" := (dmul x y) : f64_scope.

(** Conversion of an integer to [float]: the nearest value. *)
Definition float_of_int (z : Z) : float := binary_normalize 24 128 z 0 false.

(** [float] to [double], exact, and [double] to [float], the nearest
    value. *)
Definition double_of_float (x : float) : double :=
  match x with
  | S754_finite s m e => binary_round 53 1024 s m e
  | _ => x
  end.

Definition float_of_double (x : double) : float :=
  match x with
  | S754_finite s m e => binary_round 24 128 s m e
  | _ => x
  end.

(** The number a finite value stands for. *)
Definition float_value (x : spec_float) : Q :=
  match x with
  | S754_finite s m e => inject_Z (cond_Zopp s (Zpos m)) * 2 ^ e
  | _ => 0
  end.

Definition float_finite (x : float) : bool :=
  match x with
  | S754_zero _ | S754_finite _ _ _ => true
  | _ => false
  end.

(** The integer part of a finite value: truncation toward zero. *)
Definition float_trunc (x : float) : Z :=
  match x with
  | S754_finite s m e => cond_Zopp s (Z.shiftl (Zpos m) e)
  | _ => 0
  end.

Arguments fadd : simpl never.
Arguments fsub : simpl never.
Arguments fmul : simpl never.
Arguments fdiv : simpl never.
Arguments fge : simpl never.
Arguments dadd : simpl never.
Arguments dmul : simpl never.
Arguments float_of_int : simpl never.
Arguments double_of_float : simpl never.
Arguments float_of_double : simpl never.
Arguments float_trunc : simpl never.
Arguments float_finite : simpl never.

(** ** SDK data *)

Definition ptr : Type := Z.
Definition nullptr : ptr := 0.
Definition is_null (p : ptr) : bool := p =? nullptr.

Record PxVec3 : Type := mkPxVec3 { vx : float; vy : float; vz : float }.
Record PxQuat : Type := mkPxQuat {
  qx : float; qy : float; qz : float; qw : float
}.

Definition PxVec3_add (a b : PxVec3) : PxVec3 :=
  mkPxVec3 (vx a + vx b) (vy a + vy b) (vz a + vz b).

Definition PxIdentity : PxQuat := mkPxQuat 0 0 0 1.

Record PxTransform : Type := mkPxTransform { t_p : PxVec3; t_q : PxQuat }.

(** [PxExtendedVec3]: three [PxExtended], which are [double]s. *)
Record PxExtendedVec3 : Type := mkPxExtendedVec3 {
  ex : double; ey : double; ez : double
}.

(** [PxSceneDesc]: the two members that vary; the tolerances scale read
    from [Physics] and the default filter shader are fixed. *)
Record PxSceneDesc : Type := mkPxSceneDesc {
  sd_gravity : PxVec3;
  sd_cpuDispatcher : ptr
}.

(** [PxTriangleMeshDesc]: counts and strides; the two data pointers are the
    caller's buffers. *)
Record PxTriangleMeshDesc : Type := mkPxTriangleMeshDesc {
  points_count : Z;
  points_stride : Z;
  triangles_count : Z;
  triangles_stride : Z
}.

(** [PxHeightFieldSample]: the format chosen by [CreateTerrain] is
    [eS16_TM], a signed 16-bit height and two material indices. *)
Record PxHeightFieldSample : Type := mkPxHeightFieldSample {
  height : Z;
  materialIndex0 : Z;
  materialIndex1 : Z
}.

Record PxHeightFieldDesc : Type := mkPxHeightFieldDesc {
  nbColumns : Z;
  nbRows : Z;
  samples : list PxHeightFieldSample
}.

Inductive PxGeometry : Type :=
| PxTriangleMeshGeometry (triangleMesh : ptr) (scale : PxVec3)
| PxHeightFieldGeometry (heightField : ptr)
    (heightScale rowScale columnScale : float).

Record PxCapsuleControllerDesc : Type := mkPxCapsuleControllerDesc {
  cd_height : float;
  cd_radius : float;
  cd_position : PxExtendedVec3;
  cd_contactOffset : float;
  cd_stepOffset : float;
  cd_material : ptr
}.

Inductive PxPvdSceneFlag : Type :=
| eTRANSMIT_CONSTRAINTS
| eTRANSMIT_CONTACTS
| eTRANSMIT_SCENEQUERIES.

(** The SDK entry points the facade calls. *)
Inductive SdkCall : Type :=
| PxCreateFoundation
| PxCreatePvd (foundation : ptr)
| PxDefaultPvdSocketTransportCreate
| Pvd_connect (pvd transport : ptr)
| PxCreatePhysics (foundation : ptr) (scale_length : float)
    (record_memory_allocations : bool) (pvd : ptr)
| PxCreateCooking (foundation : ptr) (scale_length : float)
| PxDefaultCpuDispatcherCreate (NumThreads : Z)
| Physics_createScene (physics : ptr) (desc : PxSceneDesc)
| PxCreateControllerManager (scene : ptr)
| Scene_getScenePvdClient (scene : ptr)
| PvdClient_setScenePvdFlag (client : ptr) (flag : PxPvdSceneFlag)
    (value : bool)
| Physics_createMaterial (physics : ptr)
    (staticFriction dynamicFriction restitution : float)
| Scene_simulate (scene : ptr) (dt : float)
| Scene_fetchResults (scene : ptr) (block : bool)
| Cooker_createTriangleMesh (cooker : ptr) (desc : PxTriangleMeshDesc)
| Cooker_cookTriangleMesh (cooker : ptr) (desc : PxTriangleMeshDesc)
| Physics_createTriangleMesh (physics : ptr)
| Cooker_createHeightField (cooker : ptr) (desc : PxHeightFieldDesc)
| PxCreateStatic (physics : ptr) (pose : PxTransform) (geometry : PxGeometry)
    (material : ptr)
| Scene_addActor (scene actor : ptr)
| ControllerManager_createController (manager : ptr)
    (desc : PxCapsuleControllerDesc)
| Controller_move (controller : ptr) (disp : PxVec3)
    (minDist elapsedTime : float).

(** What the outside world observes: SDK calls and lines written to
    [std::cout]. *)
Inductive Event : Type :=
| EvSdk (c : SdkCall)
| EvLog (msg : string)
| EvLogId (before : string) (id : Z) (after : string).

Definition is_log (e : Event) : bool :=
  match e with
  | EvSdk _ => false
  | _ => true
  end.

(** ** The engine and the world around it *)

Record PhysicsEngine : Type := mkPhysicsEngine {
  Foundation : ptr;
  PVD : ptr;
  Physics : ptr;
  Cooker : ptr;
  GlobalScene : ptr;
  Dispatcher : ptr;
  DefaultMaterial : ptr;
  CharacterManager : ptr;
  TriangleMeshes : list ptr;
  Characters : list ptr;
  Gravity : PxVec3;
  ElapsedTime : float
}.

(** [PhysicsEngine() = default]: the member initialisers of the header.
    [Gravity] and [ElapsedTime] have none; they are taken as zero. *)
Definition PhysicsEngine_default : PhysicsEngine :=
  mkPhysicsEngine nullptr nullptr nullptr nullptr nullptr nullptr nullptr
    nullptr [] [] (mkPxVec3 0 0 0) 0.

(** The process: the SDK oracle and how many calls it has answered, the
    clock ([high_resolution_clock::now()], in nanoseconds) and how many
    times it was read, the function-local static [start_time] of
    [SimulateFixedFrequency] ([None] until its first call), whether the
    build defines [_DEBUG], and the trace, newest event first. *)
Record World : Type := mkWorld {
  sdk_oracle : nat -> Z;
  sdk_calls : nat;
  clock_oracle : nat -> Z;
  clock_reads : nat;
  start_time : option Z;
  DEBUG : bool;
  trace : list Event
}.

Record State : Type := mkState { engine : PhysicsEngine; world : World }.

Definition M (A : Type) : Type := State -> Res (A * State).

Definition ret {A} (a : A) : M A := fun s => Ok (a, s).

Definition bind {A B} (m : M A) (k : A -> M B) : M B :=
  fun s =>
    match m s with
    | Ok (a, s') => k a s'
    | Undefined why => Undefined why
    end.

Notation "'let*' x ':=' m 'in' k" := (bind m (fun x => k))
  (at level 10, x name, m at level 100, k at level 200).
Notation "m ;; k" := (bind m (fun _ => k))
  (at level 100, k at level 200, right associativity).

Definition undefined {A} (why : UB) : M A := fun _ => Undefined why.

Definition this : M PhysicsEngine := fun s => Ok (engine s, s).

Definition the_world : M World := fun s => Ok (world s, s).

Definition set_engine (f : PhysicsEngine -> PhysicsEngine) : M unit :=
  fun s => Ok (tt, mkState (f (engine s)) (world s)).

Definition set_world (f : World -> World) : M unit :=
  fun s => Ok (tt, mkState (engine s) (f (world s))).

Definition emit (e : Event) : M unit :=
  set_world (fun w =>
    mkWorld (sdk_oracle w) (sdk_calls w) (clock_oracle w) (clock_reads w)
      (start_time w) (DEBUG w) (e :: trace w)).

(** [cout << msg << endl]. *)
Definition cout (msg : string) : M unit := emit (EvLog msg).

(** An SDK call: recorded, and answered by the oracle. *)
Definition sdk (c : SdkCall) : M Z :=
  fun s =>
    let w := world s in
    Ok (sdk_oracle w (sdk_calls w),
        mkState (engine s)
          (mkWorld (sdk_oracle w) (S (sdk_calls w)) (clock_oracle w)
             (clock_reads w) (start_time w) (DEBUG w) (EvSdk c :: trace w))).

(** [chrono::high_resolution_clock::now()]. *)
Definition now : M Z :=
  fun s =>
    let w := world s in
    Ok (clock_oracle w (clock_reads w),
        mkState (engine s)
          (mkWorld (sdk_oracle w) (sdk_calls w) (clock_oracle w)
             (S (clock_reads w)) (start_time w) (DEBUG w) (trace w))).

Definition set_start_time (t : Z) : M unit :=
  set_world (fun w =>
    mkWorld (sdk_oracle w) (sdk_calls w) (clock_oracle w) (clock_reads w)
      (Some t) (DEBUG w) (trace w)).

(** [p->...] and [*p]. *)
Definition deref (p : ptr) : M ptr :=
  if is_null p then undefined NullDereference else ret p.

(** Computations that cannot touch the engine or the world. *)
Definition Rbind {A B} (r : Res A) (k : A -> Res B) : Res B :=
  match r with
  | Ok a => k a
  | Undefined why => Undefined why
  end.

Definition lift {A} (r : Res A) : M A :=
  fun s =>
    match r with
    | Ok a => Ok (a, s)
    | Undefined why => Undefined why
    end.

(** [v[i]] on a [std::vector], read. *)
Definition index {A} (v : list A) (i : Z) : Res A :=
  match v !! Z.to_nat i with
  | Some a => if 0 <=? i then Ok a else Undefined OutOfBounds
  | None => Undefined OutOfBounds
  end.

(** [v[i].field = ...]: an update of the element at [i]. *)
Definition update_at {A} (v : list A) (i : Z) (f : A -> A) : Res (list A) :=
  Rbind (index v i) (fun a => Ok (<[Z.to_nat i := f a]> v)).

(** A [for (uint32_t i = 0; i < bound; i++)] loop over a local variable. *)
Fixpoint for_from {A} (n : nat) (i : Z) (body : Z -> A -> Res A) (acc : A)
    : Res A :=
  match n with
  | O => Ok acc
  | S n' => Rbind (body i acc) (for_from n' (i + 1) body)
  end.

Definition for_uint32 {A} (bound : Z) (body : Z -> A -> Res A) (acc : A)
    : Res A :=
  for_from (Z.to_nat bound) 0 body acc.

(** Conversion of a [float] to a signed 16-bit integer: truncation toward
    zero, undefined when the value is not finite or its integer part does
    not fit. *)
Definition float_to_int16 (x : float) : Res Z :=
  let z := float_trunc x in
  if float_finite x && (-32768 <=? z) && (z <=? 32767) then Ok z
  else Undefined FloatToIntOverflow.

(** ** Member updates *)

Definition with_Foundation (p : ptr) (e : PhysicsEngine) : PhysicsEngine :=
  mkPhysicsEngine p (PVD e) (Physics e) (Cooker e) (GlobalScene e)
    (Dispatcher e) (DefaultMaterial e) (CharacterManager e)
    (TriangleMeshes e) (Characters e) (Gravity e) (ElapsedTime e).

Definition with_PVD (p : ptr) (e : PhysicsEngine) : PhysicsEngine :=
  mkPhysicsEngine (Foundation e) p (Physics e) (Cooker e) (GlobalScene e)
    (Dispatcher e) (DefaultMaterial e) (CharacterManager e)
    (TriangleMeshes e) (Characters e) (Gravity e) (ElapsedTime e).

Definition with_Physics (p : ptr) (e : PhysicsEngine) : PhysicsEngine :=
  mkPhysicsEngine (Foundation e) (PVD e) p (Cooker e) (GlobalScene e)
    (Dispatcher e) (DefaultMaterial e) (CharacterManager e)
    (TriangleMeshes e) (Characters e) (Gravity e) (ElapsedTime e).

Definition with_Cooker (p : ptr) (e : PhysicsEngine) : PhysicsEngine :=
  mkPhysicsEngine (Foundation e) (PVD e) (Physics e) p (GlobalScene e)
    (Dispatcher e) (DefaultMaterial e) (CharacterManager e)
    (TriangleMeshes e) (Characters e) (Gravity e) (ElapsedTime e).

Definition with_GlobalScene (p : ptr) (e : PhysicsEngine) : PhysicsEngine :=
  mkPhysicsEngine (Foundation e) (PVD e) (Physics e) (Cooker e) p
    (Dispatcher e) (DefaultMaterial e) (CharacterManager e)
    (TriangleMeshes e) (Characters e) (Gravity e) (ElapsedTime e).

Definition with_Dispatcher (p : ptr) (e : PhysicsEngine) : PhysicsEngine :=
  mkPhysicsEngine (Foundation e) (PVD e) (Physics e) (Cooker e)
    (GlobalScene e) p (DefaultMaterial e) (CharacterManager e)
    (TriangleMeshes e) (Characters e) (Gravity e) (ElapsedTime e).

Definition with_DefaultMaterial (p : ptr) (e : PhysicsEngine) : PhysicsEngine :=
  mkPhysicsEngine (Foundation e) (PVD e) (Physics e) (Cooker e)
    (GlobalScene e) (Dispatcher e) p (CharacterManager e)
    (TriangleMeshes e) (Characters e) (Gravity e) (ElapsedTime e).

Definition with_CharacterManager (p : ptr) (e : PhysicsEngine) : PhysicsEngine :=
  mkPhysicsEngine (Foundation e) (PVD e) (Physics e) (Cooker e)
    (GlobalScene e) (Dispatcher e) (DefaultMaterial e) p
    (TriangleMeshes e) (Characters e) (Gravity e) (ElapsedTime e).

Definition with_TriangleMeshes (l : list ptr) (e : PhysicsEngine) : PhysicsEngine :=
  mkPhysicsEngine (Foundation e) (PVD e) (Physics e) (Cooker e)
    (GlobalScene e) (Dispatcher e) (DefaultMaterial e) (CharacterManager e)
    l (Characters e) (Gravity e) (ElapsedTime e).

Definition with_Characters (l : list ptr) (e : PhysicsEngine) : PhysicsEngine :=
  mkPhysicsEngine (Foundation e) (PVD e) (Physics e) (Cooker e)
    (GlobalScene e) (Dispatcher e) (DefaultMaterial e) (CharacterManager e)
    (TriangleMeshes e) l (Gravity e) (ElapsedTime e).

Definition with_Gravity (g : PxVec3) (e : PhysicsEngine) : PhysicsEngine :=
  mkPhysicsEngine (Foundation e) (PVD e) (Physics e) (Cooker e)
    (GlobalScene e) (Dispatcher e) (DefaultMaterial e) (CharacterManager e)
    (TriangleMeshes e) (Characters e) g (ElapsedTime e).

Definition with_ElapsedTime (t : float) (e : PhysicsEngine) : PhysicsEngine :=
  mkPhysicsEngine (Foundation e) (PVD e) (Physics e) (Cooker e)
    (GlobalScene e) (Dispatcher e) (DefaultMaterial e) (CharacterManager e)
    (TriangleMeshes e) (Characters e) (Gravity e) t.

(** [v.push_back(x)]. *)
Definition push_back {A} (v : list A) (x : A) : list A := v ++ [x].

(** The failure handle: [return -1] from a function returning [size_t]. *)
Definition failure_handle : Z := wrap64 (-1).

(** ** [PhysicsEngine::Initialize] *)

Definition Initialize (NumThreads : Z) (Gravity : PxVec3) : M bool :=
  set_engine (with_Gravity Gravity);;
  let* foundation := sdk PxCreateFoundation in
  set_engine (with_Foundation foundation);;
  if is_null foundation then
    cout "Failed to create the PhysX foundation instance";;
    ret false
  else
    let* w := the_world in
    let record_memory_allocations := DEBUG w in
    (if DEBUG w then
       let* pvd := sdk (PxCreatePvd foundation) in
       set_engine (with_PVD pvd);;
       let* transport := sdk PxDefaultPvdSocketTransportCreate in
       let* pvd := deref pvd in
       let* transport := deref transport in
       let* connected := sdk (Pvd_connect pvd transport) in
       if connected =? 0 then
         cout "[Warning] Could not connect to the visual debugger. Maybe it's not open?"
       else ret tt
     else ret tt);;
    let scaling_length : float := 100%f32 in
    let* e := this in
    let* physics :=
      sdk (PxCreatePhysics foundation scaling_length
             record_memory_allocations (PVD e)) in
    set_engine (with_Physics physics);;
    if is_null physics then
      cout "Failed to create the PhysX physics instance";;
      ret false
    else
      let* cooker := sdk (PxCreateCooking foundation scaling_length) in
      set_engine (with_Cooker cooker);;
      if is_null cooker then
        cout "Failed to create the PhysX cooker instance";;
        ret false
      else
        let* dispatcher := sdk (PxDefaultCpuDispatcherCreate NumThreads) in
        set_engine (with_Dispatcher dispatcher);;
        let scene_desc := mkPxSceneDesc Gravity dispatcher in
        let* scene := sdk (Physics_createScene physics scene_desc) in
        set_engine (with_GlobalScene scene);;
        let* scene_ref := deref scene in
        let* manager := sdk (PxCreateControllerManager scene_ref) in
        set_engine (with_CharacterManager manager);;
        (if DEBUG w then
           let* pvd_client := sdk (Scene_getScenePvdClient scene) in
           if is_null pvd_client then ret tt
           else
             sdk (PvdClient_setScenePvdFlag pvd_client eTRANSMIT_CONSTRAINTS true);;
             sdk (PvdClient_setScenePvdFlag pvd_client eTRANSMIT_CONTACTS true);;
             sdk (PvdClient_setScenePvdFlag pvd_client eTRANSMIT_SCENEQUERIES true);;
             ret tt
         else ret tt);;
        let* material :=
          sdk (Physics_createMaterial physics 0.5 0.5 0.6) in
        set_engine (with_DefaultMaterial material);;
        ret true.

(** ** [PhysicsEngine::Simulate] *)

Definition Simulate (ElapsedTimeSeconds : float) : M unit :=
  let* e := this in
  let* scene := deref (GlobalScene e) in
  sdk (Scene_simulate scene ElapsedTimeSeconds);;
  sdk (Scene_fetchResults scene true);;
  ret tt.

(** ** [PhysicsEngine::CreateStaticActor] *)

Definition CreateStaticActor (MeshID : Z) (Position : PxVec3)
    (Rotation : PxQuat) (Scale : PxVec3) : M bool :=
  let* e := this in
  if (MeshID <? 0) && (MeshID >=? size (TriangleMeshes e)) then
    emit (EvLogId "Invalid mesh id [" MeshID "] provided to CreateStaticActor");;
    ret false
  else
    let* mesh := lift (index (TriangleMeshes e) MeshID) in
    let instance := PxTriangleMeshGeometry mesh Scale in
    let tworld := mkPxTransform Position Rotation in
    let* physics := deref (Physics e) in
    let* material := deref (DefaultMaterial e) in
    let* actor := sdk (PxCreateStatic physics tworld instance material) in
    if is_null actor then
      cout "Failed to create the static actor";;
      ret false
    else
      let* scene := deref (GlobalScene e) in
      sdk (Scene_addActor scene actor);;
      ret true.

(** ** [PhysicsEngine::CreateTerrain] *)

Definition set_height (h : Z) (s : PxHeightFieldSample) : PxHeightFieldSample :=
  mkPxHeightFieldSample h (materialIndex0 s) (materialIndex1 s).

Definition set_materialIndex0 (m : Z) (s : PxHeightFieldSample)
    : PxHeightFieldSample :=
  mkPxHeightFieldSample (height s) m (materialIndex1 s).

Definition set_materialIndex1 (m : Z) (s : PxHeightFieldSample)
    : PxHeightFieldSample :=
  mkPxHeightFieldSample (height s) (materialIndex0 s) m.

(** The body of the inner loop. *)
Definition terrain_sample (SizeX SizeY : Z) (MinZ MaxZ : float)
    (Heightmap : list float) (y x : Z) (px_data : list PxHeightFieldSample)
    : Res (list PxHeightFieldSample) :=
  let nbRows := SizeY in
  let out_idx := wrap32 (y + wrap32 (x * nbRows)) in
  let in_idx := wrap32 (wrap64 (wrap64 (x * sizeof_float) + wrap32 (y * SizeX))) in
  Rbind (index Heightmap in_idx) (fun h =>
  Rbind (float_to_int16 ((MaxZ - MinZ) * h + MinZ)) (fun h16 =>
  Rbind (update_at px_data out_idx (set_height h16)) (fun px_data =>
  Rbind (update_at px_data out_idx (set_materialIndex0 0)) (fun px_data =>
  update_at px_data out_idx (set_materialIndex1 0))))).

(** The two loops that fill [px_data]. *)
Definition terrain_samples (SizeX SizeY : Z) (MinZ MaxZ : float)
    (Heightmap : list float) : Res (list PxHeightFieldSample) :=
  for_uint32 SizeY
    (fun y => for_uint32 SizeX (terrain_sample SizeX SizeY MinZ MaxZ Heightmap y))
    (replicate (length Heightmap) (mkPxHeightFieldSample 0 0 0)).

Definition CreateTerrain (Position Scale : PxVec3) (SizeX SizeY : Z)
    (MinZ MaxZ : float) (Heightmap : list float) : M bool :=
  let hf_nbColumns := SizeX in
  let hf_nbRows := SizeY in
  let* px_data := lift (terrain_samples SizeX SizeY MinZ MaxZ Heightmap) in
  let hf_desc := mkPxHeightFieldDesc hf_nbColumns hf_nbRows px_data in
  let* e := this in
  let* cooker := deref (Cooker e) in
  let* physics := deref (Physics e) in
  let* hf_ptr := sdk (Cooker_createHeightField cooker hf_desc) in
  let geo :=
    PxHeightFieldGeometry hf_ptr 1
      (vx Scale / float_of_int hf_nbColumns)
      (vz Scale / float_of_int hf_nbRows) in
  let tworld :=
    mkPxTransform (mkPxVec3 (vx Position) (vy Position) (vz Position))
      PxIdentity in
  let* material := deref (DefaultMaterial e) in
  let* actor := sdk (PxCreateStatic physics tworld geo material) in
  if is_null actor then
    cout "Failed to create the terrain actor";;
    ret false
  else
    let* scene := deref (GlobalScene e) in
    sdk (Scene_addActor scene actor);;
    ret true.

(** ** [PhysicsEngine::CreatePhysicsTriangleMesh] (header template) *)

Definition CreatePhysicsTriangleMesh {VertexT IndexT : Type}
    (sizeof_VertexT sizeof_IndexT : Z)
    (VertexList : list VertexT) (IndexList : list IndexT) : M Z :=
  if negb (size IndexList mod 3 =? 0) then
    cout "The index count must be a multiple of 3";;
    ret failure_handle
  else
    let mesh_desc :=
      mkPxTriangleMeshDesc
        (wrap32 (size VertexList))
        (wrap32 sizeof_VertexT)
        (wrap32 (size IndexList / 3))
        (wrap32 (wrap64 (3 * sizeof_IndexT))) in
    let* e := this in
    let* cooker := deref (Cooker e) in
    let* physics := deref (Physics e) in
    let* cooked_mesh := sdk (Cooker_createTriangleMesh cooker mesh_desc) in
    if is_null cooked_mesh then
      cout "Failed to create the triangle mesh";;
      ret failure_handle
    else
      let* cooked := sdk (Cooker_cookTriangleMesh cooker mesh_desc) in
      if cooked =? 0 then
        cout "Failed to cook the triangle mesh";;
        ret failure_handle
      else
        sdk (Physics_createTriangleMesh physics);;
        set_engine (fun e => with_TriangleMeshes (push_back (TriangleMeshes e) cooked_mesh) e);;
        let* e := this in
        ret (wrap64 (size (TriangleMeshes e) - 1)).

(** ** [PhysicsEngine::CreateCharacterController] *)

Definition controller_desc (e : PhysicsEngine) (StartPosition : PxVec3)
    (Height Radius : float) : PxCapsuleControllerDesc :=
  mkPxCapsuleControllerDesc
    Height
    Radius
    (mkPxExtendedVec3 (double_of_float (vx StartPosition))
       (double_of_float (vy StartPosition))
       (double_of_float (vz StartPosition)))
    (float_of_double (double_of_float Radius + double_of_float Radius * 0.1))
    (float_of_double (double_of_float Height * 0.25))
    (DefaultMaterial e).

Definition CreateCharacterController (StartPosition : PxVec3)
    (Height Radius : float) : M Z :=
  let* e := this in
  let desc := controller_desc e StartPosition Height Radius in
  let* manager := deref (CharacterManager e) in
  let* controller := sdk (ControllerManager_createController manager desc) in
  if is_null controller then
    cout "Failed to create the character controller";;
    ret failure_handle
  else
    set_engine (fun e => with_Characters (push_back (Characters e) controller) e);;
    let* e := this in
    ret (wrap64 (size (Characters e) - 1)).

(** ** [PhysicsEngine::GetCharacter] *)

Definition GetCharacter (ID : Z) : M ptr :=
  let* e := this in
  if (ID <? 0) && (ID >=? size (Characters e)) then
    emit (EvLogId "Invalid character ID [" ID "] provided to GetCharacter");;
    ret nullptr
  else
    lift (index (Characters e) ID).

(** ** [PhysicsEngine::SimulateFixedFrequency]

    [start_time] is a function-local static, set by the first call.  The
    duration type is [chrono::duration<float, std::deca>]: its count is in
    units of ten seconds, that is 10^10 clock ticks of one nanosecond.  The
    conversion from the clock's integer count is the [duration_cast] of the
    standard: both the count and 10^10 are converted to [float], and
    divided. *)

Definition deca_count (ticks : Z) : float :=
  float_of_int ticks / float_of_int (10 ^ 10).

Arguments deca_count : simpl never.

Definition static_start_time : M Z :=
  let* w := the_world in
  match start_time w with
  | Some t => ret t
  | None => let* t := now in set_start_time t;; ret t
  end.

Definition SimulateFixedFrequency (Frequency : float)
    (Callback : option (float -> M unit)) : M unit :=
  let* start := static_start_time in
  let step_size := (1 / Frequency)%f32 in
  let* t := now in
  let elapsed := deca_count (t - start) in
  set_engine (with_ElapsedTime elapsed);;
  if (elapsed >=? step_size)%f32 then
    match Callback with
    | Some callback => callback elapsed
    | None => ret tt
    end;;
    let* e := this in
    Simulate (ElapsedTime e);;
    let* t := now in
    set_start_time t
  else ret tt.

(** ** [PhysicsEngine::MoveCharacter] *)

Definition MoveCharacter (ID : Z) (Disp : PxVec3) (ElapsedTime : float)
    (ApplyGravity : bool) : M Z :=
  let* char_ptr := GetCharacter ID in
  let* e := this in
  let Disp := if ApplyGravity then PxVec3_add Disp (Gravity e) else Disp in
  let* controller := deref char_ptr in
  sdk (Controller_move controller Disp (float_of_double 1e-6) ElapsedTime).

(** ** Programs that use an engine instance

    A client holds one [PhysicsEngine] and can only call its public member
    functions, each continuation receiving the value returned.  The
    callback given to [SimulateFixedFrequency] is client code too; the
    call without one passes the default, empty [std::function].  The
    destructor is not a call: it ends the instance. *)

Inductive Client : Type :=
| Done
| CallInitialize (NumThreads : Z) (Gravity : PxVec3) (k : bool -> Client)
| CallSimulate (ElapsedTimeSeconds : float) (k : Client)
| CallSimulateFixedFrequency (Frequency : float) (k : Client)
| CallSimulateFixedFrequencyWith (Frequency : float)
    (Callback : float -> Client) (k : Client)
| CallCreatePhysicsTriangleMesh (sizeof_VertexT sizeof_IndexT : Z)
    (VertexList : list PxVec3) (IndexList : list Z) (k : Z -> Client)
| CallCreateStaticActor (MeshID : Z) (Position : PxVec3) (Rotation : PxQuat)
    (Scale : PxVec3) (k : bool -> Client)
| CallCreateTerrain (Position Scale : PxVec3) (SizeX SizeY : Z)
    (MinZ MaxZ : float) (Heightmap : list float) (k : bool -> Client)
| CallCreateCharacterController (StartPosition : PxVec3) (Height Radius : float)
    (k : Z -> Client)
| CallGetCharacter (ID : Z) (k : ptr -> Client)
| CallMoveCharacter (ID : Z) (Disp : PxVec3) (ElapsedTime : float)
    (ApplyGravity : bool) (k : Z -> Client).

Fixpoint run (c : Client) : M unit :=
  match c with
  | Done => ret tt
  | CallInitialize n g k =>
      let* r := Initialize n g in run (k r)
  | CallSimulate dt k =>
      Simulate dt;; run k
  | CallSimulateFixedFrequency f k =>
      SimulateFixedFrequency f None;; run k
  | CallSimulateFixedFrequencyWith f callback k =>
      SimulateFixedFrequency f (Some (fun t => run (callback t)));; run k
  | CallCreatePhysicsTriangleMesh sv si vl il k =>
      let* r := CreatePhysicsTriangleMesh sv si vl il in run (k r)
  | CallCreateStaticActor id p r sc k =>
      let* r := CreateStaticActor id p r sc in run (k r)
  | CallCreateTerrain p sc sx sy mn mx hm k =>
      let* r := CreateTerrain p sc sx sy mn mx hm in run (k r)
  | CallCreateCharacterController p h r k =>
      let* r := CreateCharacterController p h r in run (k r)
  | CallGetCharacter id k =>
      let* r := GetCharacter id in run (k r)
  | CallMoveCharacter id d t g k =>
      let* r := MoveCharacter id d t g in run (k r)
  end.

(** ** Initial states for the examples *)

Definition world0 (sdk_answers clock : nat -> Z) (debug : bool) : World :=
  mkWorld sdk_answers 0 clock 0 None debug [].

Definition state0 (sdk_answers clock : nat -> Z) (debug : bool) : State :=
  mkState PhysicsEngine_default (world0 sdk_answers clock debug).

(** An SDK in which the [n]-th call answers [n + 1]: every call succeeds and
    every object is distinct. *)
Definition sdk_fresh : nat -> Z := fun n => Z.of_nat (S n).

(** An SDK as [sdk_fresh], except that call number [k] fails. *)
Definition sdk_failing_at (k : nat) : nat -> Z :=
  fun n => if Nat.eqb n k then 0 else Z.of_nat (S n).

Definition clock_zero : nat -> Z := fun _ => 0.

(** A clock that advances by one second between two readings. *)
Definition clock_seconds : nat -> Z := fun n => Z.of_nat n * 10 ^ 9.

Definition result_of {A} (r : Res (A * State)) : option A :=
  match r with
  | Ok (a, _) => Some a
  | Undefined _ => None
  end.

Definition state_of {A} (r : Res (A * State)) : option State :=
  match r with
  | Ok (_, s) => Some s
  | Undefined _ => None
  end.

Definition default_gravity : PxVec3 := mkPxVec3 0 (-9.81) 0.

(** The state a call leaves behind (the state itself when the call is
    undefined). *)
Definition after {A} (m : M A) (s : State) : State :=
  match m s with
  | Ok (_, s') => s'
  | Undefined _ => s
  end.

(** A release build after [Initialize()], as in [main]. *)
Definition initialised (sdk_answers clock : nat -> Z) : State :=
  after (Initialize 2 default_gravity) (state0 sdk_answers clock false).

(** Every SDK call succeeds. *)
Definition ready : State := initialised sdk_fresh clock_zero.

(** As [ready], except that SDK call number [k] fails. *)
Definition ready_failing_at (k : nat) : State :=
  initialised (sdk_failing_at k) clock_zero.

(** ** Notions used in the statements *)

(** Both tables of [s] are initial segments of those of [s']. *)
Definition tables_extend (s s' : State) : Prop :=
  Characters (engine s) `prefix_of` Characters (engine s')
  /\ TriangleMeshes (engine s) `prefix_of` TriangleMeshes (engine s').

Definition append_only {A} (m : M A) : Prop :=
  forall s a s', m s = Ok (a, s') -> tables_extend s s'.

(** A value the conversion to a signed 16-bit integer is defined on. *)
Definition fits_int16 (x : float) : Prop :=
  float_finite x = true /\ -32768 <= float_trunc x <= 32767.

(** The sample the loops write for a height-map entry [v]: the integer part
    of the rescaled height, both material indices 0. *)
Definition sample_of (MinZ MaxZ v : float) : PxHeightFieldSample :=
  mkPxHeightFieldSample (float_trunc ((MaxZ - MinZ) * v + MinZ)) 0 0.

(** The output indices written before turn [(Y, X)] of the two loops. *)
Definition written (SizeX SizeY Y X : Z) (k : nat) : Prop :=
  exists y x,
    0 <= y /\ 0 <= x < SizeX /\ (y < Y \/ (y = Y /\ x < X))
    /\ k = Z.to_nat (y + x * SizeY).

(** The buffer has its size and holds [sample_of] wherever written. *)
Definition filled (SizeX SizeY : Z) (MinZ MaxZ v : float) (Y X : Z)
    (buf : list PxHeightFieldSample) : Prop :=
  length buf = Z.to_nat (SizeX * SizeY)
  /\ forall k,
       written SizeX SizeY Y X k -> buf !! k = Some (sample_of MinZ MaxZ v).

(** A clock for two calls of [SimulateFixedFrequency]: the first call
    happens at time 0 (two readings), the second a tenth of a second
    (10^8 ns) later. *)
Definition clock_tenth_of_a_second : nat -> Z :=
  fun n => if (n <=? 1)%nat then 0 else 10 ^ 8.

(** The callback of [main]. *)
Definition move_callback (character_id : Z) : float -> M unit :=
  fun ElapsedTime =>
    MoveCharacter character_id (mkPxVec3 7 0 0) ElapsedTime true;; ret tt.

(** The program of [main] once the controller exists: a mesh, two static
    actors, and some turns of the game loop. *)
Definition main_after_character (character_id : Z) (turns : nat) : Client :=
  CallGetCharacter character_id (fun _ =>
  CallCreatePhysicsTriangleMesh 12 4
    [mkPxVec3 (-1) 0 (-1); mkPxVec3 (-1) 0 1; mkPxVec3 1 0 (-1); mkPxVec3 1 0 1]
    [3; 2; 0; 3; 0; 1] (fun mesh_id =>
  CallCreateStaticActor mesh_id (mkPxVec3 0 (-250) 0) PxIdentity
    (mkPxVec3 500 1 500) (fun _ =>
  CallCreateStaticActor mesh_id (mkPxVec3 100 (-400) 0) PxIdentity
    (mkPxVec3 800 1 800) (fun _ =>
  Nat.iter turns
    (CallSimulateFixedFrequencyWith 60
       (fun ElapsedTime =>
          CallMoveCharacter character_id (mkPxVec3 7 0 0) ElapsedTime true
            (fun _ => Done)))
    Done)))).

(** ** [PhysicsEngine::~PhysicsEngine]

    The destructor ends the instance, so it is a function of the final
    state to the SDK calls it makes, in order.  [getTransport] is answered
    by the oracle's next answer. *)

Inductive Teardown : Type :=
| Release_Scene (scene : ptr)
| Release_Dispatcher (dispatcher : ptr)
| Release_Physics (physics : ptr)
| Pvd_getTransport (pvd : ptr)
| Release_Pvd (pvd : ptr)
| Release_Transport (transport : ptr)
| Release_Foundation (foundation : ptr).

(** [if (p) p->release();]. *)
Definition release_if_set (p : ptr) (call : ptr -> Teardown) : list Teardown :=
  if is_null p then [] else [call p].

Definition Destructor (s : State) : Res (list Teardown) :=
  let e := engine s in
  let scene := release_if_set (GlobalScene e) Release_Scene in
  let dispatcher := release_if_set (Dispatcher e) Release_Dispatcher in
  let physics := release_if_set (Physics e) Release_Physics in
  Rbind
    (if is_null (PVD e) then Ok []
     else
       let transport := sdk_oracle (world s) (sdk_calls (world s)) in
       if is_null transport then Undefined NullDereference
       else Ok [Pvd_getTransport (PVD e); Release_Pvd (PVD e);
                Release_Transport transport])
    (fun pvd =>
       Ok (scene ++ dispatcher ++ physics ++ pvd
           ++ release_if_set (Foundation e) Release_Foundation)).

(** ** [main], up to its game loop

    [Initialize()] with its default arguments, its result ignored; the
    controller; [GetCharacter]; the quad mesh and the two static actors. *)
Definition main_setup : Client :=
  CallInitialize 2 default_gravity (fun _ =>
  CallCreateCharacterController (mkPxVec3 0 0 0) 125 20 (fun character_id =>
  main_after_character character_id 0)).

(** ** Further notions used in the statements *)

(** The [i]-th answer the SDK will give from state [s] on. *)
Definition answer (s : State) (i : nat) : Z :=
  sdk_oracle (world s) (sdk_calls (world s) + i)%nat.

(** The events a call has added to the trace. *)
Definition added (s s' : State) (events : list Event) : Prop :=
  trace (world s') = events ++ trace (world s).

(** No table holds a null pointer. *)
Definition tables_nonnull (s : State) : Prop :=
  Forall (fun p => p <> nullptr) (Characters (engine s))
  /\ Forall (fun p => p <> nullptr) (TriangleMeshes (engine s)).

(** A step that keeps the tables free of null pointers. *)
Definition nonnull_kept (s s' : State) : Prop :=
  tables_nonnull s -> tables_nonnull s'.

(** The SDK objects and the gravity of the engine, set by [Initialize]. *)
Definition same_context (s s' : State) : Prop :=
  Foundation (engine s') = Foundation (engine s)
  /\ PVD (engine s') = PVD (engine s)
  /\ Physics (engine s') = Physics (engine s)
  /\ Cooker (engine s') = Cooker (engine s)
  /\ GlobalScene (engine s') = GlobalScene (engine s)
  /\ Dispatcher (engine s') = Dispatcher (engine s)
  /\ DefaultMaterial (engine s') = DefaultMaterial (engine s)
  /\ CharacterManager (engine s') = CharacterManager (engine s)
  /\ Gravity (engine s') = Gravity (engine s).

(** A client program that does not call [Initialize]. *)
Fixpoint never_initializes (c : Client) : Prop :=
  match c with
  | Done => True
  | CallInitialize _ _ _ => False
  | CallSimulate _ k => never_initializes k
  | CallSimulateFixedFrequency _ k => never_initializes k
  | CallSimulateFixedFrequencyWith _ callback k =>
      (forall t, never_initializes (callback t)) /\ never_initializes k
  | CallCreatePhysicsTriangleMesh _ _ _ _ k => forall r, never_initializes (k r)
  | CallCreateStaticActor _ _ _ _ k => forall r, never_initializes (k r)
  | CallCreateTerrain _ _ _ _ _ _ _ k => forall r, never_initializes (k r)
  | CallCreateCharacterController _ _ _ k => forall r, never_initializes (k r)
  | CallGetCharacter _ k => forall r, never_initializes (k r)
  | CallMoveCharacter _ _ _ _ k => forall r, never_initializes (k r)
  end.

(** A relation between the states before and after a computation that holds
    of doing nothing, composes, and ignores the world. *)
Class Frame (R : State -> State -> Prop) : Prop := {
  frame_refl : forall s, R s s;
  frame_trans : forall s1 s2 s3, R s1 s2 -> R s2 s3 -> R s1 s3;
  frame_world : forall e w w', R (mkState e w) (mkState e w')
}.

Definition respects (R : State -> State -> Prop) {A} (m : M A) : Prop :=
  forall s a s', m s = Ok (a, s') -> R s s'.

(** The buffer a conversion has produced (empty when it is undefined). *)
Definition after_samples (r : Res (list PxHeightFieldSample))
    : list PxHeightFieldSample :=
  match r with
  | Ok buf => buf
  | Undefined _ => []
  end.

(** The turns [(y, x)] of the two loops of [CreateTerrain] made before turn
    [(Y, X)]. *)
Definition visited (SizeX Y X y x : Z) : Prop :=
  0 <= y /\ 0 <= x < SizeX /\ (y < Y \/ (y = Y /\ x < X)).

(** What the loops have stored: for every turn made, the sample of the
    height-map entry at [x * sizeof(float) + y * SizeX] sits at
    [y + x * SizeY]. *)
Definition laid_out (SizeX SizeY : Z) (MinZ MaxZ : float)
    (Heightmap : list float) (Y X : Z) (buf : list PxHeightFieldSample)
    : Prop :=
  length buf = length Heightmap
  /\ forall y x,
       visited SizeX Y X y x ->
       exists h,
         Heightmap !! Z.to_nat (x * sizeof_float + y * SizeX) = Some h
         /\ fits_int16 ((MaxZ - MinZ) * h + MinZ)
         /\ buf !! Z.to_nat (y + x * SizeY) = Some (sample_of MinZ MaxZ h).

(** * Properties *)

(** ** Floating point: what the literals and conversions of the source
    denote *)

Example float_literals :
  0.5%f32 = S754_finite false 8388608 (-24)
  /\ 0.6%f32 = S754_finite false 10066330 (-24)
  /\ (-9.81)%f32 = S754_finite true 10286531 (-20)
  /\ (float_value 0.6%f32 == 10066330 # 16777216)%Q
  /\ 0.1%f64 = S754_finite false 7205759403792794 (-56)
  /\ 0.25%f64 = S754_finite false 4503599627370496 (-54)
  /\ float_of_double 1e-6 = S754_finite false 8796093 (-43)
  /\ float_of_int (10 ^ 10) = S754_finite false 9765625 10
  /\ (float_value (float_of_int (10 ^ 10)) == inject_Z (10 ^ 10))%Q
  /\ float_of_int 16777217 = float_of_int 16777216
  /\ double_of_float 0.6 = S754_finite false 5404319767592960 (-53)
  /\ (float_value (double_of_float 0.6) == float_value 0.6%f32)%Q.
Proof.
  repeat match goal with |- _ /\ _ => split end; vm_compute; reflexivity.
Qed.

(** The conversion to a 16-bit integer truncates toward zero and is
    undefined out of range, on an infinity and on NaN. *)
Example float_to_int16_cases :
  float_to_int16 2.75 = Ok 2
  /\ float_to_int16 (-2.75) = Ok (-2)
  /\ float_to_int16 (-0.5) = Ok 0
  /\ float_to_int16 32767.5 = Ok 32767
  /\ float_to_int16 32768 = Undefined FloatToIntOverflow
  /\ float_to_int16 (-32768.5) = Ok (-32768)
  /\ float_to_int16 (-32769) = Undefined FloatToIntOverflow
  /\ float_to_int16 (1 / 0) = Undefined FloatToIntOverflow
  /\ float_to_int16 (0 / 0) = Undefined FloatToIntOverflow.
Proof.
  repeat match goal with |- _ /\ _ => split end; vm_compute; reflexivity.
Qed.

(** *** Roundings that are exact *)

Lemma iter_pos_nat {A} (f : A -> A) (p : positive) (x : A) :
  SpecFloat.iter_pos f p x = Nat.iter (Pos.to_nat p) f x.
Proof.
  revert x. induction p as [p IH|p IH|]; intros x; cbn [SpecFloat.iter_pos].
  - rewrite !IH, Pos2Nat.inj_xI.
    replace (2 * Pos.to_nat p)%nat with (Pos.to_nat p + Pos.to_nat p)%nat
      by lia.
    rewrite Nat.iter_succ_r, Nat.iter_add. reflexivity.
  - rewrite !IH, Pos2Nat.inj_xO.
    replace (2 * Pos.to_nat p)%nat with (Pos.to_nat p + Pos.to_nat p)%nat
      by lia.
    rewrite Nat.iter_add. reflexivity.
  - reflexivity.
Qed.

Lemma shr_1_doubled (k : nat) (m : positive) :
  Nat.iter k shr_1 (Build_shr_record (Zpos (Nat.iter k xO m)) false false)
  = Build_shr_record (Zpos m) false false.
Proof.
  revert m. induction k as [|k IH]; intros m; [reflexivity|].
  rewrite Nat.iter_succ_r. simpl. apply IH.
Qed.

Lemma digits2_pos_doubled (k : nat) (m : positive) :
  Zpos (digits2_pos (Nat.iter k xO m)) = Zpos (digits2_pos m) + Z.of_nat k.
Proof.
  induction k as [|k IH]; [simpl; lia|].
  simpl Nat.iter. simpl digits2_pos. rewrite Pos2Z.inj_succ, IH. lia.
Qed.

Lemma shr_doubled (k : nat) (m : positive) (e : Z) :
  shr (Build_shr_record (Zpos (Nat.iter k xO m)) false false) e (Z.of_nat k)
  = (Build_shr_record (Zpos m) false false, e + Z.of_nat k).
Proof.
  destruct k as [|k].
  - simpl. f_equal. lia.
  - unfold shr. rewrite Nat2Z.inj_succ, <- Z.add_1_r.
    destruct (Z.of_nat k + 1) as [|p|p] eqn:E; try lia.
    rewrite iter_pos_nat.
    replace (Pos.to_nat p) with (S k) by lia.
    rewrite shr_1_doubled. reflexivity.
Qed.

(** Rounding a mantissa that ends in [k] zeros to the exponent [k] higher
    loses nothing. *)
Lemma binary_round_aux_exact (prec emax : Z) (s : bool) (m : positive)
    (k : nat) (e : Z) :
  fexp prec emax (Zpos (digits2_pos m) + Z.of_nat k + e) = e + Z.of_nat k ->
  e + Z.of_nat k <= emax - prec ->
  binary_round_aux prec emax s (Zpos (Nat.iter k xO m)) e loc_Exact
  = S754_finite s m (e + Z.of_nat k).
Proof.
  intros Hexp Hmax. unfold binary_round_aux, shr_fexp.
  unfold Zdigits2 at 1. rewrite digits2_pos_doubled, Hexp.
  replace (e + Z.of_nat k - e) with (Z.of_nat k) by lia.
  unfold shr_record_of_loc at 1. rewrite shr_doubled.
  cbn [shr_m loc_of_shr_record round_nearest_even shr_record_of_loc Zdigits2].
  replace (Zpos (digits2_pos m) + (e + Z.of_nat k))
    with (Zpos (digits2_pos m) + Z.of_nat k + e) by lia.
  rewrite Hexp, Z.sub_diag. cbn [shr shr_m].
  rewrite (proj2 (Z.leb_le _ _) Hmax). reflexivity.
Qed.

(** A quarter of a normal [float] (24 significant bits) of magnitude at
    least 2^-124, computed as the source does, in [double] and back: the
    same mantissa, the exponent two lower. *)
Lemma quarter_exact (s : bool) (m : positive) (e : Z) :
  Zpos (digits2_pos m) = 24 ->
  -147 <= e <= 104 ->
  float_of_double (double_of_float (S754_finite s m e) * 0.25)
  = S754_finite s m (e - 2).
Proof.
  intros Hd He.
  assert (H1 : double_of_float (S754_finite s m e)
               = S754_finite s (Nat.iter 29 xO m) (e - 29)).
  { unfold double_of_float, binary_round, shl_align, fexp, emin.
    rewrite Hd.
    replace (Z.max (24 + e - 53) (3 - 1024 - 53)) with (e - 29) by lia.
    replace (e - 29 - e) with (-29) by lia.
    change (Pos.iter xO m 29) with (Nat.iter 0 xO (Nat.iter 29 xO m)).
    rewrite binary_round_aux_exact.
    - f_equal. simpl. lia.
    - rewrite digits2_pos_doubled, Hd. unfold fexp, emin. simpl Z.of_nat. lia.
    - simpl Z.of_nat. lia. }
  rewrite H1.
  assert (H2 : (S754_finite s (Nat.iter 29 xO m) (e - 29) * 0.25)%f64
               = S754_finite s (Nat.iter 29 xO m) (e - 31)).
  { unfold dmul, SFmul. rewrite Pos.mul_comm.
    change (4503599627370496 * Nat.iter 29 xO m)%positive
      with (Nat.iter 52 xO (Nat.iter 29 xO m)).
    rewrite binary_round_aux_exact.
    - rewrite xorb_false_r. f_equal. simpl Z.of_nat. lia.
    - rewrite digits2_pos_doubled, Hd. unfold fexp, emin. simpl Z.of_nat. lia.
    - simpl Z.of_nat. lia. }
  rewrite H2.
  unfold float_of_double, binary_round, shl_align, fexp, emin.
  rewrite digits2_pos_doubled, Hd. change (Z.of_nat 29) with 29.
  replace (Z.max (24 + 29 + (e - 31) - 24) (3 - 128 - 24)) with (e - 2) by lia.
  replace (e - 2 - (e - 31)) with 29 by lia.
  cbv iota beta.
  rewrite binary_round_aux_exact.
  - f_equal. simpl Z.of_nat. lia.
  - rewrite Hd. unfold fexp, emin. simpl Z.of_nat. lia.
  - simpl Z.of_nat. lia.
Qed.

Lemma float_value_quarter (s : bool) (m : positive) (e : Z) :
  (float_value (S754_finite s m (e - 2))
   == float_value (S754_finite s m e) * (1 # 4))%Q.
Proof.
  unfold float_value. unfold Z.sub. rewrite Qpower_plus by discriminate.
  change (2 ^ (-2))%Q with (1 # 4)%Q. apply Qmult_assoc.
Qed.

(** ** Tactics for straight-line monadic code *)

Ltac unfold_monad :=
  unfold bind, ret, this, the_world, deref, sdk, cout, emit, set_engine,
    set_world, set_start_time, now, lift, undefined in *.

Ltac split_ifs_in H :=
  repeat match type of H with
         | context [if ?c then _ else _] =>
             let E := fresh "E" in destruct c eqn:E; simpl in H
         end.

Ltac split_ifs :=
  repeat match goal with
         | |- context [if ?c then _ else _] =>
             let E := fresh "E" in destruct c eqn:E; simpl
         end.

Lemma is_null_true (p : ptr) : is_null p = true <-> p = nullptr.
Proof. unfold is_null. apply Z.eqb_eq. Qed.

Lemma is_null_false (p : ptr) : is_null p = false <-> p <> nullptr.
Proof. unfold is_null. apply Z.eqb_neq. Qed.

Lemma failure_handle_value : failure_handle = 2 ^ 64 - 1.
Proof. reflexivity. Qed.

Lemma size_small {A} (v : list A) :
  Z.of_nat (length v) < 2 ^ 64 -> size v = Z.of_nat (length v).
Proof. intros H. unfold size, wrap64. apply Z.mod_small. lia. Qed.

Lemma length_push_back {A} (v : list A) (x : A) :
  length (push_back v x) = S (length v).
Proof. unfold push_back. rewrite length_app. simpl. lia. Qed.

(** The handle computed after a [push_back] is the old length. *)
Lemma handle_after_push_back {A} (v : list A) (x : A) :
  Z.of_nat (length v) < 2 ^ 64 - 1 ->
  wrap64 (size (push_back v x) - 1) = Z.of_nat (length v).
Proof.
  intros H. rewrite size_small; rewrite length_push_back; [|lia].
  unfold wrap64. rewrite Z.mod_small; lia.
Qed.

(** ** [CreatePhysicsTriangleMesh]: the index count is validated first *)

(** The check itself, on [IndexList.size()]. *)
Lemma CreatePhysicsTriangleMesh_index_count_check
    {VertexT IndexT : Type} (sizeof_VertexT sizeof_IndexT : Z)
    (VertexList : list VertexT) (IndexList : list IndexT) (s : State) :
  size IndexList mod 3 <> 0 ->
  CreatePhysicsTriangleMesh sizeof_VertexT sizeof_IndexT VertexList IndexList s
  = Ok (failure_handle,
        mkState (engine s)
          (mkWorld (sdk_oracle (world s)) (sdk_calls (world s))
             (clock_oracle (world s)) (clock_reads (world s))
             (start_time (world s)) (DEBUG (world s))
             (EvLog "The index count must be a multiple of 3"
              :: trace (world s)))).
Proof.
  intros Hmod. unfold CreatePhysicsTriangleMesh.
  destruct (size IndexList mod 3 =? 0) eqn:E.
  - apply Z.eqb_eq in E. contradiction.
  - reflexivity.
Qed.

(** C6. For every vertex list and every index list (a [std::vector], so of
    fewer than 2^64 elements) whose length is not a multiple of 3,
    [CreatePhysicsTriangleMesh] returns the failure handle, makes no SDK
    call at all (so none to the cooker: the only new event is the line
    written to [cout]) and leaves the engine, mesh table included, as it
    was. *)
Theorem CreatePhysicsTriangleMesh_rejects_bad_index_count
    {VertexT IndexT : Type} (sizeof_VertexT sizeof_IndexT : Z)
    (VertexList : list VertexT) (IndexList : list IndexT) (s : State) :
  Z.of_nat (length IndexList) < 2 ^ 64 ->
  Z.of_nat (length IndexList) mod 3 <> 0 ->
  exists s',
    CreatePhysicsTriangleMesh sizeof_VertexT sizeof_IndexT VertexList IndexList s
      = Ok (failure_handle, s')
    /\ engine s' = engine s
    /\ TriangleMeshes (engine s') = TriangleMeshes (engine s)
    /\ sdk_calls (world s') = sdk_calls (world s)
    /\ trace (world s')
       = EvLog "The index count must be a multiple of 3" :: trace (world s).
Proof.
  intros Hlen Hmod. eexists. split.
  - apply CreatePhysicsTriangleMesh_index_count_check.
    rewrite size_small by assumption. assumption.
  - repeat split.
Qed.

Lemma CreatePhysicsTriangleMesh_rejects_bad_index_count_witness :
  exists s',
    CreatePhysicsTriangleMesh 12 4 [default_gravity; default_gravity]
      [3; 2; 0; 3] ready = Ok (failure_handle, s')
    /\ engine s' = engine ready
    /\ TriangleMeshes (engine s') = TriangleMeshes (engine ready)
    /\ sdk_calls (world s') = sdk_calls (world ready)
    /\ trace (world s')
       = EvLog "The index count must be a multiple of 3" :: trace (world ready).
Proof.
  apply (CreatePhysicsTriangleMesh_rejects_bad_index_count 12 4
           [default_gravity; default_gravity] [3; 2; 0; 3] ready).
  - vm_compute. reflexivity.
  - vm_compute. discriminate.
Defined.

(** ** Creation either fails without a trace in the tables, or appends *)

Lemma CreatePhysicsTriangleMesh_outcome {VertexT IndexT : Type}
    (sv si : Z) (vl : list VertexT) (il : list IndexT) (s : State) h s' :
  Z.of_nat (length (TriangleMeshes (engine s))) < 2 ^ 64 - 1 ->
  CreatePhysicsTriangleMesh sv si vl il s = Ok (h, s') ->
  (h = failure_handle /\ engine s' = engine s)
  \/ (h <> failure_handle
      /\ h = Z.of_nat (length (TriangleMeshes (engine s)))
      /\ Characters (engine s') = Characters (engine s)
      /\ exists mesh, mesh <> nullptr
           /\ TriangleMeshes (engine s') = TriangleMeshes (engine s) ++ [mesh]).
Proof.
  intros Hlen H. unfold CreatePhysicsTriangleMesh in H.
  unfold_monad. simpl in H. split_ifs_in H; inversion H; subst; clear H;
    simpl; try (left; split; reflexivity).
  right. rewrite handle_after_push_back by assumption.
  rewrite failure_handle_value. repeat split; try lia.
  eexists. split; [|reflexivity]. apply is_null_false. assumption.
Qed.

Lemma CreateCharacterController_outcome (pos : PxVec3) (H R : float)
    (s : State) h s' :
  Z.of_nat (length (Characters (engine s))) < 2 ^ 64 - 1 ->
  CreateCharacterController pos H R s = Ok (h, s') ->
  (h = failure_handle /\ engine s' = engine s)
  \/ (h <> failure_handle
      /\ h = Z.of_nat (length (Characters (engine s)))
      /\ TriangleMeshes (engine s') = TriangleMeshes (engine s)
      /\ exists controller, controller <> nullptr
           /\ Characters (engine s') = Characters (engine s) ++ [controller]).
Proof.
  intros Hlen Hc. unfold CreateCharacterController in Hc.
  unfold_monad. simpl in Hc. split_ifs_in Hc; inversion Hc; subst; clear Hc;
    simpl; try (left; split; reflexivity).
  right. rewrite handle_after_push_back by assumption.
  rewrite failure_handle_value. repeat split; try lia.
  eexists. split; [|reflexivity]. apply is_null_false. assumption.
Qed.

(** Both creation calls return whenever the SDK objects they call through
    exist. *)
Lemma CreatePhysicsTriangleMesh_defined {VertexT IndexT : Type}
    (sv si : Z) (vl : list VertexT) (il : list IndexT) (s : State) :
  Cooker (engine s) <> nullptr -> Physics (engine s) <> nullptr ->
  exists h s', CreatePhysicsTriangleMesh sv si vl il s = Ok (h, s').
Proof.
  intros Hc Hp. apply is_null_false in Hc, Hp.
  unfold CreatePhysicsTriangleMesh. unfold_monad. simpl.
  split_ifs; try congruence; eauto.
Qed.

Lemma CreateCharacterController_defined (pos : PxVec3) (H R : float)
    (s : State) :
  CharacterManager (engine s) <> nullptr ->
  exists h s', CreateCharacterController pos H R s = Ok (h, s').
Proof.
  intros Hm. apply is_null_false in Hm.
  unfold CreateCharacterController. unfold_monad. simpl.
  split_ifs; try congruence; eauto.
Qed.

(** C10. Let both tables hold fewer than [SIZE_MAX] entries.  Whenever
    [CreatePhysicsTriangleMesh] or [CreateCharacterController] returns,
    either it returns the failure handle, [-1] as a [size_t], and the whole
    engine, its table included, is unchanged; or it returns a handle
    different from the failure handle, namely the old length of its table,
    and the table has grown by exactly that one entry. *)
Theorem creation_failure_atomic_and_distinct (s : State) :
  Z.of_nat (length (TriangleMeshes (engine s))) < 2 ^ 64 - 1 ->
  Z.of_nat (length (Characters (engine s))) < 2 ^ 64 - 1 ->
  failure_handle = 2 ^ 64 - 1
  /\ (forall (VertexT IndexT : Type) (sv si : Z) (vl : list VertexT)
        (il : list IndexT) h s',
       CreatePhysicsTriangleMesh sv si vl il s = Ok (h, s') ->
       (h = failure_handle
        /\ TriangleMeshes (engine s') = TriangleMeshes (engine s))
       \/ (h <> failure_handle
           /\ h = Z.of_nat (length (TriangleMeshes (engine s)))
           /\ exists mesh,
                TriangleMeshes (engine s')
                = TriangleMeshes (engine s) ++ [mesh]))
  /\ (forall (pos : PxVec3) (H R : float) h s',
       CreateCharacterController pos H R s = Ok (h, s') ->
       (h = failure_handle /\ Characters (engine s') = Characters (engine s))
       \/ (h <> failure_handle
           /\ h = Z.of_nat (length (Characters (engine s)))
           /\ exists controller,
                Characters (engine s') = Characters (engine s) ++ [controller])).
Proof.
  intros Hm Hc. split; [reflexivity|]. split.
  - intros VertexT IndexT sv si vl il h s' Hr.
    destruct (CreatePhysicsTriangleMesh_outcome sv si vl il s h s' Hm Hr)
      as [[-> ->]|(Hne & Hh & _ & mesh & _ & Ht)].
    + left. split; reflexivity.
    + right. repeat split; try assumption. exists mesh. assumption.
  - intros pos H R h s' Hr.
    destruct (CreateCharacterController_outcome pos H R s h s' Hc Hr)
      as [[-> ->]|(Hne & Hh & _ & c & _ & Ht)].
    + left. split; reflexivity.
    + right. repeat split; try assumption. exists c. assumption.
Qed.

(** On the engine of [main]: the first controller, and the quad mesh. *)
Lemma creation_failure_atomic_and_distinct_witness :
  (exists h s',
     CreateCharacterController (mkPxVec3 0 0 0) 125 20 ready = Ok (h, s')
     /\ ((h = failure_handle
          /\ Characters (engine s') = Characters (engine ready))
         \/ (h <> failure_handle
             /\ h = Z.of_nat (length (Characters (engine ready)))
             /\ exists controller,
                  Characters (engine s')
                  = Characters (engine ready) ++ [controller])))
  /\ (exists h s',
        CreatePhysicsTriangleMesh 12 4
          [mkPxVec3 (-1) 0 (-1); mkPxVec3 (-1) 0 1; mkPxVec3 1 0 (-1);
           mkPxVec3 1 0 1]
          [3; 2; 0; 3; 0; 1] (ready_failing_at 7) = Ok (h, s')
        /\ ((h = failure_handle
             /\ TriangleMeshes (engine s')
                = TriangleMeshes (engine (ready_failing_at 7)))
            \/ (h <> failure_handle
                /\ h = Z.of_nat
                         (length (TriangleMeshes (engine (ready_failing_at 7))))
                /\ exists mesh,
                     TriangleMeshes (engine s')
                     = TriangleMeshes (engine (ready_failing_at 7)) ++ [mesh]))).
Proof.
  split.
  - destruct (creation_failure_atomic_and_distinct ready) as (_ & _ & Hc);
      [vm_compute; reflexivity|vm_compute; reflexivity|].
    eexists _, _. split; [vm_compute; reflexivity|].
    apply (Hc (mkPxVec3 0 0 0) 125%f32 20%f32). vm_compute. reflexivity.
  - destruct (creation_failure_atomic_and_distinct (ready_failing_at 7))
      as (_ & Hm & _); [vm_compute; reflexivity|vm_compute; reflexivity|].
    eexists _, _. split; [vm_compute; reflexivity|].
    apply (Hm PxVec3 Z 12 4
             [mkPxVec3 (-1) 0 (-1); mkPxVec3 (-1) 0 1; mkPxVec3 1 0 (-1);
              mkPxVec3 1 0 1]
             [3; 2; 0; 3; 0; 1]).
    vm_compute. reflexivity.
Defined.

(** The two outcomes on the engine of [main]: the first controller gets
    handle 0, and with a failing SDK the failure handle comes back. *)
Example CreateCharacterController_first_handle :
  result_of (CreateCharacterController (mkPxVec3 0 0 0) 125 20 ready) = Some 0.
Proof. vm_compute. reflexivity. Qed.

Example CreateCharacterController_sdk_failure :
  result_of (CreateCharacterController (mkPxVec3 0 0 0) 125 20
               (ready_failing_at 7)) = Some failure_handle.
Proof. vm_compute. reflexivity. Qed.

(** ** [CreateCharacterController]: the descriptor *)

(** The one SDK call [CreateCharacterController] makes, on an engine with a
    controller manager. *)
Lemma CreateCharacterController_call (StartPosition : PxVec3)
    (Height Radius : float) (s : State) :
  CharacterManager (engine s) <> nullptr ->
  exists h s' log,
    CreateCharacterController StartPosition Height Radius s = Ok (h, s')
    /\ trace (world s')
       = log ++ EvSdk (ControllerManager_createController
                         (CharacterManager (engine s))
                         (controller_desc (engine s) StartPosition Height
                            Radius))
           :: trace (world s)
    /\ forallb is_log log = true.
Proof.
  intros Hm. apply is_null_false in Hm.
  unfold CreateCharacterController, bind, this, deref. rewrite Hm.
  unfold ret, sdk.
  destruct (is_null (sdk_oracle (world s) (sdk_calls (world s)))) eqn:E.
  - eexists _, _, [_]. split; [reflexivity|]. split; reflexivity.
  - eexists _, _, []. split; [reflexivity|]. split; reflexivity.
Qed.

(** C9 as stated fails.  The contact offset is [Radius + Radius * 0.1]
    evaluated in [double] and rounded to [float], which is not
    [Radius * 1.1].  With [Radius = 3] the descriptor passed to the SDK
    holds 13841203/4194304, not 33/10.  With
    [Radius = 221.69944763183594] (a [float]) it holds 15982224/65536,
    which is neither [Radius * 1.1] rounded once from [double], nor that
    product in [float] arithmetic: both are 15982225/65536. *)
Lemma CreateCharacterController_contact_offset_is_rounded :
  trace (world (after (CreateCharacterController (mkPxVec3 0 0 0) 125 3)
                  ready))
  = EvSdk (ControllerManager_createController
             (CharacterManager (engine ready))
             (controller_desc (engine ready) (mkPxVec3 0 0 0) 125 3))
    :: trace (world ready)
  /\ trace (world (after (CreateCharacterController (mkPxVec3 0 0 0) 125
                            221.69944763183594) ready))
     = EvSdk (ControllerManager_createController
                (CharacterManager (engine ready))
                (controller_desc (engine ready) (mkPxVec3 0 0 0) 125
                   221.69944763183594))
       :: trace (world ready)
  /\ (float_value
        (cd_contactOffset
           (controller_desc (engine ready) (mkPxVec3 0 0 0) 125 3))
      == 13841203 # 4194304)%Q
  /\ ~ (float_value
          (cd_contactOffset
             (controller_desc (engine ready) (mkPxVec3 0 0 0) 125 3))
        == float_value 3%f32 * (11 # 10))%Q
  /\ (float_value 221.69944763183594%f32 == 14529295 # 65536)%Q
  /\ (float_value
        (cd_contactOffset
           (controller_desc (engine ready) (mkPxVec3 0 0 0) 125
              221.69944763183594))
      == 15982224 # 65536)%Q
  /\ (float_value
        (float_of_double (double_of_float 221.69944763183594 * 1.1))
      == 15982225 # 65536)%Q
  /\ (float_value (221.69944763183594 * 1.1)%f32 == 15982225 # 65536)%Q.
Proof.
  repeat match goal with |- _ /\ _ => split end; vm_compute; congruence.
Qed.

(** C9 (amended). For every start position, height and radius, on an engine
    with a controller manager, the one SDK call [CreateCharacterController]
    makes is [createController] with a descriptor that holds the given
    height and radius, as contact offset the sum [Radius + Radius * 0.1]
    evaluated in [double] arithmetic and rounded to [float], and as step
    offset the product [Height * 0.25] evaluated in [double] arithmetic and
    rounded to [float]; for a normal [Height] (24 significant bits:
    [Height = m * 2^e] with [2^23 <= m < 2^24]) of magnitude at least
    2^-124, that step offset is exactly a quarter of [Height]. *)
Theorem CreateCharacterController_descriptor_offsets
    (StartPosition : PxVec3) (Height Radius : float) (s : State) :
  CharacterManager (engine s) <> nullptr ->
  exists h s' desc log,
    CreateCharacterController StartPosition Height Radius s = Ok (h, s')
    /\ trace (world s')
       = log ++ EvSdk (ControllerManager_createController
                         (CharacterManager (engine s)) desc) :: trace (world s)
    /\ forallb is_log log = true
    /\ cd_contactOffset desc
       = float_of_double
           (double_of_float Radius + double_of_float Radius * 0.1)
    /\ cd_stepOffset desc = float_of_double (double_of_float Height * 0.25)
    /\ (forall sign m e,
          Height = S754_finite sign m e ->
          Zpos (digits2_pos m) = 24 ->
          -147 <= e <= 104 ->
          cd_stepOffset desc = S754_finite sign m (e - 2)
          /\ (float_value (cd_stepOffset desc)
              == float_value Height * (1 # 4))%Q)
    /\ cd_height desc = Height
    /\ cd_radius desc = Radius.
Proof.
  intros Hm.
  destruct (CreateCharacterController_call StartPosition Height Radius s Hm)
    as (h & s' & log & Hrun & Htrace & Hlog).
  exists h, s', (controller_desc (engine s) StartPosition Height Radius), log.
  split; [assumption|]. split; [assumption|]. split; [assumption|].
  split; [reflexivity|]. split; [reflexivity|].
  split; [|split; reflexivity].
  intros sign m e -> Hd He. simpl cd_stepOffset.
  rewrite (quarter_exact sign m e Hd He).
  split; [reflexivity|apply float_value_quarter].
Qed.

(** The controller of [main], of height 125 and radius 20: contact offset
    22 and step offset 31.25, a quarter of 125. *)
Lemma CreateCharacterController_descriptor_offsets_witness :
  exists h s' desc log,
    CreateCharacterController (mkPxVec3 0 0 0) 125 20 ready = Ok (h, s')
    /\ trace (world s')
       = log ++ EvSdk (ControllerManager_createController
                         (CharacterManager (engine ready)) desc)
           :: trace (world ready)
    /\ forallb is_log log = true
    /\ cd_contactOffset desc = 22%f32
    /\ cd_stepOffset desc = 31.25%f32
    /\ (float_value (cd_stepOffset desc) == float_value 125%f32 * (1 # 4))%Q
    /\ cd_height desc = 125%f32
    /\ cd_radius desc = 20%f32.
Proof.
  destruct (CreateCharacterController_descriptor_offsets (mkPxVec3 0 0 0)
              125 20 ready)
    as (h & s' & desc & log & Hrun & Htrace & Hlog & Hco & Hso & Hq & Hh
        & Hr);
    [vm_compute; discriminate|].
  exists h, s', desc, log.
  split; [exact Hrun|]. split; [exact Htrace|]. split; [exact Hlog|].
  split; [rewrite Hco; vm_compute; reflexivity|].
  split; [rewrite Hso; vm_compute; reflexivity|].
  split; [|split; assumption].
  apply (Hq false 16384000%positive (-17)); [reflexivity|reflexivity|lia].
Defined.

(** ** The bounds checks of [CreateStaticActor] and [GetCharacter]

    Both guards read [id < 0 && id >= table.size()] on a [size_t]: the
    first conjunct is never true, so the guarded branch is never taken. *)

Lemma index_out_of_range {A} (v : list A) (i : Z) :
  Z.of_nat (length v) <= i -> index v i = Undefined OutOfBounds.
Proof.
  intros H. unfold index.
  rewrite (proj2 (lookup_ge_None v (Z.to_nat i))) by lia. reflexivity.
Qed.

Lemma index_in_range {A} (v : list A) (n : nat) (a : A) :
  v !! n = Some a -> index v (Z.of_nat n) = Ok a.
Proof.
  intros H. unfold index. rewrite Nat2Z.id, H.
  destruct (0 <=? Z.of_nat n) eqn:E; [reflexivity|].
  apply Z.leb_gt in E. lia.
Qed.

Lemma guard_never_fires (id sz : Z) : 0 <= id -> (id <? 0) && (id >=? sz) = false.
Proof. intros H. destruct (id <? 0) eqn:E; [apply Z.ltb_lt in E; lia|reflexivity]. Qed.

(** What the code does with a mesh handle at or past the end of the table:
    it reads the table out of range. *)
Lemma CreateStaticActor_out_of_range (MeshID : Z) (Position : PxVec3)
    (Rotation : PxQuat) (Scale : PxVec3) (s : State) :
  0 <= MeshID ->
  Z.of_nat (length (TriangleMeshes (engine s))) <= MeshID ->
  CreateStaticActor MeshID Position Rotation Scale s = Undefined OutOfBounds.
Proof.
  intros H0 H. unfold CreateStaticActor, bind, this, lift.
  rewrite guard_never_fires by assumption.
  rewrite index_out_of_range by assumption. reflexivity.
Qed.

(** C1 (the code does not do this). On the initialised engine of [main],
    whose mesh table is still empty, [CreateStaticActor(0, ...)] does not
    return [false]: the guard does not fire and the call reads
    [TriangleMeshes[0]] out of range. *)
Theorem CreateStaticActor_invalid_id_not_rejected :
  size (TriangleMeshes (engine ready)) = 0
  /\ CreateStaticActor 0 (mkPxVec3 0 (-250) 0) PxIdentity (mkPxVec3 500 1 500)
       ready = Undefined OutOfBounds.
Proof. split; vm_compute; reflexivity. Qed.

(** What the code does with a character handle at or past the end of the
    table, and with one inside it. *)
Lemma GetCharacter_out_of_range (ID : Z) (s : State) :
  0 <= ID ->
  Z.of_nat (length (Characters (engine s))) <= ID ->
  GetCharacter ID s = Undefined OutOfBounds.
Proof.
  intros H0 H. unfold GetCharacter, bind, this, lift.
  rewrite guard_never_fires by assumption.
  rewrite index_out_of_range by assumption. reflexivity.
Qed.

Lemma GetCharacter_in_range (n : nat) (controller : ptr) (s : State) :
  Characters (engine s) !! n = Some controller ->
  GetCharacter (Z.of_nat n) s = Ok (controller, s).
Proof.
  intros H. unfold GetCharacter, bind, this, lift.
  rewrite guard_never_fires by lia.
  rewrite (index_in_range _ _ _ H). reflexivity.
Qed.

(** C5 (the code does not do this). On the initialised engine of [main],
    before any controller exists, [GetCharacter(0)] does not return
    [nullptr]: the guard does not fire and the call reads [Characters[0]]
    out of range. *)
Theorem GetCharacter_invalid_id_not_rejected :
  size (Characters (engine ready)) = 0
  /\ GetCharacter 0 ready = Undefined OutOfBounds.
Proof. split; vm_compute; reflexivity. Qed.

(** ** [Initialize]: which SDK failures are detected *)

(** A failed foundation is detected, in every build. *)
Lemma Initialize_foundation_failure (NumThreads : Z) (g : PxVec3) (s : State) :
  sdk_oracle (world s) (sdk_calls (world s)) = nullptr ->
  exists s',
    Initialize NumThreads g s = Ok (false, s')
    /\ trace (world s')
       = EvLog "Failed to create the PhysX foundation instance"
         :: EvSdk PxCreateFoundation :: trace (world s).
Proof.
  intros H. unfold Initialize. unfold_monad. simpl. rewrite H. simpl.
  eexists. split; reflexivity.
Qed.

(** In a release build, a failed physics context or cooker is detected. *)
Lemma Initialize_physics_failure (NumThreads : Z) (g : PxVec3) (s : State) :
  DEBUG (world s) = false ->
  sdk_oracle (world s) (sdk_calls (world s)) <> nullptr ->
  sdk_oracle (world s) (S (sdk_calls (world s))) = nullptr ->
  exists s' sdk_events,
    Initialize NumThreads g s = Ok (false, s')
    /\ trace (world s')
       = EvLog "Failed to create the PhysX physics instance"
         :: sdk_events ++ trace (world s)
    /\ existsb is_log sdk_events = false.
Proof.
  intros Hd H0 H1. apply is_null_false in H0.
  unfold Initialize. unfold_monad. simpl. rewrite H0, Hd. simpl.
  rewrite H1. simpl.
  eexists _, [_; _]. split; [reflexivity|]. split; reflexivity.
Qed.

Lemma Initialize_cooker_failure (NumThreads : Z) (g : PxVec3) (s : State) :
  DEBUG (world s) = false ->
  sdk_oracle (world s) (sdk_calls (world s)) <> nullptr ->
  sdk_oracle (world s) (S (sdk_calls (world s))) <> nullptr ->
  sdk_oracle (world s) (S (S (sdk_calls (world s)))) = nullptr ->
  exists s' sdk_events,
    Initialize NumThreads g s = Ok (false, s')
    /\ trace (world s')
       = EvLog "Failed to create the PhysX cooker instance"
         :: sdk_events ++ trace (world s)
    /\ existsb is_log sdk_events = false.
Proof.
  intros Hd H0 H1 H2. apply is_null_false in H0, H1.
  unfold Initialize. unfold_monad. simpl. rewrite H0, Hd. simpl.
  rewrite H1. simpl. rewrite H2. simpl.
  eexists _, [_; _; _]. split; [reflexivity|]. split; reflexivity.
Qed.

(** When [Initialize] returns [true], the foundation, the physics context,
    the cooker and the scene exist.  Nothing is known of the dispatcher, the
    controller manager and the default material. *)
Lemma Initialize_true (NumThreads : Z) (g : PxVec3) (s s' : State) :
  Initialize NumThreads g s = Ok (true, s') ->
  Foundation (engine s') <> nullptr
  /\ Physics (engine s') <> nullptr
  /\ Cooker (engine s') <> nullptr
  /\ GlobalScene (engine s') <> nullptr.
Proof.
  intros H. unfold Initialize in H. unfold_monad. simpl in H.
  split_ifs_in H; inversion H; subst; clear H; simpl;
    repeat split; apply is_null_false; assumption.
Qed.

(** C4 (the code does not do this). In a release build where every SDK
    call succeeds except [createMaterial], the seventh one, which returns
    null, [Initialize] returns [true], writes no diagnostic and leaves
    [DefaultMaterial] null.  The same happens when only the controller
    manager, the sixth call, fails. *)
Theorem Initialize_undetected_failures :
  (exists s',
     Initialize 2 default_gravity (state0 (sdk_failing_at 6) clock_zero false)
       = Ok (true, s')
     /\ DefaultMaterial (engine s') = nullptr
     /\ existsb is_log (trace (world s')) = false)
  /\ (exists s',
        Initialize 2 default_gravity
          (state0 (sdk_failing_at 5) clock_zero false) = Ok (true, s')
        /\ CharacterManager (engine s') = nullptr
        /\ existsb is_log (trace (world s')) = false).
Proof. split; eexists; (split; [vm_compute; reflexivity|]); split; reflexivity. Qed.

(** A scene that fails to be created is not detected either: the next
    statement binds a reference to [*GlobalScene]. *)
Example Initialize_scene_failure :
  Initialize 2 default_gravity (state0 (sdk_failing_at 4) clock_zero false)
  = Undefined NullDereference.
Proof. reflexivity. Qed.

(** ** [CreateTerrain]: which SDK failures are detected *)

(** The value returned is decided by the answer of [PxCreateStatic], the
    second SDK call, alone; the answer of the cooker, the first, is passed
    on in the geometry and never tested. *)
Lemma CreateTerrain_result (Position Scale : PxVec3) (SizeX SizeY : Z)
    (MinZ MaxZ : float) (Heightmap : list float) (s s' : State) (b : bool) :
  CreateTerrain Position Scale SizeX SizeY MinZ MaxZ Heightmap s = Ok (b, s') ->
  b = negb (is_null (sdk_oracle (world s) (S (sdk_calls (world s))))).
Proof.
  intros H. unfold CreateTerrain in H. unfold_monad.
  destruct (terrain_samples _ _ _ _ _); [|discriminate]. simpl in H.
  split_ifs_in H; inversion H; subst; reflexivity.
Qed.

(** A failed actor creation is detected, and no actor is added. *)
Lemma CreateTerrain_actor_failure (Position Scale : PxVec3) (SizeX SizeY : Z)
    (MinZ MaxZ : float) (Heightmap : list float) (s s' : State) (b : bool) :
  CreateTerrain Position Scale SizeX SizeY MinZ MaxZ Heightmap s = Ok (b, s') ->
  sdk_oracle (world s) (S (sdk_calls (world s))) = nullptr ->
  b = false
  /\ exists pose geometry desc,
      trace (world s')
      = EvLog "Failed to create the terrain actor"
        :: EvSdk (PxCreateStatic (Physics (engine s)) pose geometry
                    (DefaultMaterial (engine s)))
        :: EvSdk (Cooker_createHeightField (Cooker (engine s)) desc)
        :: trace (world s).
Proof.
  intros H Hnull. unfold CreateTerrain in H. unfold_monad.
  destruct (terrain_samples _ _ _ _ _); [|discriminate]. simpl in H.
  split_ifs_in H; inversion H; subst; clear H; simpl.
  - split; [reflexivity|]. eexists _, _, _. reflexivity.
  - rewrite Hnull in *. discriminate.
Qed.

(** C8 (the code does not do this for the cooker). On the initialised
    engine of [main], with an SDK whose [createHeightField] returns null
    and whose [PxCreateStatic] then returns an actor, [CreateTerrain]
    returns [true] and adds that actor, built on the null height field, to
    the scene. *)
Theorem CreateTerrain_cooking_failure_not_detected :
  exists s' desc actor,
    CreateTerrain (mkPxVec3 0 0 0) (mkPxVec3 10 1 10) 1 1 0 1 [0.5]%f32
      (ready_failing_at 7) = Ok (true, s')
    /\ actor <> nullptr
    /\ trace (world s')
       = EvSdk (Scene_addActor (GlobalScene (engine s')) actor)
         :: EvSdk (PxCreateStatic (Physics (engine s'))
                     (mkPxTransform (mkPxVec3 0 0 0) PxIdentity)
                     (PxHeightFieldGeometry nullptr 1 10 10)
                     (DefaultMaterial (engine s')))
         :: EvSdk (Cooker_createHeightField (Cooker (engine s')) desc)
         :: trace (world (ready_failing_at 7)).
Proof.
  eexists _, _, 9. split; [vm_compute; reflexivity|].
  split; [discriminate|]. vm_compute. reflexivity.
Qed.

(** ** [SimulateFixedFrequency] *)

(** Below the threshold nothing happens: no callback, no SDK call, and the
    reference time stays. *)
Lemma SimulateFixedFrequency_below_threshold (Frequency : float)
    (Callback : option (float -> M unit)) (s : State) (t0 : Z) :
  start_time (world s) = Some t0 ->
  (deca_count (clock_oracle (world s) (clock_reads (world s)) - t0)
   >=? 1 / Frequency)%f32 = false ->
  exists s',
    SimulateFixedFrequency Frequency Callback s = Ok (tt, s')
    /\ trace (world s') = trace (world s)
    /\ sdk_calls (world s') = sdk_calls (world s)
    /\ start_time (world s') = Some t0
    /\ ElapsedTime (engine s')
       = deca_count (clock_oracle (world s) (clock_reads (world s)) - t0).
Proof.
  intros Hs Hlt. unfold SimulateFixedFrequency, static_start_time.
  unfold_monad. simpl. rewrite Hs. simpl. rewrite Hlt.
  eexists. repeat split. simpl. assumption.
Qed.

(** At or above the threshold, without a callback: the scene is advanced by
    the measured count and the reference time is read again. *)
Lemma SimulateFixedFrequency_at_threshold (Frequency : float) (s : State)
    (t0 : Z) :
  start_time (world s) = Some t0 ->
  GlobalScene (engine s) <> nullptr ->
  (deca_count (clock_oracle (world s) (clock_reads (world s)) - t0)
   >=? 1 / Frequency)%f32 = true ->
  exists s',
    SimulateFixedFrequency Frequency None s = Ok (tt, s')
    /\ trace (world s')
       = EvSdk (Scene_fetchResults (GlobalScene (engine s)) true)
         :: EvSdk (Scene_simulate (GlobalScene (engine s))
                     (deca_count
                        (clock_oracle (world s) (clock_reads (world s)) - t0)))
         :: trace (world s)
    /\ start_time (world s')
       = Some (clock_oracle (world s) (S (clock_reads (world s)))).
Proof.
  intros Hs Hg Hle. apply is_null_false in Hg.
  unfold SimulateFixedFrequency, static_start_time, Simulate.
  unfold_monad. simpl. rewrite Hs. simpl. rewrite Hle. simpl.
  rewrite Hg. simpl. eexists. repeat split.
Qed.

(** The measurement and the comparison are made in [float]: a tenth of a
    second measures 5368709/536870912, the [float] nearest to 1/100; at
    60 Hz the period is 1/60 rounded to [float], and 166666665 ns, a little
    less than ten exact periods, already reach it. *)
Example deca_count_is_rounded :
  deca_count (10 ^ 8) = 0.01%f32
  /\ (float_value (deca_count (10 ^ 8)) == 5368709 # 536870912)%Q
  /\ (float_value (1 / 60)%f32 == 8947849 # 536870912)%Q
  /\ (inject_Z 166666665 / inject_Z (10 ^ 10) < 1 / 60)%Q
  /\ (deca_count 166666665 >=? 1 / 60)%f32 = true
  /\ (deca_count 166666664 >=? 1 / 60)%f32 = false.
Proof. repeat split; vm_compute; reflexivity. Qed.

(** C2 (the code does not do this). [main], at 60 Hz: the engine is
    initialised, a controller created, and [SimulateFixedFrequency(60, cb)]
    called at time 0 and again 0.1 s later.  A tenth of a second is more
    than 1/60 s, yet the second call makes no step and no callback: the
    elapsed time it measures is 0.01, the count, in [float], of a duration
    whose unit is ten seconds. *)
Theorem SimulateFixedFrequency_measures_tens_of_seconds :
  let s0 :=
    after (CreateCharacterController (mkPxVec3 0 0 0) 125 20)
      (initialised sdk_fresh clock_tenth_of_a_second) in
  exists s1 s2,
    SimulateFixedFrequency 60 (Some (move_callback 0)) s0 = Ok (tt, s1)
    /\ start_time (world s1) = Some 0
    /\ clock_oracle (world s1) (clock_reads (world s1)) = 10 ^ 8
    /\ (1 / 60 <= inject_Z (10 ^ 8) / inject_Z (10 ^ 9))%Q
    /\ SimulateFixedFrequency 60 (Some (move_callback 0)) s1 = Ok (tt, s2)
    /\ trace (world s2) = trace (world s0)
    /\ start_time (world s2) = Some 0
    /\ ElapsedTime (engine s2) = 0.01%f32
    /\ (float_value (ElapsedTime (engine s2)) == 5368709 # 536870912)%Q.
Proof.
  eexists _, _. split; [vm_compute; reflexivity|].
  split; [reflexivity|]. split; [reflexivity|].
  split; [vm_compute; discriminate|].
  split; [vm_compute; reflexivity|].
  split; [reflexivity|]. split; [reflexivity|].
  split; vm_compute; reflexivity.
Qed.

(** The step does come once ten times the period has passed, and then
    reports, and advances the scene by, a tenth of the seconds elapsed. *)
Example SimulateFixedFrequency_steps_after_ten_periods :
  let s0 :=
    mkState (engine ready)
      (mkWorld sdk_fresh 7 (fun _ => 10 ^ 10) 0 (Some 0) false []) in
  exists s1,
    SimulateFixedFrequency 1 None s0 = Ok (tt, s1)
    /\ trace (world s1)
       = [EvSdk (Scene_fetchResults (GlobalScene (engine ready)) true);
          EvSdk (Scene_simulate (GlobalScene (engine ready))
                   (deca_count (10 ^ 10)))]
    /\ deca_count (10 ^ 10) = 1%f32.
Proof.
  eexists. split; [vm_compute; reflexivity|]. split; vm_compute; reflexivity.
Qed.

(** ** The tables are append-only *)

Lemma tables_extend_refl (s : State) : tables_extend s s.
Proof. split; reflexivity. Qed.

Lemma tables_extend_trans (s1 s2 s3 : State) :
  tables_extend s1 s2 -> tables_extend s2 s3 -> tables_extend s1 s3.
Proof. intros [H1 H2] [H3 H4]. split; etransitivity; eassumption. Qed.

Lemma tables_extend_same (s s' : State) :
  Characters (engine s') = Characters (engine s) ->
  TriangleMeshes (engine s') = TriangleMeshes (engine s) ->
  tables_extend s s'.
Proof. intros H1 H2. split; [rewrite H1|rewrite H2]; reflexivity. Qed.

Section AppendOnly.
Context {A B : Type}.

Lemma append_only_ret (a : A) : append_only (ret a).
Proof. intros s a' s' H. inversion H. apply tables_extend_refl. Qed.

Lemma append_only_bind (m : M A) (k : A -> M B) :
  append_only m -> (forall a, append_only (k a)) -> append_only (bind m k).
Proof.
  intros Hm Hk s b s' H. unfold bind in H.
  destruct (m s) as [[a s1]|] eqn:E; [|discriminate].
  eapply tables_extend_trans; [eapply Hm|eapply Hk]; eassumption.
Qed.

Lemma append_only_undefined (why : UB) : append_only (@undefined A why).
Proof. intros s a s' H. discriminate. Qed.

Lemma append_only_lift (r : Res A) : append_only (lift r).
Proof.
  intros s a s' H. unfold lift in H. destruct r; inversion H.
  apply tables_extend_refl.
Qed.
End AppendOnly.

Lemma append_only_this : append_only this.
Proof. intros s a s' H. inversion H. apply tables_extend_refl. Qed.

Lemma append_only_the_world : append_only the_world.
Proof. intros s a s' H. inversion H. apply tables_extend_refl. Qed.

Lemma append_only_set_world (f : World -> World) : append_only (set_world f).
Proof. intros s a s' H. inversion H. apply tables_extend_same; reflexivity. Qed.

Lemma append_only_emit (e : Event) : append_only (emit e).
Proof. apply append_only_set_world. Qed.

Lemma append_only_cout (msg : string) : append_only (cout msg).
Proof. apply append_only_emit. Qed.

Lemma append_only_set_start_time (t : Z) : append_only (set_start_time t).
Proof. apply append_only_set_world. Qed.

Lemma append_only_sdk (c : SdkCall) : append_only (sdk c).
Proof. intros s a s' H. inversion H. apply tables_extend_same; reflexivity. Qed.

Lemma append_only_now : append_only now.
Proof. intros s a s' H. inversion H. apply tables_extend_same; reflexivity. Qed.

Lemma append_only_deref (p : ptr) : append_only (deref p).
Proof.
  unfold deref. destruct (is_null p);
    [apply append_only_undefined|apply append_only_ret].
Qed.

(** Assignments to members other than the tables. *)
Lemma append_only_set_engine (f : PhysicsEngine -> PhysicsEngine) :
  (forall e, Characters (f e) = Characters e
             /\ TriangleMeshes (f e) = TriangleMeshes e) ->
  append_only (set_engine f).
Proof.
  intros Hf s a s' H. inversion H.
  apply tables_extend_same; simpl; apply Hf.
Qed.

(** The two [push_back]s. *)
Lemma append_only_push_character (p : ptr) :
  append_only
    (set_engine (fun e => with_Characters (push_back (Characters e) p) e)).
Proof.
  intros s a s' H. inversion H. split; simpl; [|reflexivity].
  exists [p]. reflexivity.
Qed.

Lemma append_only_push_mesh (p : ptr) :
  append_only
    (set_engine (fun e => with_TriangleMeshes (push_back (TriangleMeshes e) p) e)).
Proof.
  intros s a s' H. inversion H. split; simpl; [reflexivity|].
  exists [p]. reflexivity.
Qed.

Create HintDb append_only.
#[local] Hint Resolve append_only_ret append_only_undefined append_only_lift
  append_only_this append_only_the_world append_only_set_world
  append_only_emit append_only_cout append_only_set_start_time
  append_only_sdk append_only_now append_only_deref
  append_only_push_character append_only_push_mesh : append_only.

Ltac append_only_step :=
  match goal with
  | |- append_only (bind _ _) => apply append_only_bind; [|intros ?]
  | |- append_only (if ?c then _ else _) => destruct c
  | |- append_only (match ?x with _ => _ end) => destruct x
  | |- append_only (set_engine (with_Characters _)) => fail 1
  | |- append_only (set_engine (with_TriangleMeshes _)) => fail 1
  | |- append_only (set_engine _) =>
      apply append_only_set_engine; intros ?; split; reflexivity
  | |- append_only _ => solve [auto with append_only]
  end.

Ltac append_only_tac := repeat append_only_step.

Lemma append_only_Initialize (n : Z) (g : PxVec3) : append_only (Initialize n g).
Proof. unfold Initialize. append_only_tac. Qed.

Lemma append_only_Simulate (dt : float) : append_only (Simulate dt).
Proof. unfold Simulate. append_only_tac. Qed.

Lemma append_only_CreateStaticActor (id : Z) (p : PxVec3) (r : PxQuat)
    (sc : PxVec3) : append_only (CreateStaticActor id p r sc).
Proof. unfold CreateStaticActor. append_only_tac. Qed.

Lemma append_only_CreateTerrain (p sc : PxVec3) (sx sy : Z) (mn mx : float)
    (hm : list float) : append_only (CreateTerrain p sc sx sy mn mx hm).
Proof. unfold CreateTerrain. append_only_tac. Qed.

Lemma append_only_CreatePhysicsTriangleMesh {VertexT IndexT : Type}
    (sv si : Z) (vl : list VertexT) (il : list IndexT) :
  append_only (CreatePhysicsTriangleMesh sv si vl il).
Proof. unfold CreatePhysicsTriangleMesh. append_only_tac. Qed.

Lemma append_only_CreateCharacterController (p : PxVec3) (h r : float) :
  append_only (CreateCharacterController p h r).
Proof. unfold CreateCharacterController. append_only_tac. Qed.

Lemma append_only_GetCharacter (id : Z) : append_only (GetCharacter id).
Proof. unfold GetCharacter. append_only_tac. Qed.

Lemma append_only_MoveCharacter (id : Z) (d : PxVec3) (t : float) (g : bool) :
  append_only (MoveCharacter id d t g).
Proof.
  unfold MoveCharacter.
  apply append_only_bind; [apply append_only_GetCharacter|intros ?].
  append_only_tac.
Qed.

Lemma append_only_static_start_time : append_only static_start_time.
Proof. unfold static_start_time. append_only_tac. Qed.

(** [SimulateFixedFrequency] is as well-behaved as its callback. *)
Lemma append_only_SimulateFixedFrequency (f : float)
    (cb : option (float -> M unit)) :
  (forall callback t, cb = Some callback -> append_only (callback t)) ->
  append_only (SimulateFixedFrequency f cb).
Proof.
  intros Hcb. unfold SimulateFixedFrequency.
  apply append_only_bind; [apply append_only_static_start_time|intros ?].
  apply append_only_bind; [apply append_only_now|intros ?].
  apply append_only_bind;
    [apply append_only_set_engine; intros ?; split; reflexivity|intros ?].
  destruct (fge _ _); [|apply append_only_ret].
  apply append_only_bind.
  - destruct cb as [callback|]; [|apply append_only_ret].
    eapply Hcb. reflexivity.
  - intros ?. apply append_only_bind; [apply append_only_this|intros ?].
    apply append_only_bind; [apply append_only_Simulate|intros ?].
    append_only_tac.
Qed.

(** No client program removes or reorders an entry of either table. *)
Lemma append_only_run (prog : Client) : append_only (run prog).
Proof.
  induction prog; simpl.
  - apply append_only_ret.
  - apply append_only_bind; [apply append_only_Initialize|auto].
  - apply append_only_bind; [apply append_only_Simulate|auto].
  - apply append_only_bind; [|auto].
    apply append_only_SimulateFixedFrequency. intros ? ? ?. discriminate.
  - apply append_only_bind; [|auto].
    apply append_only_SimulateFixedFrequency.
    intros callback t E. inversion E. auto.
  - apply append_only_bind; [apply append_only_CreatePhysicsTriangleMesh|auto].
  - apply append_only_bind; [apply append_only_CreateStaticActor|auto].
  - apply append_only_bind; [apply append_only_CreateTerrain|auto].
  - apply append_only_bind; [apply append_only_CreateCharacterController|auto].
  - apply append_only_bind; [apply append_only_GetCharacter|auto].
  - apply append_only_bind; [apply append_only_MoveCharacter|auto].
Qed.

Lemma prefix_lookup_Some_stays {A} (l1 l2 : list A) (i : nat) (x : A) :
  l1 `prefix_of` l2 -> l1 !! i = Some x -> l2 !! i = Some x.
Proof. intros [k ->] H. apply lookup_app_l_Some. assumption. Qed.

Lemma lookup_last_pushed {A} (l : list A) (x : A) :
  (l ++ [x]) !! length l = Some x.
Proof. rewrite lookup_app_r by lia. rewrite Nat.sub_diag. reflexivity. Qed.

Lemma answer_0 (s : State) :
  answer s 0 = sdk_oracle (world s) (sdk_calls (world s)).
Proof. unfold answer. rewrite Nat.add_0_r. reflexivity. Qed.

(** What a successful creation has appended is the SDK's answer. *)
Lemma CreateCharacterController_appends_answer (pos : PxVec3) (H R : float)
    (s s1 : State) (handle : Z) :
  CreateCharacterController pos H R s = Ok (handle, s1) ->
  handle <> failure_handle ->
  answer s 0 <> nullptr
  /\ Characters (engine s1) = Characters (engine s) ++ [answer s 0].
Proof.
  intros Hc Hok. rewrite answer_0. unfold CreateCharacterController in Hc.
  unfold_monad. simpl in Hc.
  split_ifs_in Hc; inversion Hc; subst; clear Hc; try contradiction.
  split; [apply is_null_false; assumption|reflexivity].
Qed.

Lemma CreatePhysicsTriangleMesh_appends_answer {VertexT IndexT : Type}
    (sv si : Z) (vl : list VertexT) (il : list IndexT)
    (s s1 : State) (handle : Z) :
  CreatePhysicsTriangleMesh sv si vl il s = Ok (handle, s1) ->
  handle <> failure_handle ->
  answer s 0 <> nullptr
  /\ TriangleMeshes (engine s1) = TriangleMeshes (engine s) ++ [answer s 0].
Proof.
  intros Hc Hok. rewrite answer_0. unfold CreatePhysicsTriangleMesh in Hc.
  unfold_monad. simpl in Hc.
  split_ifs_in Hc; inversion Hc; subst; clear Hc; try contradiction.
  split; [apply is_null_false; assumption|reflexivity].
Qed.

(** The SDK calls of a successful creation: the first is the one whose
    answer is appended. *)
Lemma CreateCharacterController_success_call (pos : PxVec3) (H R : float)
    (s s1 : State) (handle : Z) :
  CreateCharacterController pos H R s = Ok (handle, s1) ->
  handle <> failure_handle ->
  added s s1
    [EvSdk (ControllerManager_createController (CharacterManager (engine s))
              (controller_desc (engine s) pos H R))].
Proof.
  intros Hc Hok. unfold CreateCharacterController in Hc.
  unfold_monad. simpl in Hc.
  split_ifs_in Hc; inversion Hc; subst; clear Hc; try contradiction.
  reflexivity.
Qed.

Lemma CreatePhysicsTriangleMesh_success_calls {VertexT IndexT : Type}
    (sv si : Z) (vl : list VertexT) (il : list IndexT)
    (s s1 : State) (handle : Z) :
  CreatePhysicsTriangleMesh sv si vl il s = Ok (handle, s1) ->
  handle <> failure_handle ->
  exists desc,
    added s s1
      [EvSdk (Physics_createTriangleMesh (Physics (engine s)));
       EvSdk (Cooker_cookTriangleMesh (Cooker (engine s)) desc);
       EvSdk (Cooker_createTriangleMesh (Cooker (engine s)) desc)].
Proof.
  intros Hc Hok. unfold CreatePhysicsTriangleMesh in Hc.
  unfold_monad. simpl in Hc.
  split_ifs_in Hc; inversion Hc; subst; clear Hc; try contradiction.
  eexists. reflexivity.
Qed.

(** C7. Let both tables hold fewer than [SIZE_MAX] entries.  After a
    successful [CreateCharacterController], whose one SDK call is
    [createController], the controller the SDK returned to that call
    ([answer s 0], not null) is the entry appended to the table, at the
    index that is the handle returned; [GetCharacter] on the handle returns
    that controller, and after any program of calls to the engine's public
    member functions (callbacks included) that runs on from there the table
    still holds that controller at that index and [GetCharacter] still
    returns it.  Likewise after a successful [CreatePhysicsTriangleMesh]:
    the mesh the cooker returned to the first of its three SDK calls is the
    entry appended, at the handle returned, and the handle indexes that
    mesh then and after any such program. *)
Theorem handles_stay_valid (s : State) :
  Z.of_nat (length (Characters (engine s))) < 2 ^ 64 - 1 ->
  Z.of_nat (length (TriangleMeshes (engine s))) < 2 ^ 64 - 1 ->
  (forall (pos : PxVec3) (H R : float) (handle : Z) (s1 : State),
     CreateCharacterController pos H R s = Ok (handle, s1) ->
     handle <> failure_handle ->
     let controller := answer s 0 in
     controller <> nullptr
     /\ added s s1
          [EvSdk (ControllerManager_createController
                    (CharacterManager (engine s))
                    (controller_desc (engine s) pos H R))]
     /\ Characters (engine s1) = Characters (engine s) ++ [controller]
     /\ handle = Z.of_nat (length (Characters (engine s)))
     /\ GetCharacter handle s1 = Ok (controller, s1)
     /\ forall (prog : Client) (s2 : State),
          run prog s1 = Ok (tt, s2) ->
          Characters (engine s2) !! Z.to_nat handle = Some controller
          /\ GetCharacter handle s2 = Ok (controller, s2))
  /\ (forall (VertexT IndexT : Type) (sv si : Z) (vl : list VertexT)
        (il : list IndexT) (handle : Z) (s1 : State),
       CreatePhysicsTriangleMesh sv si vl il s = Ok (handle, s1) ->
       handle <> failure_handle ->
       let mesh := answer s 0 in
       mesh <> nullptr
       /\ (exists desc,
             added s s1
               [EvSdk (Physics_createTriangleMesh (Physics (engine s)));
                EvSdk (Cooker_cookTriangleMesh (Cooker (engine s)) desc);
                EvSdk (Cooker_createTriangleMesh (Cooker (engine s)) desc)])
       /\ TriangleMeshes (engine s1) = TriangleMeshes (engine s) ++ [mesh]
       /\ handle = Z.of_nat (length (TriangleMeshes (engine s)))
       /\ index (TriangleMeshes (engine s1)) handle = Ok mesh
       /\ forall (prog : Client) (s2 : State),
            run prog s1 = Ok (tt, s2) ->
            TriangleMeshes (engine s2) !! Z.to_nat handle = Some mesh
            /\ index (TriangleMeshes (engine s2)) handle = Ok mesh).
Proof.
  intros Hc Hm. split.
  - intros pos H R handle s1 Hcreate Hok controller. subst controller.
    destruct (CreateCharacterController_appends_answer _ _ _ _ _ _ Hcreate Hok)
      as [Hnn Htab].
    pose proof (CreateCharacterController_success_call _ _ _ _ _ _ Hcreate Hok)
      as Hcall.
    destruct (CreateCharacterController_outcome _ _ _ _ _ _ Hc Hcreate)
      as [[Hf _]|(_ & -> & _)]; [contradiction|].
    assert (Hl : Characters (engine s1) !! length (Characters (engine s))
                 = Some (answer s 0))
      by (rewrite Htab; apply lookup_last_pushed).
    split; [assumption|]. split; [assumption|]. split; [assumption|].
    split; [reflexivity|].
    split; [apply GetCharacter_in_range; assumption|].
    intros prog s2 Hrun.
    destruct (append_only_run prog _ _ _ Hrun) as [Hp _].
    pose proof (prefix_lookup_Some_stays _ _ _ _ Hp Hl) as Hl2.
    rewrite Nat2Z.id.
    split; [assumption|apply GetCharacter_in_range; assumption].
  - intros VertexT IndexT sv si vl il handle s1 Hcreate Hok mesh. subst mesh.
    destruct (CreatePhysicsTriangleMesh_appends_answer _ _ _ _ _ _ _
                Hcreate Hok) as [Hnn Htab].
    pose proof (CreatePhysicsTriangleMesh_success_calls _ _ _ _ _ _ _
                  Hcreate Hok) as Hcalls.
    destruct (CreatePhysicsTriangleMesh_outcome _ _ _ _ _ _ _ Hm Hcreate)
      as [[Hf _]|(_ & -> & _)]; [contradiction|].
    assert (Hl : TriangleMeshes (engine s1)
                   !! length (TriangleMeshes (engine s)) = Some (answer s 0))
      by (rewrite Htab; apply lookup_last_pushed).
    split; [assumption|]. split; [assumption|]. split; [assumption|].
    split; [reflexivity|].
    split; [apply index_in_range; assumption|].
    intros prog s2 Hrun.
    destruct (append_only_run prog _ _ _ Hrun) as [_ Hp].
    pose proof (prefix_lookup_Some_stays _ _ _ _ Hp Hl) as Hl2.
    rewrite Nat2Z.id.
    split; [assumption|apply index_in_range; assumption].
Qed.

(** On the engine of [main], with a clock that advances: the SDK answers
    the [createController] call, its eighth, with the pointer 8; the
    controller created first has handle 0, is entry 0 of the table, and is
    still entry 0 and what [GetCharacter(0)] returns after the rest of
    [main] with three turns of its loop, in which the callback has moved
    the character. *)
Lemma handles_stay_valid_witness :
  let s0 := initialised sdk_fresh clock_seconds in
  let s1 := after (CreateCharacterController (mkPxVec3 0 0 0) 125 20) s0 in
  let s2 := after (run (main_after_character 0 3)) s1 in
  run (main_after_character 0 3) s1 = Ok (tt, s2)
  /\ (length (trace (world s1)) < length (trace (world s2)))%nat
  /\ answer s0 0 = 8
  /\ Characters (engine s1) = Characters (engine s0) ++ [8]
  /\ GetCharacter 0 s1 = Ok (8, s1)
  /\ Characters (engine s2) !! Z.to_nat 0 = Some 8
  /\ GetCharacter 0 s2 = Ok (8, s2).
Proof.
  intros s0 s1 s2.
  assert (Hrun : run (main_after_character 0 3) s1 = Ok (tt, s2))
    by (vm_compute; reflexivity).
  split; [exact Hrun|]. split; [vm_compute; lia|].
  split; [reflexivity|].
  destruct (handles_stay_valid s0) as [Hchar _];
    [vm_compute; reflexivity|vm_compute; reflexivity|].
  destruct (Hchar (mkPxVec3 0 0 0) 125%f32 20%f32 0 s1)
    as (_ & _ & Htab & _ & H1 & H2);
    [vm_compute; reflexivity|vm_compute; discriminate|].
  split; [exact Htab|]. split; [exact H1|].
  apply (H2 _ _ Hrun).
Defined.

(** ** [CreateTerrain]: the sample buffer *)

Lemma wrap32_small (z : Z) : 0 <= z < 2 ^ 32 -> wrap32 z = z.
Proof. intros H. unfold wrap32. apply Z.mod_small. assumption. Qed.

Lemma wrap64_small (z : Z) : 0 <= z < 2 ^ 64 -> wrap64 z = z.
Proof. intros H. unfold wrap64. apply Z.mod_small. assumption. Qed.

Lemma Rbind_Ok {A B} (r : Res A) (k : A -> Res B) (b : B) :
  Rbind r k = Ok b -> exists a, r = Ok a /\ k a = Ok b.
Proof. destruct r as [a|]; simpl; [eauto|discriminate]. Qed.

Lemma index_Ok {A} (v : list A) (i : Z) (a : A) :
  index v i = Ok a -> 0 <= i /\ v !! Z.to_nat i = Some a.
Proof.
  unfold index. destruct (v !! Z.to_nat i) as [x|]; [|discriminate].
  destruct (0 <=? i) eqn:E; [|discriminate].
  intros H. inversion H. split; [apply Z.leb_le; assumption|reflexivity].
Qed.

Lemma index_defined {A} (v : list A) (i : Z) :
  0 <= i -> (Z.to_nat i < length v)%nat -> exists a, index v i = Ok a.
Proof.
  intros H0 Hlt. unfold index.
  destruct (lookup_lt_is_Some_2 v (Z.to_nat i) Hlt) as [a ->].
  exists a. rewrite (proj2 (Z.leb_le 0 i)) by assumption. reflexivity.
Qed.

Lemma update_at_Ok {A} (v : list A) (i : Z) (f : A -> A) (v' : list A) :
  update_at v i f = Ok v' ->
  exists a, v !! Z.to_nat i = Some a /\ v' = <[Z.to_nat i := f a]> v.
Proof.
  unfold update_at. intros H. apply Rbind_Ok in H as (a & Ha & Hv).
  apply index_Ok in Ha as [_ Ha]. inversion Hv. eauto.
Qed.

Lemma update_at_defined {A} (v : list A) (i : Z) (f : A -> A) :
  0 <= i -> (Z.to_nat i < length v)%nat ->
  exists v', update_at v i f = Ok v' /\ length v' = length v.
Proof.
  intros H0 Hlt. unfold update_at.
  destruct (index_defined v i H0 Hlt) as [a ->]. simpl.
  eexists. split; [reflexivity|]. apply length_insert.
Qed.

Lemma float_to_int16_Ok (x : float) (z : Z) :
  float_to_int16 x = Ok z -> z = float_trunc x /\ fits_int16 x.
Proof.
  unfold float_to_int16, fits_int16.
  destruct (float_finite x); [|discriminate].
  destruct (-32768 <=? float_trunc x) eqn:E1; [|discriminate].
  destruct (float_trunc x <=? 32767) eqn:E2; [|discriminate].
  simpl. intros H. inversion H. subst.
  apply Z.leb_le in E1, E2. auto.
Qed.

Lemma float_to_int16_defined (x : float) :
  fits_int16 x -> float_to_int16 x = Ok (float_trunc x).
Proof.
  intros (Hf & H1 & H2). unfold float_to_int16.
  apply Z.leb_le in H1, H2. rewrite Hf, H1, H2. reflexivity.
Qed.

(** Loop invariants. *)
Lemma for_from_invariant {A} (P : Z -> A -> Prop) (body : Z -> A -> Res A)
    (n : nat) :
  forall (i : Z) (acc acc' : A),
    (forall j a a',
       i <= j < i + Z.of_nat n -> P j a -> body j a = Ok a' -> P (j + 1) a') ->
    P i acc ->
    for_from n i body acc = Ok acc' ->
    P (i + Z.of_nat n) acc'.
Proof.
  induction n as [|n IH]; intros i acc acc' Hstep Hi Hrun; simpl in Hrun.
  - inversion Hrun; subst. replace (i + Z.of_nat 0) with i by lia. assumption.
  - apply Rbind_Ok in Hrun as (a & Ha & Hrun).
    replace (i + Z.of_nat (S n)) with ((i + 1) + Z.of_nat n) by lia.
    apply (IH (i + 1) a acc'); [| |assumption].
    + intros j b b' Hj. apply Hstep. lia.
    + apply (Hstep i acc a); [lia|assumption|assumption].
Qed.

Lemma for_from_defined {A} (P : Z -> A -> Prop) (body : Z -> A -> Res A)
    (n : nat) :
  forall (i : Z) (acc : A),
    (forall j a,
       i <= j < i + Z.of_nat n -> P j a ->
       exists a', body j a = Ok a' /\ P (j + 1) a') ->
    P i acc ->
    exists acc', for_from n i body acc = Ok acc'.
Proof.
  induction n as [|n IH]; intros i acc Hstep Hi; simpl.
  - eauto.
  - destruct (Hstep i acc) as (a & Ha & HP); [lia|assumption|].
    rewrite Ha. simpl. apply IH; [|assumption].
    intros j b Hj. apply Hstep. lia.
Qed.

(** A loop that returns has returned from every turn. *)
Lemma for_from_every_turn {A} (body : Z -> A -> Res A) (n : nat) :
  forall (i : Z) (acc acc' : A),
    for_from n i body acc = Ok acc' ->
    forall j, i <= j < i + Z.of_nat n -> exists a a', body j a = Ok a'.
Proof.
  induction n as [|n IH]; intros i acc acc' Hrun j Hj; [lia|].
  simpl in Hrun. apply Rbind_Ok in Hrun as (a & Ha & Hrun).
  destruct (Z.eq_dec j i) as [->|Hne]; [eauto|].
  apply (IH (i + 1) a acc' Hrun). lia.
Qed.

(** One turn of the inner loop on a constant height-map: when it returns,
    it has stored [sample_of] at index [y + x * nbRows] (32-bit). *)
Lemma terrain_sample_constant (SizeX SizeY : Z) (MinZ MaxZ v : float)
    (n : nat) (y x : Z) (buf buf' : list PxHeightFieldSample) :
  terrain_sample SizeX SizeY MinZ MaxZ (replicate n v) y x buf = Ok buf' ->
  (Z.to_nat (wrap32 (y + wrap32 (x * SizeY))) < length buf)%nat
  /\ buf' = <[Z.to_nat (wrap32 (y + wrap32 (x * SizeY)))
              := sample_of MinZ MaxZ v]> buf
  /\ fits_int16 ((MaxZ - MinZ) * v + MinZ).
Proof.
  unfold terrain_sample. intros H.
  apply Rbind_Ok in H as (h & Hh & H).
  apply index_Ok in Hh as [_ Hh]. apply lookup_replicate in Hh as [-> _].
  apply Rbind_Ok in H as (h16 & Hh16 & H).
  apply float_to_int16_Ok in Hh16 as [-> Hfit].
  apply Rbind_Ok in H as (b1 & H1 & H).
  apply Rbind_Ok in H as (b2 & H2 & H3).
  apply update_at_Ok in H1 as (a1 & Ha1 & ->).
  pose proof (lookup_lt_Some _ _ _ Ha1) as Hlt.
  apply update_at_Ok in H2 as (a2 & Ha2 & ->).
  rewrite list_lookup_insert_eq in Ha2 by assumption.
  inversion Ha2; subst a2; clear Ha2.
  rewrite list_insert_insert_eq in H3.
  apply update_at_Ok in H3 as (a3 & Ha3 & ->).
  rewrite list_lookup_insert_eq in Ha3 by assumption.
  inversion Ha3; subst a3; clear Ha3.
  rewrite list_insert_insert_eq.
  split; [assumption|]. split; [reflexivity|assumption].
Qed.

Lemma insert_keeps {A} (l : list A) (k0 k : nat) (x : A) :
  (k0 < length l)%nat -> l !! k = Some x -> <[k0 := x]> l !! k = Some x.
Proof.
  intros Hlt H. destruct (decide (k0 = k)) as [->|Hne].
  - apply list_lookup_insert_eq. assumption.
  - rewrite list_lookup_insert_ne by assumption. assumption.
Qed.

Section ConstantHeightmap.
Variables (SizeX SizeY : Z) (MinZ MaxZ v : float).
Hypothesis SizeX_range : 0 < SizeX < 2 ^ 32.
Hypothesis SizeY_range : 0 < SizeY < 2 ^ 32.
Hypothesis samples_fit : SizeX * SizeY <= 2 ^ 32.

Lemma out_idx_exact (y x : Z) :
  0 <= y < SizeY -> 0 <= x < SizeX ->
  wrap32 (y + wrap32 (x * SizeY)) = y + x * SizeY.
Proof.
  intros Hy Hx.
  assert (0 <= x * SizeY) by nia.
  assert (y + x * SizeY < SizeX * SizeY) by nia.
  rewrite (wrap32_small (x * SizeY)) by lia.
  apply wrap32_small. lia.
Qed.

Lemma filled_inner_step (y x : Z) (buf buf' : list PxHeightFieldSample) :
  0 <= y < SizeY -> 0 <= x < SizeX ->
  filled SizeX SizeY MinZ MaxZ v y x buf ->
  terrain_sample SizeX SizeY MinZ MaxZ
    (replicate (Z.to_nat (SizeX * SizeY)) v) y x buf = Ok buf' ->
  filled SizeX SizeY MinZ MaxZ v y (x + 1) buf'.
Proof.
  intros Hy Hx [Hlen Hfill] Hstep.
  apply terrain_sample_constant in Hstep as (Hlt & -> & _).
  rewrite out_idx_exact in * by assumption.
  split; [rewrite length_insert; assumption|].
  intros k (y' & x' & Hy' & Hx' & Hord & ->).
  destruct (Z.eq_dec y' y) as [->|Hne];
    [destruct (Z.eq_dec x' x) as [->|Hnx]|].
  - apply list_lookup_insert_eq. assumption.
  - apply insert_keeps; [assumption|]. apply Hfill.
    exists y, x'. repeat split; try lia.
  - apply insert_keeps; [assumption|]. apply Hfill.
    exists y', x'. repeat split; try lia.
Qed.

Lemma filled_outer_step (y : Z) (buf buf' : list PxHeightFieldSample) :
  0 <= y < SizeY ->
  filled SizeX SizeY MinZ MaxZ v y 0 buf ->
  for_uint32 SizeX
    (terrain_sample SizeX SizeY MinZ MaxZ
       (replicate (Z.to_nat (SizeX * SizeY)) v) y) buf = Ok buf' ->
  filled SizeX SizeY MinZ MaxZ v (y + 1) 0 buf'.
Proof.
  intros Hy Hfill Hrun. unfold for_uint32 in Hrun.
  apply (for_from_invariant (filled SizeX SizeY MinZ MaxZ v y)) in Hrun;
    [| |assumption].
  - destruct Hrun as [Hlen Hall]. split; [assumption|].
    intros k (y' & x' & Hy' & Hx' & Hord & ->). apply Hall.
    exists y', x'. repeat split; try lia.
  - intros x a a' Hx. apply filled_inner_step; [assumption|lia].
Qed.

Lemma filled_at_the_end (buf : list PxHeightFieldSample) :
  terrain_samples SizeX SizeY MinZ MaxZ
    (replicate (Z.to_nat (SizeX * SizeY)) v) = Ok buf ->
  filled SizeX SizeY MinZ MaxZ v SizeY 0 buf.
Proof.
  unfold terrain_samples, for_uint32. intros Hrun.
  apply (for_from_invariant (fun y => filled SizeX SizeY MinZ MaxZ v y 0))
    in Hrun.
  - rewrite Z2Nat.id in Hrun by lia. exact Hrun.
  - intros y a a' Hy. apply filled_outer_step. lia.
  - split; [rewrite !length_replicate; reflexivity|].
    intros k (y' & x' & Hy' & Hx' & Hord & _). lia.
Qed.

Lemma every_index_written (k : nat) :
  (k < Z.to_nat (SizeX * SizeY))%nat -> written SizeX SizeY SizeY 0 k.
Proof.
  intros Hk. exists (Z.of_nat k mod SizeY), (Z.of_nat k / SizeY).
  assert (Hm : 0 <= Z.of_nat k mod SizeY < SizeY) by (apply Z.mod_pos_bound; lia).
  assert (Hd : 0 <= Z.of_nat k / SizeY) by (apply Z.div_pos; lia).
  assert (Hq : Z.of_nat k / SizeY < SizeX)
    by (apply Z.div_lt_upper_bound; nia).
  repeat split; try lia.
  pose proof (Z.div_mod (Z.of_nat k) SizeY ltac:(lia)) as E.
  replace (Z.of_nat k mod SizeY + Z.of_nat k / SizeY * SizeY)
    with (Z.of_nat k) by lia.
  symmetry. apply Nat2Z.id.
Qed.

(** With one column, every read and write is in range. *)
Lemma terrain_samples_one_column_defined :
  SizeX = 1 ->
  fits_int16 ((MaxZ - MinZ) * v + MinZ) ->
  exists buf,
    terrain_samples SizeX SizeY MinZ MaxZ
      (replicate (Z.to_nat (SizeX * SizeY)) v) = Ok buf.
Proof.
  intros HX Hfit. unfold terrain_samples, for_uint32.
  apply (for_from_defined
           (fun _ buf => length buf = Z.to_nat (SizeX * SizeY))).
  2: { rewrite !length_replicate. reflexivity. }
  intros y a Hy Hlen. rewrite Z2Nat.id in Hy by lia.
  subst SizeX. change (Z.to_nat 1) with 1%nat. simpl.
  unfold terrain_sample.
  assert (Hin : wrap32 (wrap64 (wrap64 (0 * sizeof_float) + wrap32 (y * 1))) = y).
  { rewrite Z.mul_1_r, (wrap32_small y) by lia.
    change (wrap64 (0 * sizeof_float)) with 0. rewrite Z.add_0_l.
    rewrite (wrap64_small y) by lia. apply wrap32_small. lia. }
  assert (Hout : wrap32 (y + wrap32 (0 * SizeY)) = y).
  { change (wrap32 (0 * SizeY)) with 0. rewrite Z.add_0_r.
    apply wrap32_small. lia. }
  rewrite Hin, Hout. unfold index at 1.
  rewrite lookup_replicate_2 by lia.
  rewrite (proj2 (Z.leb_le 0 y)) by lia. simpl.
  rewrite float_to_int16_defined by assumption. simpl.
  destruct (update_at_defined a y
              (set_height (float_trunc ((MaxZ - MinZ) * v + MinZ))))
    as (b1 & -> & Hl1); [lia|lia|]. simpl.
  destruct (update_at_defined b1 y (set_materialIndex0 0))
    as (b2 & -> & Hl2); [lia|lia|]. simpl.
  destruct (update_at_defined b2 y (set_materialIndex1 0))
    as (b3 & -> & Hl3); [lia|lia|]. simpl.
  exists b3. split; [reflexivity|]. lia.
Qed.

End ConstantHeightmap.

(** The buffer cooked by [CreateTerrain] is the one the loops fill. *)
Lemma CreateTerrain_cooks_terrain_samples (Position Scale : PxVec3)
    (SizeX SizeY : Z) (MinZ MaxZ : float) (Heightmap : list float)
    (s s' : State) (b : bool) :
  CreateTerrain Position Scale SizeX SizeY MinZ MaxZ Heightmap s = Ok (b, s') ->
  exists px_data,
    terrain_samples SizeX SizeY MinZ MaxZ Heightmap = Ok px_data
    /\ In (EvSdk (Cooker_createHeightField (Cooker (engine s))
                   (mkPxHeightFieldDesc SizeX SizeY px_data)))
         (trace (world s')).
Proof.
  intros H. unfold CreateTerrain in H. unfold_monad.
  destruct (terrain_samples _ _ _ _ _) as [px_data|]; [|discriminate].
  exists px_data. split; [reflexivity|]. simpl in H.
  split_ifs_in H; inversion H; subst; clear H; simpl; auto.
Qed.

(** C3 as stated fails.  The height is stored as a 16-bit integer: a
    sample does not in general equal [(MaxZ - MinZ) * v + MinZ].  With
    [MinZ = 0], [MaxZ = 1] and the constant map [0.5] on one cell, the
    rescaled height is exactly 1/2 and the sample's height is 0. *)
Lemma terrain_sample_height_is_truncated :
  terrain_samples 1 1 0 1 [0.5]%f32 = Ok [mkPxHeightFieldSample 0 0 0]
  /\ (float_value ((1 - 0) * 0.5 + 0)%f32 == 1 # 2)%Q
  /\ ~ (inject_Z (height (mkPxHeightFieldSample 0 0 0))
        == (1 - 0) * (1 # 2) + 0)%Q.
Proof.
  split; [vm_compute; reflexivity|]. split; vm_compute; congruence.
Qed.

(** The rescaling is computed in [float], every operation rounded, before
    the integer part is taken: with [MaxZ = 10] the entry [0.7f] gives 7,
    although ten times the number [0.7f] stands for is a little less than
    7; and with [MaxZ = 3276800] the entry [0.01f] gives 32768.0, which
    does not fit 16 bits, although the exact product is below 32768. *)
Example terrain_sample_is_rounded_first :
  terrain_samples 1 1 0 10 [0.7]%f32 = Ok [mkPxHeightFieldSample 7 0 0]
  /\ (float_value 10%f32 * float_value 0.7%f32 < 7)%Q
  /\ terrain_samples 1 1 0 3276800 [0.01]%f32 = Undefined FloatToIntOverflow
  /\ (float_value 3276800%f32 * float_value 0.01%f32 < 32768)%Q.
Proof. repeat split; vm_compute; reflexivity. Qed.

(** With two columns already, the input index [x * sizeof(float) + y * SizeX]
    leaves the height-map. *)
Example terrain_samples_two_columns :
  terrain_samples 2 1 0 10 [0.5; 0.5]%f32 = Undefined OutOfBounds.
Proof. vm_compute. reflexivity. Qed.

(** C3 (amended). For every [0 < SizeX], [0 < SizeY] (32-bit, with at most
    2^32 samples), [MinZ], [MaxZ] and every height-map of [SizeX * SizeY]
    entries all equal to [v], the samples [CreateTerrain] stores hold, as
    height, the integer part of [(MaxZ - MinZ) * v + MinZ] computed in
    [float], and material indices 0:
    - every turn [(y, x)] of the loops that returns has converted that
      value to a 16-bit integer and stored this sample at index
      [y + x * SizeY], leaving the rest of the buffer as it was;
    - whenever the loops return, the buffer has [SizeX * SizeY] samples and
      every one of them is this sample;
    - with [SizeX = 1] and a value that converts, the loops do return.
    What a turn does whose read of the height-map is out of range (there is
    one whenever [SizeX >= 2]) is not part of the statement. *)
Theorem terrain_samples_constant_heightmap (SizeX SizeY : Z)
    (MinZ MaxZ v : float) :
  0 < SizeX < 2 ^ 32 ->
  0 < SizeY < 2 ^ 32 ->
  SizeX * SizeY <= 2 ^ 32 ->
  let Heightmap := replicate (Z.to_nat (SizeX * SizeY)) v in
  let sample :=
    mkPxHeightFieldSample (float_trunc ((MaxZ - MinZ) * v + MinZ)) 0 0 in
  (forall y x buf buf',
     0 <= y < SizeY -> 0 <= x < SizeX ->
     terrain_sample SizeX SizeY MinZ MaxZ Heightmap y x buf = Ok buf' ->
     float_to_int16 ((MaxZ - MinZ) * v + MinZ) = Ok (height sample)
     /\ (Z.to_nat (y + x * SizeY) < length buf)%nat
     /\ buf' = <[Z.to_nat (y + x * SizeY) := sample]> buf)
  /\ (forall px_data,
        terrain_samples SizeX SizeY MinZ MaxZ Heightmap = Ok px_data ->
        float_to_int16 ((MaxZ - MinZ) * v + MinZ) = Ok (height sample)
        /\ length px_data = Z.to_nat (SizeX * SizeY)
        /\ forall entry, entry ∈ px_data -> entry = sample)
  /\ (SizeX = 1 ->
      float_to_int16 ((MaxZ - MinZ) * v + MinZ) = Ok (height sample) ->
      exists px_data,
        terrain_samples SizeX SizeY MinZ MaxZ Heightmap = Ok px_data).
Proof.
  intros HX HY Hfit Heightmap sample. subst Heightmap sample. simpl height.
  split; [|split].
  - intros y x buf buf' Hy Hx Hstep.
    apply terrain_sample_constant in Hstep as (Hlt & -> & Hconv).
    rewrite (out_idx_exact SizeX SizeY HX HY Hfit) in * by assumption.
    split; [apply float_to_int16_defined; assumption|].
    split; [assumption|reflexivity].
  - intros px_data Hrun.
    destruct (filled_at_the_end SizeX SizeY MinZ MaxZ v HX HY Hfit _ Hrun)
      as [Hlen Hall].
    split; [|split; [assumption|]].
    + unfold terrain_samples, for_uint32 in Hrun.
      destruct (for_from_every_turn _ _ _ _ _ Hrun 0) as (a & a' & Hrow);
        [lia|].
      unfold for_uint32 in Hrow.
      destruct (for_from_every_turn _ _ _ _ _ Hrow 0) as (b & b' & Hcell);
        [lia|].
      apply terrain_sample_constant in Hcell as (_ & _ & Hconv).
      apply float_to_int16_defined. assumption.
    + intros entry Hin.
      apply list_elem_of_lookup in Hin as [k Hk].
      pose proof (lookup_lt_Some _ _ _ Hk) as Hlt. rewrite Hlen in Hlt.
      rewrite (Hall k) in Hk by (apply every_index_written; assumption).
      inversion Hk. reflexivity.
  - intros H1 Hconv.
    apply terrain_samples_one_column_defined; [assumption..|].
    apply float_to_int16_Ok in Hconv as [_ Hconv]. assumption.
Qed.

(** Two columns and two rows at [v = 0.7] between 0 and 10: the first turn
    stores height 7 at index 0.  A strip of three cells, one column: three
    samples of height 7. *)
Lemma terrain_samples_constant_heightmap_witness :
  let blank := replicate 4 (mkPxHeightFieldSample 0 0 0) in
  terrain_sample 2 2 0 10 (replicate (Z.to_nat (2 * 2)) 0.7%f32) 0 0 blank
  = Ok (<[Z.to_nat (0 + 0 * 2) := mkPxHeightFieldSample 7 0 0]> blank)
  /\ exists px_data,
       terrain_samples 1 3 0 10 (replicate (Z.to_nat (1 * 3)) 0.7%f32)
       = Ok px_data
       /\ length px_data = Z.to_nat (1 * 3)
       /\ forall entry,
            entry ∈ px_data -> entry = mkPxHeightFieldSample 7 0 0.
Proof.
  intros blank. split.
  - destruct (terrain_samples_constant_heightmap 2 2 0 10 0.7)
      as (Hturn & _ & _); [lia|lia|lia|].
    assert (Hrun : terrain_sample 2 2 0 10
                     (replicate (Z.to_nat (2 * 2)) 0.7%f32) 0 0 blank
                   = Ok (after_samples
                           (terrain_sample 2 2 0 10
                              (replicate (Z.to_nat (2 * 2)) 0.7%f32) 0 0
                              blank)))
      by (vm_compute; reflexivity).
    destruct (Hturn 0 0 blank _ ltac:(lia) ltac:(lia) Hrun) as (_ & _ & E).
    rewrite Hrun, E. vm_compute. reflexivity.
  - destruct (terrain_samples_constant_heightmap 1 3 0 10 0.7)
      as (_ & Hall & Hdef); [lia|lia|lia|].
    destruct (Hdef eq_refl) as [px_data Hrun]; [vm_compute; reflexivity|].
    exists px_data. split; [exact Hrun|].
    destruct (Hall px_data Hrun) as (_ & Hlen & Hsame).
    split; [exact Hlen|]. intros entry Hin.
    rewrite (Hsame entry Hin). vm_compute. reflexivity.
Defined.

Example terrain_samples_one_column :
  terrain_samples 1 3 0 10 [0.5; 0.5; 0.5]%f32
  = Ok (replicate 3 (mkPxHeightFieldSample 5 0 0)).
Proof. vm_compute. reflexivity. Qed.

(** * Further properties of the engine *)

(** ** Relations every step of a computation respects *)

Section Respects.
Context (R : State -> State -> Prop) `{!Frame R} {A B : Type}.

Lemma respects_ret (a : A) : respects R (ret a).
Proof. intros s a' s' H. inversion H. apply frame_refl. Qed.

Lemma respects_bind (m : M A) (k : A -> M B) :
  respects R m -> (forall a, respects R (k a)) -> respects R (bind m k).
Proof.
  intros Hm Hk s b s' H. unfold bind in H.
  destruct (m s) as [[a s1]|] eqn:E; [|discriminate].
  eapply frame_trans; [eapply Hm|eapply Hk]; eassumption.
Qed.

Lemma respects_undefined (why : UB) : respects R (@undefined A why).
Proof. intros s a s' H. discriminate. Qed.

Lemma respects_lift (r : Res A) : respects R (lift r).
Proof.
  intros s a s' H. unfold lift in H. destruct r; inversion H.
  apply frame_refl.
Qed.

Lemma respects_this : respects R this.
Proof. intros s a s' H. inversion H. apply frame_refl. Qed.

Lemma respects_the_world : respects R the_world.
Proof. intros s a s' H. inversion H. apply frame_refl. Qed.

Lemma respects_set_world (f : World -> World) : respects R (set_world f).
Proof. intros [e w] a s' H. inversion H. apply frame_world. Qed.

Lemma respects_sdk (c : SdkCall) : respects R (sdk c).
Proof. intros [e w] a s' H. inversion H. apply frame_world. Qed.

Lemma respects_now : respects R now.
Proof. intros [e w] a s' H. inversion H. apply frame_world. Qed.

Lemma respects_deref (p : ptr) : respects R (deref p).
Proof.
  unfold deref. intros s a s' H. destruct (is_null p); inversion H.
  apply frame_refl.
Qed.

Lemma respects_set_engine (f : PhysicsEngine -> PhysicsEngine) :
  (forall s, R s (mkState (f (engine s)) (world s))) ->
  respects R (set_engine f).
Proof. intros Hf s a s' H. inversion H. apply Hf. Qed.

End Respects.

(** One step through a computation; [setter] proves the assignments to
    members. *)
Ltac frame_apply lemma := apply lemma; try typeclasses eauto.

Ltac respects_step setter :=
  match goal with
  | |- respects _ (bind _ _) => frame_apply respects_bind; [|intros ?]
  | |- respects _ (if ?c then _ else _) =>
      let E := fresh "E" in destruct c eqn:E
  | |- respects _ (match ?x with _ => _ end) => destruct x
  | |- respects _ (set_engine _) => frame_apply respects_set_engine; setter
  | |- respects _ (ret _) => frame_apply respects_ret
  | |- respects _ (undefined _) => frame_apply respects_undefined
  | |- respects _ (lift _) => frame_apply respects_lift
  | |- respects _ this => frame_apply respects_this
  | |- respects _ the_world => frame_apply respects_the_world
  | |- respects _ (cout _) => frame_apply respects_set_world
  | |- respects _ (emit _) => frame_apply respects_set_world
  | |- respects _ (set_start_time _) => frame_apply respects_set_world
  | |- respects _ (sdk _) => frame_apply respects_sdk
  | |- respects _ now => frame_apply respects_now
  | |- respects _ (deref _) => frame_apply respects_deref
  end.

Ltac respects_tac setter := repeat (respects_step setter).

(** *** No null pointer enters a table *)

#[local] Instance nonnull_kept_frame : Frame nonnull_kept.
Proof.
  split.
  - intros s H. exact H.
  - intros s1 s2 s3 H12 H23 H. auto.
  - intros e w w' H. exact H.
Qed.

Ltac nonnull_pushed :=
  unfold push_back; apply Forall_app; split; [assumption|];
  constructor; [apply is_null_false; assumption|constructor].

Ltac nonnull_setter :=
  idtac;
  let s := fresh "s" in
  let Hc := fresh "Hc" in
  let Hm := fresh "Hm" in
  intros s [Hc Hm]; split; simpl; first [assumption|nonnull_pushed].

Lemma nonnull_Initialize (n : Z) (g : PxVec3) :
  respects nonnull_kept (Initialize n g).
Proof. unfold Initialize. respects_tac nonnull_setter. Qed.

Lemma nonnull_Simulate (dt : float) : respects nonnull_kept (Simulate dt).
Proof. unfold Simulate. respects_tac nonnull_setter. Qed.

Lemma nonnull_CreateStaticActor (id : Z) (p : PxVec3) (r : PxQuat)
    (sc : PxVec3) : respects nonnull_kept (CreateStaticActor id p r sc).
Proof. unfold CreateStaticActor. respects_tac nonnull_setter. Qed.

Lemma nonnull_CreateTerrain (p sc : PxVec3) (sx sy : Z) (mn mx : float)
    (hm : list float) :
  respects nonnull_kept (CreateTerrain p sc sx sy mn mx hm).
Proof. unfold CreateTerrain. respects_tac nonnull_setter. Qed.

Lemma nonnull_CreatePhysicsTriangleMesh {VertexT IndexT : Type}
    (sv si : Z) (vl : list VertexT) (il : list IndexT) :
  respects nonnull_kept (CreatePhysicsTriangleMesh sv si vl il).
Proof. unfold CreatePhysicsTriangleMesh. respects_tac nonnull_setter. Qed.

Lemma nonnull_CreateCharacterController (p : PxVec3) (h r : float) :
  respects nonnull_kept (CreateCharacterController p h r).
Proof. unfold CreateCharacterController. respects_tac nonnull_setter. Qed.

Lemma nonnull_GetCharacter (id : Z) : respects nonnull_kept (GetCharacter id).
Proof. unfold GetCharacter. respects_tac nonnull_setter. Qed.

Lemma nonnull_MoveCharacter (id : Z) (d : PxVec3) (t : float) (g : bool) :
  respects nonnull_kept (MoveCharacter id d t g).
Proof.
  unfold MoveCharacter.
  frame_apply respects_bind; [apply nonnull_GetCharacter|intros ?].
  respects_tac nonnull_setter.
Qed.

Lemma respects_SimulateFixedFrequency (R : State -> State -> Prop)
    `{!Frame R} (f : float) (cb : option (float -> M unit)) :
  (forall t s, R s (mkState (with_ElapsedTime t (engine s)) (world s))) ->
  (forall dt, respects R (Simulate dt)) ->
  (forall callback t, cb = Some callback -> respects R (callback t)) ->
  respects R (SimulateFixedFrequency f cb).
Proof.
  intros Het Hsim Hcb. unfold SimulateFixedFrequency, static_start_time.
  frame_apply respects_bind; [respects_tac idtac|intros ?].
  frame_apply respects_bind; [frame_apply respects_now|intros ?].
  frame_apply respects_bind; [frame_apply respects_set_engine; intros ?; apply Het|intros ?].
  destruct (fge _ _); [|frame_apply respects_ret].
  frame_apply respects_bind.
  - destruct cb as [callback|]; [|frame_apply respects_ret].
    eapply Hcb. reflexivity.
  - intros ?. frame_apply respects_bind; [frame_apply respects_this|intros ?].
    frame_apply respects_bind; [apply Hsim|intros ?].
    respects_tac idtac.
Qed.

Lemma nonnull_run (prog : Client) : respects nonnull_kept (run prog).
Proof.
  induction prog; simpl.
  - frame_apply respects_ret.
  - frame_apply respects_bind; [apply nonnull_Initialize|auto].
  - frame_apply respects_bind; [apply nonnull_Simulate|auto].
  - frame_apply respects_bind; [|auto].
    frame_apply respects_SimulateFixedFrequency;
      [intros t s Hs; exact Hs|apply nonnull_Simulate|discriminate].
  - frame_apply respects_bind; [|auto].
    frame_apply respects_SimulateFixedFrequency;
      [intros t s Hs; exact Hs|apply nonnull_Simulate|].
    intros callback t E. inversion E. auto.
  - frame_apply respects_bind; [apply nonnull_CreatePhysicsTriangleMesh|auto].
  - frame_apply respects_bind; [apply nonnull_CreateStaticActor|auto].
  - frame_apply respects_bind; [apply nonnull_CreateTerrain|auto].
  - frame_apply respects_bind; [apply nonnull_CreateCharacterController|auto].
  - frame_apply respects_bind; [apply nonnull_GetCharacter|auto].
  - frame_apply respects_bind; [apply nonnull_MoveCharacter|auto].
Qed.

(** A fresh engine and a controller on it, with every SDK call succeeding
    and a clock that advances: where the examples below start. *)
Lemma example_program_runs :
  let s := initialised sdk_fresh clock_seconds in
  let prog :=
    CallCreateCharacterController (mkPxVec3 0 0 0) 125 20
      (fun id => main_after_character id 3) in
  run prog s = Ok (tt, after (run prog) s)
  /\ tables_nonnull s
  /\ never_initializes prog.
Proof.
  split; [vm_compute; reflexivity|]. split.
  - split; constructor.
  - simpl. intros id _ mesh_id _ _. repeat split.
Qed.

(** X1. From a state whose tables hold no null pointer (a new engine, for
    one), no program of calls to the public member functions puts a null
    pointer into a table; so afterwards [GetCharacter] on every handle in
    range returns a non-null controller. *)
Theorem tables_never_hold_null (prog : Client) (s s' : State) :
  tables_nonnull s ->
  run prog s = Ok (tt, s') ->
  tables_nonnull s'
  /\ forall (n : nat),
       (n < length (Characters (engine s')))%nat ->
       exists controller,
         controller <> nullptr
         /\ GetCharacter (Z.of_nat n) s' = Ok (controller, s').
Proof.
  intros Hs Hrun.
  assert (Hs' : tables_nonnull s') by exact (nonnull_run prog _ _ _ Hrun Hs).
  split; [exact Hs'|]. intros n Hn.
  destruct (lookup_lt_is_Some_2 _ _ Hn) as [c Hc]. exists c. split.
  - destruct Hs' as [Hall _]. rewrite Forall_lookup in Hall. eapply Hall, Hc.
  - apply GetCharacter_in_range. exact Hc.
Qed.

Lemma tables_never_hold_null_witness :
  let s := initialised sdk_fresh clock_seconds in
  let prog :=
    CallCreateCharacterController (mkPxVec3 0 0 0) 125 20
      (fun id => main_after_character id 3) in
  tables_nonnull (after (run prog) s)
  /\ exists controller,
       controller <> nullptr
       /\ GetCharacter (Z.of_nat 0) (after (run prog) s)
          = Ok (controller, after (run prog) s).
Proof.
  intros s prog.
  destruct example_program_runs as (Hrun & Hnn & _).
  destruct (tables_never_hold_null prog s (after (run prog) s) Hnn Hrun)
    as [H1 H2].
  split; [exact H1|]. apply H2. vm_compute. lia.
Defined.

(** *** Only [Initialize] changes the SDK objects and the gravity *)

#[local] Instance same_context_frame : Frame same_context.
Proof.
  split.
  - intros s. repeat split.
  - intros s1 s2 s3 H12 H23. unfold same_context in *.
    destruct H12 as (?&?&?&?&?&?&?&?&?), H23 as (?&?&?&?&?&?&?&?&?).
    repeat split; congruence.
  - intros e w w'. repeat split.
Qed.

Ltac context_setter := idtac; intros ?; repeat split.

Lemma context_Simulate (dt : float) : respects same_context (Simulate dt).
Proof. unfold Simulate. respects_tac context_setter. Qed.

Lemma context_CreateStaticActor (id : Z) (p : PxVec3) (r : PxQuat)
    (sc : PxVec3) : respects same_context (CreateStaticActor id p r sc).
Proof. unfold CreateStaticActor. respects_tac context_setter. Qed.

Lemma context_CreateTerrain (p sc : PxVec3) (sx sy : Z) (mn mx : float)
    (hm : list float) :
  respects same_context (CreateTerrain p sc sx sy mn mx hm).
Proof. unfold CreateTerrain. respects_tac context_setter. Qed.

Lemma context_CreatePhysicsTriangleMesh {VertexT IndexT : Type}
    (sv si : Z) (vl : list VertexT) (il : list IndexT) :
  respects same_context (CreatePhysicsTriangleMesh sv si vl il).
Proof. unfold CreatePhysicsTriangleMesh. respects_tac context_setter. Qed.

Lemma context_CreateCharacterController (p : PxVec3) (h r : float) :
  respects same_context (CreateCharacterController p h r).
Proof. unfold CreateCharacterController. respects_tac context_setter. Qed.

Lemma context_GetCharacter (id : Z) : respects same_context (GetCharacter id).
Proof. unfold GetCharacter. respects_tac context_setter. Qed.

Lemma context_MoveCharacter (id : Z) (d : PxVec3) (t : float) (g : bool) :
  respects same_context (MoveCharacter id d t g).
Proof.
  unfold MoveCharacter.
  frame_apply respects_bind; [apply context_GetCharacter|intros ?].
  respects_tac context_setter.
Qed.

Lemma context_run (prog : Client) :
  never_initializes prog -> respects same_context (run prog).
Proof.
  induction prog; simpl; intros Hni.
  - frame_apply respects_ret.
  - contradiction.
  - frame_apply respects_bind; [apply context_Simulate|auto].
  - frame_apply respects_bind; [|auto].
    frame_apply respects_SimulateFixedFrequency;
      [intros t s; repeat split|apply context_Simulate|discriminate].
  - destruct Hni as [Hcb Hk]. frame_apply respects_bind; [|auto].
    frame_apply respects_SimulateFixedFrequency;
      [intros t s; repeat split|apply context_Simulate|].
    intros callback t E. inversion E. auto.
  - frame_apply respects_bind;
      [apply context_CreatePhysicsTriangleMesh|auto].
  - frame_apply respects_bind; [apply context_CreateStaticActor|auto].
  - frame_apply respects_bind; [apply context_CreateTerrain|auto].
  - frame_apply respects_bind;
      [apply context_CreateCharacterController|auto].
  - frame_apply respects_bind; [apply context_GetCharacter|auto].
  - frame_apply respects_bind; [apply context_MoveCharacter|auto].
Qed.

(** X2. A program that does not call [Initialize] leaves the eight SDK
    object pointers of the engine and its gravity as they were: every later
    call goes through the objects, and [MoveCharacter] adds the gravity,
    that the last [Initialize] stored. *)
Theorem only_Initialize_changes_context (prog : Client) (s s' : State) :
  never_initializes prog ->
  run prog s = Ok (tt, s') ->
  same_context s s'.
Proof. intros Hni Hrun. exact (context_run prog Hni _ _ _ Hrun). Qed.

Lemma only_Initialize_changes_context_witness :
  let s := initialised sdk_fresh clock_seconds in
  let prog :=
    CallCreateCharacterController (mkPxVec3 0 0 0) 125 20
      (fun id => main_after_character id 3) in
  same_context s (after (run prog) s).
Proof.
  intros s prog. destruct example_program_runs as (Hrun & _ & Hni).
  exact (only_Initialize_changes_context prog s _ Hni Hrun).
Defined.

(** ** [Initialize], case by case *)

(** X3. In a release build, the value [Initialize] returns is decided by
    four of the seven SDK calls it makes: [false] when the foundation, the
    physics context or the cooker (answers 0, 1, 2) is null; otherwise
    undefined, by a null dereference, when the scene (answer 4) is null;
    otherwise [true], whatever the dispatcher, the controller manager and
    the default material (answers 3, 5, 6) are. *)
Theorem Initialize_release_result (NumThreads : Z) (g : PxVec3) (s : State) :
  DEBUG (world s) = false ->
  result_of (Initialize NumThreads g s)
  = (if is_null (answer s 0) || is_null (answer s 1) || is_null (answer s 2)
     then Some false
     else if is_null (answer s 4) then None else Some true)
  /\ (result_of (Initialize NumThreads g s) = None ->
      Initialize NumThreads g s = Undefined NullDereference).
Proof.
  intros Hd. unfold Initialize. unfold_monad. simpl. rewrite Hd.
  unfold answer. rewrite Nat.add_0_r.
  replace (sdk_calls (world s) + 1)%nat with (S (sdk_calls (world s))) by lia.
  replace (sdk_calls (world s) + 2)%nat
    with (S (S (sdk_calls (world s)))) by lia.
  replace (sdk_calls (world s) + 4)%nat
    with (S (S (S (S (sdk_calls (world s)))))) by lia.
  destruct (is_null (sdk_oracle (world s) (sdk_calls (world s)))); simpl;
    [split; [reflexivity|discriminate]|].
  destruct (is_null (sdk_oracle (world s) (S (sdk_calls (world s))))); simpl;
    [split; [reflexivity|discriminate]|].
  destruct (is_null (sdk_oracle (world s) (S (S (sdk_calls (world s))))));
    simpl; [split; [reflexivity|discriminate]|].
  destruct (is_null
              (sdk_oracle (world s) (S (S (S (S (sdk_calls (world s))))))));
    simpl; split; first [reflexivity|discriminate].
Qed.

Lemma Initialize_release_result_witness :
  result_of (Initialize 2 default_gravity
               (state0 (sdk_failing_at 4) clock_zero false))
  = (if is_null (answer (state0 (sdk_failing_at 4) clock_zero false) 0)
        || is_null (answer (state0 (sdk_failing_at 4) clock_zero false) 1)
        || is_null (answer (state0 (sdk_failing_at 4) clock_zero false) 2)
     then Some false
     else if is_null (answer (state0 (sdk_failing_at 4) clock_zero false) 4)
          then None else Some true)
  /\ (result_of (Initialize 2 default_gravity
                   (state0 (sdk_failing_at 4) clock_zero false)) = None ->
      Initialize 2 default_gravity (state0 (sdk_failing_at 4) clock_zero false)
      = Undefined NullDereference).
Proof.
  apply (Initialize_release_result 2 default_gravity
           (state0 (sdk_failing_at 4) clock_zero false)).
  reflexivity.
Defined.

(** X4. In a release build in which the foundation, the physics context,
    the cooker and the scene are created, [Initialize] returns [true] after
    exactly seven SDK calls, in the order foundation, physics, cooking,
    dispatcher (with the thread count), scene (with the gravity and that
    dispatcher), controller manager (on that scene), material; it stores
    the seven answers in the corresponding members, and the gravity. *)
Theorem Initialize_release_success (NumThreads : Z) (g : PxVec3) (s : State) :
  DEBUG (world s) = false ->
  answer s 0 <> nullptr -> answer s 1 <> nullptr ->
  answer s 2 <> nullptr -> answer s 4 <> nullptr ->
  exists s',
    Initialize NumThreads g s = Ok (true, s')
    /\ Foundation (engine s') = answer s 0
    /\ Physics (engine s') = answer s 1
    /\ Cooker (engine s') = answer s 2
    /\ Dispatcher (engine s') = answer s 3
    /\ GlobalScene (engine s') = answer s 4
    /\ CharacterManager (engine s') = answer s 5
    /\ DefaultMaterial (engine s') = answer s 6
    /\ Gravity (engine s') = g
    /\ sdk_calls (world s') = (sdk_calls (world s) + 7)%nat
    /\ added s s'
         [EvSdk (Physics_createMaterial (answer s 1) 0.5 0.5 0.6);
          EvSdk (PxCreateControllerManager (answer s 4));
          EvSdk (Physics_createScene (answer s 1)
                   (mkPxSceneDesc g (answer s 3)));
          EvSdk (PxDefaultCpuDispatcherCreate NumThreads);
          EvSdk (PxCreateCooking (answer s 0) 100);
          EvSdk (PxCreatePhysics (answer s 0) 100 false (PVD (engine s)));
          EvSdk PxCreateFoundation].
Proof.
  intros Hd H0 H1 H2 H4. apply is_null_false in H0, H1, H2, H4.
  unfold answer in *. rewrite Nat.add_0_r in *.
  replace (sdk_calls (world s) + 1)%nat
    with (S (sdk_calls (world s))) in * by lia.
  replace (sdk_calls (world s) + 2)%nat
    with (S (S (sdk_calls (world s)))) in * by lia.
  replace (sdk_calls (world s) + 3)%nat
    with (S (S (S (sdk_calls (world s))))) in * by lia.
  replace (sdk_calls (world s) + 4)%nat
    with (S (S (S (S (sdk_calls (world s)))))) in * by lia.
  replace (sdk_calls (world s) + 5)%nat
    with (S (S (S (S (S (sdk_calls (world s))))))) in * by lia.
  replace (sdk_calls (world s) + 6)%nat
    with (S (S (S (S (S (S (sdk_calls (world s)))))))) in * by lia.
  unfold Initialize, added. unfold_monad. simpl.
  rewrite Hd, H0. simpl. rewrite H1. simpl. rewrite H2. simpl.
  rewrite H4. simpl.
  eexists. split; [reflexivity|]. simpl.
  repeat split. lia.
Qed.

Lemma Initialize_release_success_witness :
  let s := state0 sdk_fresh clock_zero false in
  exists s',
    Initialize 2 default_gravity s = Ok (true, s')
    /\ Foundation (engine s') = answer s 0
    /\ Physics (engine s') = answer s 1
    /\ Cooker (engine s') = answer s 2
    /\ Dispatcher (engine s') = answer s 3
    /\ GlobalScene (engine s') = answer s 4
    /\ CharacterManager (engine s') = answer s 5
    /\ DefaultMaterial (engine s') = answer s 6
    /\ Gravity (engine s') = default_gravity
    /\ sdk_calls (world s') = (sdk_calls (world s) + 7)%nat
    /\ added s s'
         [EvSdk (Physics_createMaterial (answer s 1) 0.5 0.5 0.6);
          EvSdk (PxCreateControllerManager (answer s 4));
          EvSdk (Physics_createScene (answer s 1)
                   (mkPxSceneDesc default_gravity (answer s 3)));
          EvSdk (PxDefaultCpuDispatcherCreate 2);
          EvSdk (PxCreateCooking (answer s 0) 100);
          EvSdk (PxCreatePhysics (answer s 0) 100 false (PVD (engine s)));
          EvSdk PxCreateFoundation].
Proof.
  intros s.
  apply (Initialize_release_success 2 default_gravity s);
    first [reflexivity|vm_compute; discriminate].
Defined.

(** X5. Whatever [Initialize] returns, and in every build, it has stored
    the gravity it was given (the first statement, so also when it fails),
    and it has left both tables and the elapsed time alone: calling it again
    on a used engine keeps every handle. *)
Theorem Initialize_keeps_tables_and_records_gravity
    (NumThreads : Z) (g : PxVec3) (s s' : State) (b : bool) :
  Initialize NumThreads g s = Ok (b, s') ->
  Gravity (engine s') = g
  /\ Characters (engine s') = Characters (engine s)
  /\ TriangleMeshes (engine s') = TriangleMeshes (engine s)
  /\ ElapsedTime (engine s') = ElapsedTime (engine s).
Proof.
  intros H. unfold Initialize in H. unfold_monad. simpl in H.
  split_ifs_in H; inversion H; subst; clear H; simpl; repeat split.
Qed.

Lemma Initialize_keeps_tables_and_records_gravity_witness :
  let s := after (CreateCharacterController (mkPxVec3 0 0 0) 125 20) ready in
  let s' := after (Initialize 4 (mkPxVec3 0 0 (-1))) s in
  Gravity (engine s') = mkPxVec3 0 0 (-1)
  /\ Characters (engine s') = Characters (engine s)
  /\ TriangleMeshes (engine s') = TriangleMeshes (engine s)
  /\ ElapsedTime (engine s') = ElapsedTime (engine s).
Proof.
  intros s s'.
  apply (Initialize_keeps_tables_and_records_gravity 4 (mkPxVec3 0 0 (-1))
           s s' true).
  vm_compute. reflexivity.
Defined.

(** X6. In a debug build [Initialize] makes three more calls after the
    foundation: the visual debugger, its transport, and the connection
    (answers 1, 2, 3).  A null debugger or transport is dereferenced; a
    failed connection is not an error: the result does not depend on it,
    and a warning is written.  The rest is as in a release build, on the
    answers 4 (physics), 5 (cooker) and 7 (scene). *)
Theorem Initialize_debug_result (NumThreads : Z) (g : PxVec3) (s : State) :
  DEBUG (world s) = true ->
  result_of (Initialize NumThreads g s)
  = (if is_null (answer s 0) then Some false
     else if is_null (answer s 1) || is_null (answer s 2) then None
     else if is_null (answer s 4) || is_null (answer s 5) then Some false
     else if is_null (answer s 7) then None else Some true)
  /\ (answer s 0 <> nullptr ->
      answer s 3 = 0 ->
      forall b s',
        Initialize NumThreads g s = Ok (b, s') ->
        In (EvLog "[Warning] Could not connect to the visual debugger. Maybe it's not open?")
          (trace (world s'))).
Proof.
  intros Hd. unfold answer. rewrite Nat.add_0_r.
  replace (sdk_calls (world s) + 1)%nat with (S (sdk_calls (world s))) by lia.
  replace (sdk_calls (world s) + 2)%nat
    with (S (S (sdk_calls (world s)))) by lia.
  replace (sdk_calls (world s) + 3)%nat
    with (S (S (S (sdk_calls (world s))))) by lia.
  replace (sdk_calls (world s) + 4)%nat
    with (S (S (S (S (sdk_calls (world s)))))) by lia.
  replace (sdk_calls (world s) + 5)%nat
    with (S (S (S (S (S (sdk_calls (world s))))))) by lia.
  replace (sdk_calls (world s) + 7)%nat
    with (S (S (S (S (S (S (S (sdk_calls (world s))))))))) by lia.
  split.
  - unfold Initialize. unfold_monad. simpl. rewrite Hd.
    destruct (is_null (sdk_oracle (world s) (sdk_calls (world s)))); simpl;
      [reflexivity|].
    destruct (is_null (sdk_oracle (world s) (S (sdk_calls (world s)))));
      simpl; [reflexivity|].
    destruct (is_null (sdk_oracle (world s) (S (S (sdk_calls (world s))))));
      simpl; [reflexivity|].
    destruct (sdk_oracle (world s) (S (S (S (sdk_calls (world s))))) =? 0);
      simpl.
    all: destruct (is_null
                     (sdk_oracle (world s)
                        (S (S (S (S (sdk_calls (world s))))))));
      simpl; [reflexivity|].
    all: destruct (is_null
                     (sdk_oracle (world s)
                        (S (S (S (S (S (sdk_calls (world s)))))))));
      simpl; [reflexivity|].
    all: destruct (is_null
                     (sdk_oracle (world s)
                        (S (S (S (S (S (S (S (sdk_calls (world s)))))))))));
      simpl; [reflexivity|].
    all: destruct (is_null _); reflexivity.
  - intros H0 H3 b s' H. apply is_null_false in H0.
    unfold Initialize in H. unfold_monad. simpl in H.
    rewrite Hd in H. simpl in H.
    split_ifs_in H; inversion H; subst; clear H; simpl;
      try (rewrite H3 in *; discriminate); try congruence; auto 20.
Qed.

Lemma Initialize_debug_result_witness :
  let s := state0 (sdk_failing_at 3) clock_zero true in
  result_of (Initialize 2 default_gravity s) = Some true
  /\ In (EvLog "[Warning] Could not connect to the visual debugger. Maybe it's not open?")
       (trace (world (after (Initialize 2 default_gravity) s))).
Proof.
  intros s.
  destruct (Initialize_debug_result 2 default_gravity s) as [Hres Hwarn];
    [reflexivity|].
  split; [rewrite Hres; reflexivity|].
  apply (Hwarn ltac:(vm_compute; discriminate) eq_refl true).
  vm_compute. reflexivity.
Defined.

(** ** Calls that only use the engine *)

Lemma size_nonneg {A} (v : list A) : 0 <= size v.
Proof. unfold size, wrap64. apply Z.mod_pos_bound. lia. Qed.

(** The two guards are false for every integer. *)
Lemma guard_is_dead {A} (id : Z) (v : list A) :
  (id <? 0) && (id >=? size v) = false.
Proof.
  destruct (id <? 0) eqn:E1; [|reflexivity]. simpl.
  apply Z.ltb_lt in E1. pose proof (size_nonneg v).
  destruct (id >=? size v) eqn:E2; [|reflexivity].
  apply Z.geb_le in E2. lia.
Qed.

(** X7. [Simulate], [CreateStaticActor], [CreateTerrain], [GetCharacter] and
    [MoveCharacter] never change a member of the engine: whenever one of
    them returns, the tables, the SDK objects, the gravity and the elapsed
    time are what they were; [GetCharacter] changes nothing at all, not
    even the trace. *)
Theorem using_calls_leave_engine_unchanged (s s' : State) :
  (forall dt u, Simulate dt s = Ok (u, s') -> engine s' = engine s)
  /\ (forall id p r sc b,
        CreateStaticActor id p r sc s = Ok (b, s') -> engine s' = engine s)
  /\ (forall p sc sx sy mn mx hm b,
        CreateTerrain p sc sx sy mn mx hm s = Ok (b, s') ->
        engine s' = engine s)
  /\ (forall id c, GetCharacter id s = Ok (c, s') -> s' = s)
  /\ (forall id d t g flags,
        MoveCharacter id d t g s = Ok (flags, s') -> engine s' = engine s).
Proof.
  repeat split.
  - intros dt u H. unfold Simulate in H. unfold_monad. simpl in H.
    split_ifs_in H; inversion H; reflexivity.
  - intros id p r sc b H. unfold CreateStaticActor in H. unfold_monad.
    rewrite guard_is_dead in H.
    destruct (index _ _); [|discriminate]. simpl in H.
    split_ifs_in H; inversion H; reflexivity.
  - intros p sc sx sy mn mx hm b H. unfold CreateTerrain in H. unfold_monad.
    destruct (terrain_samples _ _ _ _ _); [|discriminate]. simpl in H.
    split_ifs_in H; inversion H; reflexivity.
  - intros id c H. unfold GetCharacter in H. unfold_monad.
    rewrite guard_is_dead in H.
    destruct (index _ _); inversion H. reflexivity.
  - intros id d t g flags H. unfold MoveCharacter, GetCharacter in H.
    unfold_monad. rewrite guard_is_dead in H.
    destruct (index _ _); [|discriminate]. simpl in H.
    split_ifs_in H; inversion H; reflexivity.
Qed.

Lemma using_calls_leave_engine_unchanged_witness :
  let s := after (CreateCharacterController (mkPxVec3 0 0 0) 125 20) ready in
  engine (after (Simulate (1 / 60)) s) = engine s
  /\ after (GetCharacter 0) s = s
  /\ engine (after (MoveCharacter 0 (mkPxVec3 7 0 0) (1 / 60) true) s)
     = engine s.
Proof.
  intros s.
  split; [|split].
  - destruct (using_calls_leave_engine_unchanged s
                (after (Simulate (1 / 60)) s)) as (H & _).
    apply (H (1 / 60)%f32 tt). vm_compute. reflexivity.
  - destruct (using_calls_leave_engine_unchanged s (after (GetCharacter 0) s))
      as (_ & _ & _ & H & _).
    apply (H 0 8). vm_compute. reflexivity.
  - destruct (using_calls_leave_engine_unchanged s
                (after (MoveCharacter 0 (mkPxVec3 7 0 0) (1 / 60) true) s))
      as (_ & _ & _ & _ & H).
    apply (H 0 (mkPxVec3 7 0 0) (1 / 60)%f32 true 9).
    vm_compute. reflexivity.
Defined.

(** X8. [GetCharacter] is an unchecked read of the table, for every integer
    [ID]: it returns what [Characters[ID]] holds, changing nothing, and is
    undefined exactly when that read is out of range; the line "Invalid
    character ID" is never written. *)
Theorem GetCharacter_is_unchecked_index (ID : Z) (s : State) :
  GetCharacter ID s
  = match index (Characters (engine s)) ID with
    | Ok controller => Ok (controller, s)
    | Undefined why => Undefined why
    end.
Proof.
  unfold GetCharacter. unfold_monad. rewrite guard_is_dead. reflexivity.
Qed.

(** X9. [CreateStaticActor] with a handle in range, on an engine whose
    physics context, default material and scene exist: it asks the SDK for
    one static actor, at the given position and rotation, on the mesh the
    table holds at that handle with the given scale and the default
    material.  If the SDK returns an actor, it is added to the scene and
    the result is [true]; if not, a line is written, nothing is added and
    the result is [false].  The engine is unchanged either way. *)
Theorem CreateStaticActor_valid_handle (n : nat) (mesh : ptr)
    (Position : PxVec3) (Rotation : PxQuat) (Scale : PxVec3) (s : State) :
  TriangleMeshes (engine s) !! n = Some mesh ->
  Physics (engine s) <> nullptr ->
  DefaultMaterial (engine s) <> nullptr ->
  GlobalScene (engine s) <> nullptr ->
  exists s',
    CreateStaticActor (Z.of_nat n) Position Rotation Scale s
      = Ok (negb (is_null (answer s 0)), s')
    /\ engine s' = engine s
    /\ added s s'
         ((if is_null (answer s 0)
           then EvLog "Failed to create the static actor"
           else EvSdk (Scene_addActor (GlobalScene (engine s)) (answer s 0)))
          :: [EvSdk (PxCreateStatic (Physics (engine s))
                       (mkPxTransform Position Rotation)
                       (PxTriangleMeshGeometry mesh Scale)
                       (DefaultMaterial (engine s)))]).
Proof.
  intros Hmesh Hp Hm Hs. apply is_null_false in Hp, Hm, Hs.
  rewrite answer_0.
  unfold CreateStaticActor, added. unfold_monad.
  rewrite guard_is_dead, (index_in_range _ _ _ Hmesh). simpl.
  rewrite Hp, Hm. simpl.
  destruct (is_null (sdk_oracle (world s) (sdk_calls (world s)))); simpl.
  - eexists. repeat split.
  - rewrite Hs. simpl. eexists. repeat split.
Qed.

Lemma CreateStaticActor_valid_handle_witness :
  let s :=
    after (CreatePhysicsTriangleMesh 12 4
             [mkPxVec3 (-1) 0 (-1); mkPxVec3 (-1) 0 1; mkPxVec3 1 0 (-1);
              mkPxVec3 1 0 1]
             [3; 2; 0; 3; 0; 1]) ready in
  exists s',
    CreateStaticActor (Z.of_nat 0) (mkPxVec3 0 (-250) 0) PxIdentity
      (mkPxVec3 500 1 500) s = Ok (negb (is_null (answer s 0)), s')
    /\ engine s' = engine s
    /\ added s s'
         ((if is_null (answer s 0)
           then EvLog "Failed to create the static actor"
           else EvSdk (Scene_addActor (GlobalScene (engine s)) (answer s 0)))
          :: [EvSdk (PxCreateStatic (Physics (engine s))
                       (mkPxTransform (mkPxVec3 0 (-250) 0) PxIdentity)
                       (PxTriangleMeshGeometry 8 (mkPxVec3 500 1 500))
                       (DefaultMaterial (engine s)))]).
Proof.
  intros s.
  apply (CreateStaticActor_valid_handle 0 8 (mkPxVec3 0 (-250) 0) PxIdentity
           (mkPxVec3 500 1 500) s);
    first [reflexivity|vm_compute; discriminate].
Defined.

(** X10. The failure handle is not recognised by the calls that take a
    handle: on an engine whose tables hold at most [SIZE_MAX] entries,
    [GetCharacter], [MoveCharacter] and [CreateStaticActor] given
    [(size_t)-1] read their table out of range. *)
Theorem failure_handle_is_not_rejected (s : State) :
  Z.of_nat (length (Characters (engine s))) <= 2 ^ 64 - 1 ->
  Z.of_nat (length (TriangleMeshes (engine s))) <= 2 ^ 64 - 1 ->
  GetCharacter failure_handle s = Undefined OutOfBounds
  /\ (forall Disp ElapsedTime ApplyGravity,
        MoveCharacter failure_handle Disp ElapsedTime ApplyGravity s
        = Undefined OutOfBounds)
  /\ (forall Position Rotation Scale,
        CreateStaticActor failure_handle Position Rotation Scale s
        = Undefined OutOfBounds).
Proof.
  intros Hc Hm. rewrite failure_handle_value.
  assert (Hg : GetCharacter (2 ^ 64 - 1) s = Undefined OutOfBounds)
    by (apply GetCharacter_out_of_range; lia).
  split; [exact Hg|]. split.
  - intros Disp t g. unfold MoveCharacter, bind. rewrite Hg. reflexivity.
  - intros p r sc. apply CreateStaticActor_out_of_range; lia.
Qed.

(** In [main], were the controller not created: the handle it gets back
    makes the next statement, [GetCharacter(character_id)], undefined. *)
Lemma failure_handle_is_not_rejected_witness :
  let s := ready_failing_at 7 in
  let created := CreateCharacterController (mkPxVec3 0 0 0) 125 20 in
  result_of (created s) = Some failure_handle
  /\ GetCharacter failure_handle (after created s) = Undefined OutOfBounds
  /\ MoveCharacter failure_handle (mkPxVec3 7 0 0) (1 / 60) true
       (after created s) = Undefined OutOfBounds.
Proof.
  intros s created. split; [vm_compute; reflexivity|].
  destruct (failure_handle_is_not_rejected (after created s)) as (Hg & Hmv & _);
    [vm_compute; discriminate|vm_compute; discriminate|].
  split; [exact Hg|apply Hmv].
Defined.

(** X11. Before [Initialize], on a new engine, no other member function can
    be used: [Simulate], [CreateCharacterController], [CreateTerrain] and
    (once past its size check) [CreatePhysicsTriangleMesh] call through a
    null pointer, [CreateStaticActor], [GetCharacter] and [MoveCharacter]
    read an empty table.  None of them reports an error. *)
Theorem nothing_works_before_Initialize (w : World) :
  let s := mkState PhysicsEngine_default w in
  (forall dt, Simulate dt s = Undefined NullDereference)
  /\ (forall pos H R,
        CreateCharacterController pos H R s = Undefined NullDereference)
  /\ (forall p sc sx sy mn mx hm,
        exists why, CreateTerrain p sc sx sy mn mx hm s = Undefined why)
  /\ (forall (VertexT IndexT : Type) sv si (vl : list VertexT)
        (il : list IndexT),
        size il mod 3 = 0 ->
        CreatePhysicsTriangleMesh sv si vl il s = Undefined NullDereference)
  /\ (forall (n : nat) p r sc,
        CreateStaticActor (Z.of_nat n) p r sc s = Undefined OutOfBounds)
  /\ (forall (n : nat), GetCharacter (Z.of_nat n) s = Undefined OutOfBounds)
  /\ (forall (n : nat) d t g,
        MoveCharacter (Z.of_nat n) d t g s = Undefined OutOfBounds).
Proof.
  intros s.
  assert (Hg : forall n : nat, GetCharacter (Z.of_nat n) s
                               = Undefined OutOfBounds)
    by (intros n; apply GetCharacter_out_of_range; simpl; lia).
  repeat split.
  - intros p sc sx sy mn mx hm. unfold CreateTerrain. unfold_monad.
    destruct (terrain_samples _ _ _ _ _); simpl; eauto.
  - intros VertexT IndexT sv si vl il Hmod.
    unfold CreatePhysicsTriangleMesh.
    rewrite (proj2 (Z.eqb_eq _ _) Hmod). reflexivity.
  - intros n p r sc. apply CreateStaticActor_out_of_range; simpl; lia.
  - exact Hg.
  - intros n d t g. unfold MoveCharacter, bind. rewrite Hg. reflexivity.
Qed.

Lemma nothing_works_before_Initialize_witness :
  CreatePhysicsTriangleMesh 12 4
    [mkPxVec3 (-1) 0 (-1); mkPxVec3 (-1) 0 1; mkPxVec3 1 0 (-1); mkPxVec3 1 0 1]
    [3; 2; 0; 3; 0; 1] (state0 sdk_fresh clock_zero false)
  = Undefined NullDereference.
Proof.
  destruct (nothing_works_before_Initialize (world0 sdk_fresh clock_zero false))
    as (_ & _ & _ & H & _).
  apply (H PxVec3 Z). reflexivity.
Defined.

(** ** [CreatePhysicsTriangleMesh], past the size check *)

(** X12. With a cooker and a physics context, an index count that is a
    multiple of 3, and 32-bit counts and strides: when the cooker creates
    the mesh and cooks it, [CreatePhysicsTriangleMesh] makes exactly three
    SDK calls (create, cook, and [Physics->createTriangleMesh] on the cooked
    buffer) with a descriptor of as many points as vertices, the vertex size
    as stride, a third of the index count as triangle count and three index
    sizes as stride.  The mesh it appends to the table, under the handle it
    returns (the old length), is the answer of the first call; the answer of
    the third is dropped. *)
Theorem CreatePhysicsTriangleMesh_success {VertexT IndexT : Type}
    (sizeof_VertexT sizeof_IndexT : Z) (VertexList : list VertexT)
    (IndexList : list IndexT) (s : State) :
  Cooker (engine s) <> nullptr ->
  Physics (engine s) <> nullptr ->
  Z.of_nat (length VertexList) < 2 ^ 32 ->
  Z.of_nat (length IndexList) < 2 ^ 32 ->
  0 <= sizeof_VertexT < 2 ^ 32 ->
  0 <= 3 * sizeof_IndexT < 2 ^ 32 ->
  Z.of_nat (length IndexList) mod 3 = 0 ->
  Z.of_nat (length (TriangleMeshes (engine s))) < 2 ^ 64 - 1 ->
  answer s 0 <> nullptr ->
  answer s 1 <> 0 ->
  let desc :=
    mkPxTriangleMeshDesc (Z.of_nat (length VertexList)) sizeof_VertexT
      (Z.of_nat (length IndexList) / 3) (3 * sizeof_IndexT) in
  exists s',
    CreatePhysicsTriangleMesh sizeof_VertexT sizeof_IndexT VertexList IndexList s
      = Ok (Z.of_nat (length (TriangleMeshes (engine s))), s')
    /\ TriangleMeshes (engine s') = TriangleMeshes (engine s) ++ [answer s 0]
    /\ added s s'
         [EvSdk (Physics_createTriangleMesh (Physics (engine s)));
          EvSdk (Cooker_cookTriangleMesh (Cooker (engine s)) desc);
          EvSdk (Cooker_createTriangleMesh (Cooker (engine s)) desc)].
Proof.
  intros Hc Hp Hv Hi Hsv Hsi Hmod Hlen H0 H1 desc.
  apply is_null_false in Hc, Hp, H0. apply Z.eqb_neq in H1.
  unfold answer in *. rewrite ?Nat.add_0_r, ?Nat.add_1_r in *.
  assert (Esv : wrap32 (size VertexList) = Z.of_nat (length VertexList)).
  { rewrite size_small by lia. apply wrap32_small. lia. }
  assert (Eil : size IndexList = Z.of_nat (length IndexList))
    by (apply size_small; lia).
  assert (Etc : wrap32 (size IndexList / 3) = Z.of_nat (length IndexList) / 3).
  { rewrite Eil. apply wrap32_small. split.
    - apply Z.div_pos; lia.
    - apply Z.div_lt_upper_bound; lia. }
  assert (Est : wrap32 (wrap64 (3 * sizeof_IndexT)) = 3 * sizeof_IndexT).
  { rewrite wrap64_small by lia. apply wrap32_small. lia. }
  unfold CreatePhysicsTriangleMesh, added.
  rewrite Esv, Etc, Est, (wrap32_small sizeof_VertexT) by lia.
  rewrite Eil, Hmod. unfold_monad. simpl.
  rewrite Hc, Hp. simpl. rewrite H0. simpl. rewrite H1. simpl.
  rewrite handle_after_push_back by assumption.
  eexists. split; [reflexivity|]. split; reflexivity.
Qed.

Lemma CreatePhysicsTriangleMesh_success_witness :
  let desc := mkPxTriangleMeshDesc (Z.of_nat 4) 12 (Z.of_nat 6 / 3) (3 * 4) in
  exists s',
    CreatePhysicsTriangleMesh 12 4
      [mkPxVec3 (-1) 0 (-1); mkPxVec3 (-1) 0 1; mkPxVec3 1 0 (-1);
       mkPxVec3 1 0 1]
      [3; 2; 0; 3; 0; 1] ready
      = Ok (Z.of_nat (length (TriangleMeshes (engine ready))), s')
    /\ TriangleMeshes (engine s')
       = TriangleMeshes (engine ready) ++ [answer ready 0]
    /\ added ready s'
         [EvSdk (Physics_createTriangleMesh (Physics (engine ready)));
          EvSdk (Cooker_cookTriangleMesh (Cooker (engine ready)) desc);
          EvSdk (Cooker_createTriangleMesh (Cooker (engine ready)) desc)].
Proof.
  apply (CreatePhysicsTriangleMesh_success 12 4
           [mkPxVec3 (-1) 0 (-1); mkPxVec3 (-1) 0 1; mkPxVec3 1 0 (-1);
            mkPxVec3 1 0 1]
           [3; 2; 0; 3; 0; 1] ready);
    first [reflexivity|lia|vm_compute; discriminate].
Defined.

(** X13. The two SDK failures of [CreatePhysicsTriangleMesh] (cooker and
    physics context present, index count a multiple of 3).  If the cooker
    creates no mesh, that call is the only one made.  If it creates one but
    then fails to cook, two calls are made and the mesh created by the first
    is not entered in the table, nor released.  In both cases a line is
    written, the failure handle returned and the engine left unchanged. *)
Theorem CreatePhysicsTriangleMesh_sdk_failure {VertexT IndexT : Type}
    (sizeof_VertexT sizeof_IndexT : Z) (VertexList : list VertexT)
    (IndexList : list IndexT) (s : State) :
  Cooker (engine s) <> nullptr ->
  Physics (engine s) <> nullptr ->
  size IndexList mod 3 = 0 ->
  answer s 0 = nullptr \/ answer s 1 = 0 ->
  exists s' desc,
    CreatePhysicsTriangleMesh sizeof_VertexT sizeof_IndexT VertexList IndexList s
      = Ok (failure_handle, s')
    /\ engine s' = engine s
    /\ added s s'
         (if is_null (answer s 0)
          then [EvLog "Failed to create the triangle mesh";
                EvSdk (Cooker_createTriangleMesh (Cooker (engine s)) desc)]
          else [EvLog "Failed to cook the triangle mesh";
                EvSdk (Cooker_cookTriangleMesh (Cooker (engine s)) desc);
                EvSdk (Cooker_createTriangleMesh (Cooker (engine s)) desc)]).
Proof.
  intros Hc Hp Hmod Hfail. apply is_null_false in Hc, Hp.
  unfold answer in *. rewrite ?Nat.add_0_r, ?Nat.add_1_r in *.
  unfold CreatePhysicsTriangleMesh, added. rewrite Hmod.
  unfold_monad. simpl. rewrite Hc, Hp. simpl.
  destruct (is_null (sdk_oracle (world s) (sdk_calls (world s)))) eqn:E0;
    simpl.
  - eexists _, _. repeat split.
  - destruct Hfail as [H0|H1].
    + apply is_null_true in H0. congruence.
    + rewrite H1. simpl. eexists _, _. repeat split.
Qed.

Lemma CreatePhysicsTriangleMesh_sdk_failure_witness :
  let s := ready_failing_at 8 in
  exists s' desc,
    CreatePhysicsTriangleMesh 12 4
      [mkPxVec3 (-1) 0 (-1); mkPxVec3 (-1) 0 1; mkPxVec3 1 0 (-1);
       mkPxVec3 1 0 1]
      [3; 2; 0; 3; 0; 1] s = Ok (failure_handle, s')
    /\ engine s' = engine s
    /\ added s s'
         (if is_null (answer s 0)
          then [EvLog "Failed to create the triangle mesh";
                EvSdk (Cooker_createTriangleMesh (Cooker (engine s)) desc)]
          else [EvLog "Failed to cook the triangle mesh";
                EvSdk (Cooker_cookTriangleMesh (Cooker (engine s)) desc);
                EvSdk (Cooker_createTriangleMesh (Cooker (engine s)) desc)]).
Proof.
  intros s.
  apply (CreatePhysicsTriangleMesh_sdk_failure 12 4
           [mkPxVec3 (-1) 0 (-1); mkPxVec3 (-1) 0 1; mkPxVec3 1 0 (-1);
            mkPxVec3 1 0 1]
           [3; 2; 0; 3; 0; 1] s);
    first [reflexivity|vm_compute; discriminate|right; reflexivity].
Defined.

(** ** [CreateTerrain], past the conversion *)

(** X14. When the conversion loops produce the samples, on an engine whose
    cooker, physics context, default material and scene exist,
    [CreateTerrain] makes two SDK calls: the cooker's [createHeightField]
    with [SizeX] columns, [SizeY] rows and those samples, and
    [PxCreateStatic] at the given position, unrotated, on a height-field
    geometry of height scale 1, row scale [Scale.x / SizeX] and column scale
    [Scale.z / SizeY], both divisions made in [float] on the sizes converted
    to [float] ([Scale.y] is not used), built on whatever the cooker
    returned.  The result is [true], with the actor added to the scene,
    exactly when [PxCreateStatic] returns an actor. *)
Theorem CreateTerrain_calls (Position Scale : PxVec3) (SizeX SizeY : Z)
    (MinZ MaxZ : float) (Heightmap : list float)
    (px_data : list PxHeightFieldSample) (s : State) :
  0 <= SizeX < 2 ^ 32 ->
  0 <= SizeY < 2 ^ 32 ->
  terrain_samples SizeX SizeY MinZ MaxZ Heightmap = Ok px_data ->
  Cooker (engine s) <> nullptr ->
  Physics (engine s) <> nullptr ->
  DefaultMaterial (engine s) <> nullptr ->
  GlobalScene (engine s) <> nullptr ->
  exists s',
    CreateTerrain Position Scale SizeX SizeY MinZ MaxZ Heightmap s
      = Ok (negb (is_null (answer s 1)), s')
    /\ engine s' = engine s
    /\ added s s'
         ((if is_null (answer s 1)
           then EvLog "Failed to create the terrain actor"
           else EvSdk (Scene_addActor (GlobalScene (engine s)) (answer s 1)))
          :: [EvSdk (PxCreateStatic (Physics (engine s))
                       (mkPxTransform
                          (mkPxVec3 (vx Position) (vy Position) (vz Position))
                          PxIdentity)
                       (PxHeightFieldGeometry (answer s 0) 1
                          (vx Scale / float_of_int SizeX)
                          (vz Scale / float_of_int SizeY))
                       (DefaultMaterial (engine s)));
              EvSdk (Cooker_createHeightField (Cooker (engine s))
                       (mkPxHeightFieldDesc SizeX SizeY px_data))]).
Proof.
  intros _ _ Hsamples Hc Hp Hm Hs. apply is_null_false in Hc, Hp, Hm, Hs.
  unfold answer. rewrite Nat.add_0_r, Nat.add_1_r.
  unfold CreateTerrain, added. unfold_monad. rewrite Hsamples. simpl.
  rewrite Hc, Hp, Hm. simpl.
  destruct (is_null (sdk_oracle (world s) (S (sdk_calls (world s))))); simpl.
  - eexists. repeat split.
  - rewrite Hs. simpl. eexists. repeat split.
Qed.

(** A strip of three cells: the samples cooked have height 7, the row scale
    is 10 and the column scale is 10/3 rounded to [float]. *)
Lemma CreateTerrain_calls_witness :
  let s := ready in
  exists s',
    CreateTerrain (mkPxVec3 0 0 0) (mkPxVec3 10 1 10) 1 3 0 10
      [0.7; 0.7; 0.7]%f32 s = Ok (negb (is_null (answer s 1)), s')
    /\ engine s' = engine s
    /\ added s s'
         ((if is_null (answer s 1)
           then EvLog "Failed to create the terrain actor"
           else EvSdk (Scene_addActor (GlobalScene (engine s)) (answer s 1)))
          :: [EvSdk (PxCreateStatic (Physics (engine s))
                       (mkPxTransform (mkPxVec3 0 0 0) PxIdentity)
                       (PxHeightFieldGeometry (answer s 0) 1
                          (10 / float_of_int 1) (10 / float_of_int 3))
                       (DefaultMaterial (engine s)));
              EvSdk (Cooker_createHeightField (Cooker (engine s))
                       (mkPxHeightFieldDesc 1 3
                          (replicate 3 (mkPxHeightFieldSample 7 0 0))))])
    /\ (10 / float_of_int 1)%f32 = 10%f32
    /\ (float_value (10 / float_of_int 3)%f32 == 13981013 # 4194304)%Q.
Proof.
  intros s.
  destruct (CreateTerrain_calls (mkPxVec3 0 0 0) (mkPxVec3 10 1 10) 1 3 0 10
              [0.7; 0.7; 0.7]%f32 (replicate 3 (mkPxHeightFieldSample 7 0 0))
              s) as (s' & Hrun & Heng & Hadd);
    [lia|lia|vm_compute; reflexivity|vm_compute; discriminate
    |vm_compute; discriminate|vm_compute; discriminate
    |vm_compute; discriminate|].
  exists s'. split; [exact Hrun|]. split; [exact Heng|].
  split; [exact Hadd|]. split; vm_compute; reflexivity.
Defined.

(** With no column the row scale is a division by zero, which in [float]
    is an infinity. *)
Example CreateTerrain_no_column :
  exists s',
    CreateTerrain (mkPxVec3 0 0 0) (mkPxVec3 10 1 10) 0 3 0 10 [] ready
    = Ok (true, s')
    /\ In (EvSdk (PxCreateStatic (Physics (engine ready))
                    (mkPxTransform (mkPxVec3 0 0 0) PxIdentity)
                    (PxHeightFieldGeometry (answer ready 0) 1
                       (S754_infinity false) (10 / 3))
                    (DefaultMaterial (engine ready))))
         (trace (world s')).
Proof.
  eexists. split; [vm_compute; reflexivity|]. vm_compute. auto.
Qed.

(** ** [CreateTerrain]: what the conversion loops compute *)

(** One turn of the inner loop, on any height-map. *)
Lemma terrain_sample_step (SizeX SizeY : Z) (MinZ MaxZ : float)
    (hm : list float) (y x : Z) (buf buf' : list PxHeightFieldSample) :
  terrain_sample SizeX SizeY MinZ MaxZ hm y x buf = Ok buf' ->
  exists h,
    hm !! Z.to_nat
            (wrap32 (wrap64 (wrap64 (x * sizeof_float) + wrap32 (y * SizeX))))
    = Some h
    /\ fits_int16 ((MaxZ - MinZ) * h + MinZ)
    /\ (Z.to_nat (wrap32 (y + wrap32 (x * SizeY))) < length buf)%nat
    /\ buf' = <[Z.to_nat (wrap32 (y + wrap32 (x * SizeY)))
                := sample_of MinZ MaxZ h]> buf.
Proof.
  unfold terrain_sample. intros H.
  apply Rbind_Ok in H as (h & Hh & H).
  apply index_Ok in Hh as [_ Hh]. exists h. split; [exact Hh|].
  apply Rbind_Ok in H as (h16 & Hh16 & H).
  apply float_to_int16_Ok in Hh16 as [-> Hfit].
  apply Rbind_Ok in H as (b1 & H1 & H).
  apply Rbind_Ok in H as (b2 & H2 & H3).
  apply update_at_Ok in H1 as (a1 & Ha1 & ->).
  pose proof (lookup_lt_Some _ _ _ Ha1) as Hlt.
  apply update_at_Ok in H2 as (a2 & Ha2 & ->).
  rewrite list_lookup_insert_eq in Ha2 by assumption.
  inversion Ha2; subst a2; clear Ha2.
  rewrite list_insert_insert_eq in H3.
  apply update_at_Ok in H3 as (a3 & Ha3 & ->).
  rewrite list_lookup_insert_eq in Ha3 by assumption.
  inversion Ha3; subst a3; clear Ha3.
  rewrite list_insert_insert_eq.
  split; [assumption|]. split; [assumption|reflexivity].
Qed.

Lemma out_idx_injective (SizeY y x y' x' : Z) :
  0 <= y < SizeY -> 0 <= y' < SizeY ->
  y + x * SizeY = y' + x' * SizeY -> y = y' /\ x = x'.
Proof.
  intros Hy Hy' E.
  assert (Hx : (y + x * SizeY) / SizeY = x)
    by (rewrite Z.div_add by lia; rewrite Z.div_small by lia; lia).
  assert (Hx' : (y' + x' * SizeY) / SizeY = x')
    by (rewrite Z.div_add by lia; rewrite Z.div_small by lia; lia).
  rewrite E in Hx. assert (x = x') by congruence. subst x'. lia.
Qed.

Section Layout.
Variables (SizeX SizeY : Z) (MinZ MaxZ : float) (Heightmap : list float).
Hypothesis SizeX_range : 0 < SizeX < 2 ^ 32.
Hypothesis SizeY_range : 0 < SizeY < 2 ^ 32.
Hypothesis out_fits : SizeX * SizeY <= 2 ^ 32.
Hypothesis in_fits : sizeof_float * (SizeX - 1) + (SizeY - 1) * SizeX < 2 ^ 32.

Lemma in_idx_exact (y x : Z) :
  0 <= y < SizeY -> 0 <= x < SizeX ->
  wrap32 (wrap64 (wrap64 (x * sizeof_float) + wrap32 (y * SizeX)))
  = x * sizeof_float + y * SizeX.
Proof.
  intros Hy Hx. unfold sizeof_float in *.
  assert (0 <= y * SizeX) by nia.
  assert (y * SizeX <= (SizeY - 1) * SizeX) by nia.
  rewrite (wrap64_small (x * 4)) by lia.
  rewrite (wrap32_small (y * SizeX)) by lia.
  rewrite wrap64_small by lia. apply wrap32_small. lia.
Qed.

Lemma laid_out_inner_step (y x : Z) (buf buf' : list PxHeightFieldSample) :
  0 <= y < SizeY -> 0 <= x < SizeX ->
  laid_out SizeX SizeY MinZ MaxZ Heightmap y x buf ->
  terrain_sample SizeX SizeY MinZ MaxZ Heightmap y x buf = Ok buf' ->
  laid_out SizeX SizeY MinZ MaxZ Heightmap y (x + 1) buf'.
Proof.
  intros Hy Hx [Hlen Hall] Hstep.
  apply terrain_sample_step in Hstep as (h & Hh & Hconv & Hlt & ->).
  rewrite in_idx_exact in Hh by assumption.
  rewrite (out_idx_exact SizeX SizeY SizeX_range SizeY_range out_fits)
    in * by assumption.
  split; [rewrite length_insert; assumption|].
  intros y' x' (Hy' & Hx' & Hord).
  destruct (Z.eq_dec y' y) as [->|Hne];
    [destruct (Z.eq_dec x' x) as [->|Hnx]|].
  - exists h. split; [assumption|]. split; [assumption|].
    apply list_lookup_insert_eq. assumption.
  - destruct (Hall y x') as (h' & Hh' & Hc' & Hb'); [repeat split; lia|].
    exists h'. split; [assumption|]. split; [assumption|].
    rewrite list_lookup_insert_ne; [assumption|].
    intros E. apply Z2Nat.inj in E; [|nia|nia].
    apply out_idx_injective in E; lia.
  - destruct (Hall y' x') as (h' & Hh' & Hc' & Hb'); [repeat split; lia|].
    exists h'. split; [assumption|]. split; [assumption|].
    rewrite list_lookup_insert_ne; [assumption|].
    intros E. apply Z2Nat.inj in E; [|nia|nia].
    apply out_idx_injective in E; lia.
Qed.

Lemma laid_out_outer_step (y : Z) (buf buf' : list PxHeightFieldSample) :
  0 <= y < SizeY ->
  laid_out SizeX SizeY MinZ MaxZ Heightmap y 0 buf ->
  for_uint32 SizeX (terrain_sample SizeX SizeY MinZ MaxZ Heightmap y) buf
  = Ok buf' ->
  laid_out SizeX SizeY MinZ MaxZ Heightmap (y + 1) 0 buf'.
Proof.
  intros Hy Hl Hrun. unfold for_uint32 in Hrun.
  apply (for_from_invariant (laid_out SizeX SizeY MinZ MaxZ Heightmap y))
    in Hrun; [| |assumption].
  - destruct Hrun as [Hlen Hall]. split; [assumption|].
    intros y' x' (Hy' & Hx' & Hord). apply Hall. repeat split; lia.
  - intros x a a' Hx. apply laid_out_inner_step; [assumption|lia].
Qed.

Lemma laid_out_at_the_end (buf : list PxHeightFieldSample) :
  terrain_samples SizeX SizeY MinZ MaxZ Heightmap = Ok buf ->
  laid_out SizeX SizeY MinZ MaxZ Heightmap SizeY 0 buf.
Proof.
  unfold terrain_samples, for_uint32. intros Hrun.
  apply (for_from_invariant
           (fun y => laid_out SizeX SizeY MinZ MaxZ Heightmap y 0)) in Hrun.
  - rewrite Z2Nat.id in Hrun by lia. exact Hrun.
  - intros y a a' Hy. apply laid_out_outer_step. lia.
  - split; [apply length_replicate|].
    intros y' x' (Hy' & Hx' & Hord). lia.
Qed.

End Layout.

(** X15. What the loops of [CreateTerrain] store, on any height-map, when
    they return (sizes positive, indices within 32 bits): the buffer has as
    many samples as the height-map has entries, and for every column
    [x < SizeX] and row [y < SizeY] the sample at index [y + x * SizeY]
    comes from the entry [h] found at index [x * sizeof(float) + y * SizeX]
    of the height-map: [(MaxZ - MinZ) * h + MinZ], computed in [float], is
    finite with an integer part that fits 16 bits, and the sample holds
    that integer part, with material indices 0. *)
Theorem terrain_samples_layout (SizeX SizeY : Z) (MinZ MaxZ : float)
    (Heightmap : list float) (px_data : list PxHeightFieldSample) :
  0 < SizeX < 2 ^ 32 ->
  0 < SizeY < 2 ^ 32 ->
  SizeX * SizeY <= 2 ^ 32 ->
  sizeof_float * (SizeX - 1) + (SizeY - 1) * SizeX < 2 ^ 32 ->
  terrain_samples SizeX SizeY MinZ MaxZ Heightmap = Ok px_data ->
  length px_data = length Heightmap
  /\ forall x y,
       0 <= x < SizeX -> 0 <= y < SizeY ->
       exists h,
         Heightmap !! Z.to_nat (x * sizeof_float + y * SizeX) = Some h
         /\ float_to_int16 ((MaxZ - MinZ) * h + MinZ)
            = Ok (float_trunc ((MaxZ - MinZ) * h + MinZ))
         /\ px_data !! Z.to_nat (y + x * SizeY)
            = Some (mkPxHeightFieldSample
                      (float_trunc ((MaxZ - MinZ) * h + MinZ)) 0 0).
Proof.
  intros HX HY Hout Hin Hrun.
  destruct (laid_out_at_the_end SizeX SizeY MinZ MaxZ Heightmap
              HX HY Hout Hin px_data Hrun) as [Hlen Hall].
  split; [assumption|]. intros x y Hx Hy.
  destruct (Hall y x) as (h & Hh & Hconv & Hb); [repeat split; lia|].
  exists h. split; [assumption|].
  split; [apply float_to_int16_defined; assumption|assumption].
Qed.

(** A height-map with spare entries at the end, so that every read is in
    range: two columns, two rows.  The samples written are 0, 20, 40 and
    60, at the indices 0, 1, 2 and 3, from the entries 0, 2, 4 and 6. *)
Lemma terrain_samples_layout_witness :
  let Heightmap := [0; 0.1; 0.2; 0.3; 0.4; 0.5; 0.6]%f32 in
  exists px_data,
    terrain_samples 2 2 0 100 Heightmap = Ok px_data
    /\ length px_data = length Heightmap
    /\ (forall x y,
          0 <= x < 2 -> 0 <= y < 2 ->
          exists h,
            Heightmap !! Z.to_nat (x * sizeof_float + y * 2) = Some h
            /\ float_to_int16 ((100 - 0) * h + 0)
               = Ok (float_trunc ((100 - 0) * h + 0))
            /\ px_data !! Z.to_nat (y + x * 2)
               = Some (mkPxHeightFieldSample
                         (float_trunc ((100 - 0) * h + 0)) 0 0))
    /\ map height (take 4 px_data) = [0; 20; 40; 60].
Proof.
  intros Heightmap.
  assert (Hrun : terrain_samples 2 2 0 100 Heightmap
                 = Ok (after_samples (terrain_samples 2 2 0 100 Heightmap)))
    by (vm_compute; reflexivity).
  eexists. split; [exact Hrun|].
  destruct (terrain_samples_layout 2 2 0 100 Heightmap _
              ltac:(lia) ltac:(lia) ltac:(lia) ltac:(vm_compute; reflexivity)
              Hrun) as [Hlen Hall].
  split; [exact Hlen|]. split; [exact Hall|]. vm_compute. reflexivity.
Defined.

(** Every turn of the loops on a one-column map succeeds. *)
Lemma terrain_samples_one_column_runs (SizeY : Z) (MinZ MaxZ : float)
    (Heightmap : list float) :
  0 < SizeY < 2 ^ 32 ->
  Z.of_nat (length Heightmap) = SizeY ->
  (forall h, h ∈ Heightmap -> fits_int16 ((MaxZ - MinZ) * h + MinZ)) ->
  exists buf, terrain_samples 1 SizeY MinZ MaxZ Heightmap = Ok buf.
Proof.
  intros HY Hlen Hfit. unfold terrain_samples, for_uint32.
  apply (for_from_defined (fun _ buf => length buf = length Heightmap)).
  2: { apply length_replicate. }
  intros y a Hy Hla. rewrite Z2Nat.id in Hy by lia.
  change (Z.to_nat 1) with 1%nat. simpl.
  unfold terrain_sample.
  assert (Hin : wrap32 (wrap64 (wrap64 (0 * sizeof_float) + wrap32 (y * 1)))
                = y).
  { rewrite Z.mul_1_r, (wrap32_small y) by lia.
    change (wrap64 (0 * sizeof_float)) with 0. rewrite Z.add_0_l.
    rewrite (wrap64_small y) by lia. apply wrap32_small. lia. }
  assert (Hout : wrap32 (y + wrap32 (0 * SizeY)) = y).
  { change (wrap32 (0 * SizeY)) with 0. rewrite Z.add_0_r.
    apply wrap32_small. lia. }
  rewrite Hin, Hout.
  destruct (index_defined Heightmap y) as [h Hh]; [lia|lia|].
  rewrite Hh. simpl.
  rewrite float_to_int16_defined.
  2: { apply Hfit. apply index_Ok in Hh as [_ Hh].
       eapply list_elem_of_lookup_2, Hh. }
  simpl.
  destruct (update_at_defined a y
              (set_height (float_trunc ((MaxZ - MinZ) * h + MinZ))))
    as (b1 & -> & Hl1); [lia|lia|]. simpl.
  destruct (update_at_defined b1 y (set_materialIndex0 0))
    as (b2 & -> & Hl2); [lia|lia|]. simpl.
  destruct (update_at_defined b2 y (set_materialIndex1 0))
    as (b3 & -> & Hl3); [lia|lia|]. simpl.
  exists b3. split; [reflexivity|]. lia.
Qed.

(** X16. On a map of a single column ([SizeX = 1]) with [SizeY] entries, on
    each of which the conversion of [(MaxZ - MinZ) * h + MinZ], computed in
    [float], to a 16-bit integer is defined, the loops return, and sample
    [y] comes from entry [y]: it holds the integer part of that [float]
    value, with material indices 0. *)
Theorem terrain_samples_one_column_exact (SizeY : Z) (MinZ MaxZ : float)
    (Heightmap : list float) :
  0 < SizeY < 2 ^ 32 ->
  Z.of_nat (length Heightmap) = SizeY ->
  (forall h, h ∈ Heightmap ->
             float_to_int16 ((MaxZ - MinZ) * h + MinZ)
             = Ok (float_trunc ((MaxZ - MinZ) * h + MinZ))) ->
  terrain_samples 1 SizeY MinZ MaxZ Heightmap
  = Ok (map (fun h => mkPxHeightFieldSample
                        (float_trunc ((MaxZ - MinZ) * h + MinZ)) 0 0)
          Heightmap).
Proof.
  intros HY Hlen Hconv.
  assert (Hfit : forall h, h ∈ Heightmap ->
                           fits_int16 ((MaxZ - MinZ) * h + MinZ)).
  { intros h Hh. apply Hconv in Hh.
    apply float_to_int16_Ok in Hh as [_ Hh]. exact Hh. }
  destruct (terrain_samples_one_column_runs SizeY MinZ MaxZ Heightmap
              HY Hlen Hfit) as [buf Hrun].
  rewrite Hrun. f_equal.
  destruct (laid_out_at_the_end 1 SizeY MinZ MaxZ Heightmap) with (buf := buf)
    as [Hl Hall]; try (unfold sizeof_float; lia); [assumption|].
  apply list_eq. intros k. rewrite list_lookup_fmap.
  destruct (Heightmap !! k) as [h|] eqn:Ek; simpl.
  - pose proof (lookup_lt_Some _ _ _ Ek) as Hk.
    destruct (Hall (Z.of_nat k) 0) as (h' & Hh' & _ & Hb').
    { repeat split; lia. }
    replace (0 * sizeof_float + Z.of_nat k * 1) with (Z.of_nat k) in Hh'
      by lia.
    replace (Z.of_nat k + 0 * SizeY) with (Z.of_nat k) in Hb' by lia.
    rewrite Nat2Z.id in Hh', Hb'. rewrite Hb'.
    assert (h' = h) by congruence. subst h'. reflexivity.
  - apply lookup_ge_None. apply lookup_ge_None in Ek. lia.
Qed.

(** Between 0 and 10: the entries 0, 0.7 and 0.999 give 0, 7 (the product
    rounds to 7.0) and 9. *)
Lemma terrain_samples_one_column_exact_witness :
  terrain_samples 1 3 0 10 [0; 0.7; 0.999]%f32
  = Ok (map (fun h => mkPxHeightFieldSample
                        (float_trunc ((10 - 0) * h + 0)) 0 0)
          [0; 0.7; 0.999]%f32)
  /\ map (fun h => float_trunc ((10 - 0) * h + 0)) [0; 0.7; 0.999]%f32
     = [0; 7; 9].
Proof.
  split; [|vm_compute; reflexivity].
  apply (terrain_samples_one_column_exact 3 0 10 [0; 0.7; 0.999]%f32).
  - lia.
  - reflexivity.
  - intros h Hh. apply list_elem_of_In in Hh. simpl in Hh.
    destruct Hh as [<-|[<-|[<-|[]]]]; vm_compute; reflexivity.
Defined.

(** X17. On a map of two or more columns whose height-map has the
    [SizeX * SizeY] entries the header asks for (or fewer), the conversion
    never returns: the last turn, at the latest, reads entry
    [sizeof(float) * (SizeX - 1) + (SizeY - 1) * SizeX], which lies past
    the end.  So [CreateTerrain] is undefined on every such map, in every
    state.  (Sizes for which that index stays within 32 bits.) *)
Theorem CreateTerrain_undefined_from_two_columns (SizeX SizeY : Z)
    (MinZ MaxZ : float) (Heightmap : list float) :
  2 <= SizeX ->
  1 <= SizeY ->
  sizeof_float * (SizeX - 1) + (SizeY - 1) * SizeX < 2 ^ 32 ->
  Z.of_nat (length Heightmap) <= SizeX * SizeY ->
  (exists why,
     terrain_samples SizeX SizeY MinZ MaxZ Heightmap = Undefined why)
  /\ forall Position Scale s,
       exists why,
         CreateTerrain Position Scale SizeX SizeY MinZ MaxZ Heightmap s
         = Undefined why.
Proof.
  intros HX HY Hin Hlen. unfold sizeof_float in Hin.
  assert (Hno : exists why,
             terrain_samples SizeX SizeY MinZ MaxZ Heightmap = Undefined why).
  { destruct (terrain_samples SizeX SizeY MinZ MaxZ Heightmap)
      as [buf|why] eqn:Hrun; [exfalso|eauto].
    unfold terrain_samples, for_uint32 in Hrun.
    destruct (for_from_every_turn _ _ _ _ _ Hrun (SizeY - 1))
      as (a & a' & Hrow); [lia|].
    unfold for_uint32 in Hrow.
    destruct (for_from_every_turn _ _ _ _ _ Hrow (SizeX - 1))
      as (b & b' & Hcell); [lia|].
    apply terrain_sample_step in Hcell as (h & Hh & _).
    apply lookup_lt_Some in Hh.
    assert (0 <= (SizeY - 1) * SizeX) by nia.
    assert ((SizeY - 1) * SizeX + SizeX = SizeX * SizeY) by nia.
    unfold sizeof_float in Hh.
    rewrite (wrap64_small ((SizeX - 1) * 4)) in Hh by lia.
    rewrite (wrap32_small ((SizeY - 1) * SizeX)) in Hh by lia.
    rewrite wrap64_small in Hh by lia.
    rewrite wrap32_small in Hh by lia.
    lia. }
  split; [exact Hno|].
  intros Position Scale s. destruct Hno as [why Hwhy]. exists why.
  unfold CreateTerrain, bind, lift. rewrite Hwhy. reflexivity.
Qed.

Lemma CreateTerrain_undefined_from_two_columns_witness :
  exists why,
    CreateTerrain (mkPxVec3 0 0 0) (mkPxVec3 10 1 10) 2 2 0 100
      [0; 0.1; 0.2; 0.3]%f32 ready = Undefined why.
Proof.
  destruct (CreateTerrain_undefined_from_two_columns 2 2 0 100
              [0; 0.1; 0.2; 0.3]%f32) as [_ H];
    [lia|lia|vm_compute; reflexivity|vm_compute; discriminate|].
  apply H.
Defined.

(** ** [MoveCharacter] and what handles lead to *)

(** The one call [MoveCharacter] makes on a handle in range. *)
Lemma MoveCharacter_in_range (n : nat) (controller : ptr)
    (Disp : PxVec3) (ElapsedTime : float) (ApplyGravity : bool) (s : State) :
  Characters (engine s) !! n = Some controller ->
  controller <> nullptr ->
  MoveCharacter (Z.of_nat n) Disp ElapsedTime ApplyGravity s
  = Ok (sdk_oracle (world s) (sdk_calls (world s)),
        mkState (engine s)
          (mkWorld (sdk_oracle (world s)) (S (sdk_calls (world s)))
             (clock_oracle (world s)) (clock_reads (world s))
             (start_time (world s)) (DEBUG (world s))
             (EvSdk (Controller_move controller
                       (if ApplyGravity
                        then PxVec3_add Disp (Gravity (engine s))
                        else Disp)
                       (float_of_double 1e-6) ElapsedTime)
              :: trace (world s)))).
Proof.
  intros Hc Hnn. apply is_null_false in Hnn.
  unfold MoveCharacter, bind. rewrite (GetCharacter_in_range _ _ _ Hc).
  unfold this, deref, bind. rewrite Hnn. reflexivity.
Qed.

(** X18. [MoveCharacter] with a handle in range whose controller is not
    null makes one SDK call, that controller's [move], with minimum distance
    1e-6 and the elapsed time given, and returns its collision flags.  The
    displacement passed is the one given, plus, when [ApplyGravity] is set,
    the engine's gravity vector as it is (it is not scaled by the elapsed
    time). *)
Theorem MoveCharacter_valid_handle (n : nat) (controller : ptr)
    (Disp : PxVec3) (ElapsedTime : float) (ApplyGravity : bool) (s : State) :
  Characters (engine s) !! n = Some controller ->
  controller <> nullptr ->
  exists s',
    MoveCharacter (Z.of_nat n) Disp ElapsedTime ApplyGravity s
      = Ok (answer s 0, s')
    /\ engine s' = engine s
    /\ added s s'
         [EvSdk (Controller_move controller
                   (if ApplyGravity
                    then mkPxVec3 (vx Disp + vx (Gravity (engine s)))
                           (vy Disp + vy (Gravity (engine s)))
                           (vz Disp + vz (Gravity (engine s)))
                    else Disp)
                   (float_of_double 1e-6) ElapsedTime)].
Proof.
  intros Hc Hnn. rewrite answer_0.
  rewrite (MoveCharacter_in_range _ _ Disp ElapsedTime ApplyGravity s Hc Hnn).
  unfold added. eexists. split; [reflexivity|]. split; [reflexivity|].
  destruct ApplyGravity; reflexivity.
Qed.

Lemma MoveCharacter_valid_handle_witness :
  let s := after (CreateCharacterController (mkPxVec3 0 0 0) 125 20) ready in
  exists s',
    MoveCharacter (Z.of_nat 0) (mkPxVec3 7 0 0) (1 / 60) true s
      = Ok (answer s 0, s')
    /\ engine s' = engine s
    /\ added s s'
         [EvSdk (Controller_move 8
                   (mkPxVec3 (7 + vx (Gravity (engine s)))
                      (0 + vy (Gravity (engine s)))
                      (0 + vz (Gravity (engine s))))
                   (float_of_double 1e-6) (1 / 60))].
Proof.
  intros s.
  apply (MoveCharacter_valid_handle 0 8 (mkPxVec3 7 0 0) (1 / 60) true s).
  - reflexivity.
  - discriminate.
Defined.

(** X19. Creation, any program, then use.  On tables shorter than
    [SIZE_MAX]: the handle of a successful [CreateCharacterController],
    given to [MoveCharacter] after any program of calls to the engine, moves
    the controller the SDK returned to that creation; and the handle of a
    successful [CreatePhysicsTriangleMesh], given to [CreateStaticActor]
    after any such program, asks for an actor on the mesh the cooker
    returned to that creation. *)
Theorem handles_lead_to_what_was_created (s : State) :
  Z.of_nat (length (Characters (engine s))) < 2 ^ 64 - 1 ->
  Z.of_nat (length (TriangleMeshes (engine s))) < 2 ^ 64 - 1 ->
  (forall pos H R handle s1 prog s2 Disp t g flags s3,
     CreateCharacterController pos H R s = Ok (handle, s1) ->
     handle <> failure_handle ->
     run prog s1 = Ok (tt, s2) ->
     MoveCharacter handle Disp t g s2 = Ok (flags, s3) ->
     exists d,
       added s2 s3
         [EvSdk (Controller_move (answer s 0) d (float_of_double 1e-6) t)])
  /\ (forall (VertexT IndexT : Type) sv si (vl : list VertexT)
        (il : list IndexT) handle s1 prog s2 p r sc b s3,
       CreatePhysicsTriangleMesh sv si vl il s = Ok (handle, s1) ->
       handle <> failure_handle ->
       run prog s1 = Ok (tt, s2) ->
       CreateStaticActor handle p r sc s2 = Ok (b, s3) ->
       exists result,
         added s2 s3
           (result
            ++ [EvSdk (PxCreateStatic (Physics (engine s2)) (mkPxTransform p r)
                         (PxTriangleMeshGeometry (answer s 0) sc)
                         (DefaultMaterial (engine s2)))])).
Proof.
  intros Hlc Hlm. split.
  - intros pos H R handle s1 prog s2 Disp t g flags s3 Hc Hok Hrun Hmove.
    destruct (CreateCharacterController_appends_answer _ _ _ _ _ _ Hc Hok)
      as [Hnn Htab].
    destruct (CreateCharacterController_outcome _ _ _ _ _ _ Hlc Hc)
      as [[Hf _]|(_ & -> & _)]; [contradiction|].
    assert (Hl : Characters (engine s2) !! length (Characters (engine s))
                 = Some (answer s 0)).
    { destruct (append_only_run prog _ _ _ Hrun) as [Hp _].
      eapply prefix_lookup_Some_stays; [exact Hp|].
      rewrite Htab. apply lookup_last_pushed. }
    rewrite (MoveCharacter_in_range _ _ Disp t g s2 Hl Hnn) in Hmove.
    inversion Hmove; subst. unfold added. simpl. eauto.
  - intros VertexT IndexT sv si vl il handle s1 prog s2 p r sc b s3
      Hc Hok Hrun Hact.
    destruct (CreatePhysicsTriangleMesh_appends_answer _ _ _ _ _ _ _ Hc Hok)
      as [Hnn Htab].
    destruct (CreatePhysicsTriangleMesh_outcome _ _ _ _ _ _ _ Hlm Hc)
      as [[Hf _]|(_ & -> & _)]; [contradiction|].
    assert (Hl : TriangleMeshes (engine s2)
                   !! length (TriangleMeshes (engine s))
                 = Some (answer s 0)).
    { destruct (append_only_run prog _ _ _ Hrun) as [_ Hp].
      eapply prefix_lookup_Some_stays; [exact Hp|].
      rewrite Htab. apply lookup_last_pushed. }
    unfold CreateStaticActor in Hact. unfold_monad. cbv beta in Hact.
    rewrite guard_is_dead, (@index_in_range ptr _ _ _ Hl) in Hact.
    simpl in Hact.
    unfold added.
    split_ifs_in Hact; inversion Hact; subst; clear Hact; simpl.
    + exists [EvLog "Failed to create the static actor"]. reflexivity.
    + eexists [_]. reflexivity.
Qed.

(** [main] with three turns of its loop, on a clock that advances: the
    callback's [MoveCharacter] moves the controller created first. *)
Lemma handles_lead_to_what_was_created_witness :
  let s := initialised sdk_fresh clock_seconds in
  let s1 := after (CreateCharacterController (mkPxVec3 0 0 0) 125 20) s in
  let s2 := after (run (main_after_character 0 3)) s1 in
  let s3 := after (MoveCharacter 0 (mkPxVec3 7 0 0) (1 / 60) true) s2 in
  exists d,
    added s2 s3
      [EvSdk (Controller_move (answer s 0) d (float_of_double 1e-6) (1 / 60))].
Proof.
  intros s s1 s2 s3.
  destruct (handles_lead_to_what_was_created s) as [H _];
    [vm_compute; reflexivity|vm_compute; reflexivity|].
  apply (H (mkPxVec3 0 0 0) 125%f32 20%f32 0 s1 (main_after_character 0 3) s2
           (mkPxVec3 7 0 0) (1 / 60)%f32 true
           (answer s2 0)).
  - vm_compute. reflexivity.
  - vm_compute. discriminate.
  - vm_compute. reflexivity.
  - vm_compute. reflexivity.
Defined.

(** ** [SimulateFixedFrequency], further *)

(** X20. The first call of [SimulateFixedFrequency] in the process sets the
    reference time itself: it reads the clock twice, takes the first
    reading as [start_time] and measures the elapsed time between the two.
    Unless that measure, a [float], already reaches the period
    [1.0f / Frequency], it makes no step and no callback, and the reference
    stays at that first reading. *)
Theorem SimulateFixedFrequency_first_call (Frequency : float)
    (Callback : option (float -> M unit)) (s : State) :
  start_time (world s) = None ->
  let first := clock_oracle (world s) (clock_reads (world s)) in
  let second := clock_oracle (world s) (S (clock_reads (world s))) in
  (deca_count (second - first) >=? 1 / Frequency)%f32 = false ->
  exists s',
    SimulateFixedFrequency Frequency Callback s = Ok (tt, s')
    /\ start_time (world s') = Some first
    /\ clock_reads (world s') = S (S (clock_reads (world s)))
    /\ ElapsedTime (engine s') = deca_count (second - first)
    /\ trace (world s') = trace (world s).
Proof.
  intros Hs first second Hlt. subst first second.
  unfold SimulateFixedFrequency, static_start_time.
  unfold_monad. simpl. rewrite Hs. simpl. rewrite Hlt.
  eexists. repeat split.
Qed.

(** At 60 Hz, with 166666664 ns between the two readings: no step. *)
Lemma SimulateFixedFrequency_first_call_witness :
  let s :=
    mkState (engine ready)
      (mkWorld sdk_fresh 7 (fun n => Z.of_nat n * 166666664) 0 None false
         []) in
  exists s',
    SimulateFixedFrequency 60 None s = Ok (tt, s')
    /\ start_time (world s') = Some 0
    /\ clock_reads (world s') = 2%nat
    /\ ElapsedTime (engine s') = deca_count (166666664 - 0)
    /\ trace (world s') = trace (world s).
Proof.
  intros s.
  apply (SimulateFixedFrequency_first_call 60 None s);
    vm_compute; reflexivity.
Defined.

(** One nanosecond more between the two readings, and the first call
    steps. *)
Example SimulateFixedFrequency_first_call_steps :
  let s :=
    mkState (engine ready)
      (mkWorld sdk_fresh 7 (fun n => Z.of_nat n * 166666665) 0 None false
         []) in
  exists s',
    SimulateFixedFrequency 60 None s = Ok (tt, s')
    /\ trace (world s')
       = [EvSdk (Scene_fetchResults (GlobalScene (engine ready)) true);
          EvSdk (Scene_simulate (GlobalScene (engine ready))
                   (deca_count 166666665))].
Proof. eexists. split; vm_compute; reflexivity. Qed.

(** X21. A call whose measure of the elapsed time, a [float], reaches the
    period [1.0f / Frequency], with a callback: the callback is run first,
    on the engine as it is before the step and with the measured elapsed
    time; then the scene is advanced by the engine's [ElapsedTime] member
    as the callback leaves it, and its results fetched; and only then is
    the clock read again for the new reference, so the time spent in the
    callback and in the simulation is not counted toward the next step. *)
Theorem SimulateFixedFrequency_step_with_callback (Frequency : float)
    (callback : float -> M unit) (s s2 : State) (t0 : Z) :
  start_time (world s) = Some t0 ->
  let elapsed :=
    deca_count (clock_oracle (world s) (clock_reads (world s)) - t0) in
  let s1 :=
    mkState (with_ElapsedTime elapsed (engine s))
      (mkWorld (sdk_oracle (world s)) (sdk_calls (world s))
         (clock_oracle (world s)) (S (clock_reads (world s)))
         (start_time (world s)) (DEBUG (world s)) (trace (world s))) in
  (elapsed >=? 1 / Frequency)%f32 = true ->
  callback elapsed s1 = Ok (tt, s2) ->
  GlobalScene (engine s2) <> nullptr ->
  exists s',
    SimulateFixedFrequency Frequency (Some callback) s = Ok (tt, s')
    /\ engine s' = engine s2
    /\ added s2 s'
         [EvSdk (Scene_fetchResults (GlobalScene (engine s2)) true);
          EvSdk (Scene_simulate (GlobalScene (engine s2))
                   (ElapsedTime (engine s2)))]
    /\ start_time (world s')
       = Some (clock_oracle (world s2) (clock_reads (world s2))).
Proof.
  intros Hs elapsed s1 Hle Hcb Hg. apply is_null_false in Hg.
  subst elapsed s1.
  unfold SimulateFixedFrequency, static_start_time, Simulate, added.
  unfold_monad. simpl. rewrite Hs. simpl. rewrite Hle. simpl.
  rewrite Hcb. simpl. rewrite Hg. simpl.
  eexists. repeat split.
Qed.

Lemma SimulateFixedFrequency_step_with_callback_witness :
  let s :=
    mkState
      (engine (after (CreateCharacterController (mkPxVec3 0 0 0) 125 20) ready))
      (mkWorld sdk_fresh 8 (fun _ => 10 ^ 10) 0 (Some 0) false []) in
  exists s',
    SimulateFixedFrequency 1 (Some (move_callback 0)) s = Ok (tt, s')
    /\ trace (world s')
       = [EvSdk (Scene_fetchResults 5 true);
          EvSdk (Scene_simulate 5 (deca_count (10 ^ 10 - 0)));
          EvSdk (Controller_move 8 (mkPxVec3 (7 + 0) (0 + -9.81) (0 + 0))
                   (float_of_double 1e-6) (deca_count (10 ^ 10 - 0)))].
Proof.
  intros s.
  destruct (SimulateFixedFrequency_step_with_callback 1 (move_callback 0) s
              (after (move_callback 0 (deca_count (10 ^ 10 - 0)))
                 (mkState
                    (with_ElapsedTime (deca_count (10 ^ 10 - 0)) (engine s))
                    (mkWorld sdk_fresh 8 (fun _ => 10 ^ 10) 1 (Some 0) false [])))
              0) as (s' & Hrun & _ & Hadd & _);
    [reflexivity|vm_compute; reflexivity|vm_compute; reflexivity
    |vm_compute; discriminate|].
  exists s'. split; [exact Hrun|]. rewrite Hadd. vm_compute. reflexivity.
Defined.

(** At a frequency of 0 the period is [1.0f / 0], an infinity, which the
    measure of no 64-bit count of nanoseconds reaches: no step. *)
Example SimulateFixedFrequency_zero_frequency :
  (1 / 0)%f32 = S754_infinity false
  /\ (deca_count (2 ^ 63 - 1) >=? 1 / 0)%f32 = false
  /\ (deca_count 0 >=? 1 / 0)%f32 = false.
Proof. repeat split; vm_compute; reflexivity. Qed.

(** X22. Without a callback, a call of [SimulateFixedFrequency] that returns
    has either made no SDK call at all, or exactly one step: [simulate]
    followed by [fetchResults], on the scene, by the elapsed time just
    stored in the engine, which then compares, in [float], as at least the
    period [1.0f / Frequency].  It never makes a step on a smaller measure,
    and never two. *)
Theorem SimulateFixedFrequency_at_most_one_full_step (Frequency : float)
    (s s' : State) :
  SimulateFixedFrequency Frequency None s = Ok (tt, s') ->
  added s s' []
  \/ (added s s'
        [EvSdk (Scene_fetchResults (GlobalScene (engine s)) true);
         EvSdk (Scene_simulate (GlobalScene (engine s))
                  (ElapsedTime (engine s')))]
      /\ (ElapsedTime (engine s') >=? 1 / Frequency)%f32 = true).
Proof.
  intros H. unfold SimulateFixedFrequency, static_start_time, Simulate in H.
  unfold_monad. unfold added. simpl in H.
  destruct (start_time (world s)); simpl in H.
  - destruct (fge _ _) eqn:E; simpl in H.
    + destruct (is_null (GlobalScene (engine s))); [discriminate|].
      simpl in H. inversion H; subst; clear H. simpl. right.
      split; [reflexivity|exact E].
    + inversion H. left. reflexivity.
  - destruct (fge _ _) eqn:E; simpl in H.
    + destruct (is_null (GlobalScene (engine s))); [discriminate|].
      simpl in H. inversion H; subst; clear H. simpl. right.
      split; [reflexivity|exact E].
    + inversion H. left. reflexivity.
Qed.

(** At 25 Hz, 399999990 ns after the reference: the measure is
    5368709/134217728, the [float] nearest to 1/25 and a little less than
    it, as is the period; the call steps. *)
Lemma SimulateFixedFrequency_at_most_one_full_step_witness :
  let s :=
    mkState (engine ready)
      (mkWorld sdk_fresh 7 (fun _ => 399999990) 0 (Some 0) false []) in
  let s' := after (SimulateFixedFrequency 25 None) s in
  (added s s' []
   \/ (added s s'
         [EvSdk (Scene_fetchResults (GlobalScene (engine s)) true);
          EvSdk (Scene_simulate (GlobalScene (engine s))
                   (ElapsedTime (engine s')))]
       /\ (ElapsedTime (engine s') >=? 1 / 25)%f32 = true))
  /\ (float_value (ElapsedTime (engine s')) == 5368709 # 134217728)%Q
  /\ (float_value (ElapsedTime (engine s')) < 1 / 25)%Q
  /\ length (trace (world s')) = 2%nat.
Proof.
  intros s s'. split.
  - apply (SimulateFixedFrequency_at_most_one_full_step 25 s s').
    vm_compute. reflexivity.
  - repeat split; vm_compute; reflexivity.
Defined.

(** ** The destructor *)

Ltac sublist_tac :=
  repeat first [apply sublist_nil | apply sublist_skip | apply sublist_cons].

(** Membership of a call in a list of calls written out, or not. *)
Ltac member_leaf :=
  let H0 := fresh "H0" in
  intros H0;
  first [assumption
        |congruence
        |apply list_elem_of_In; simpl; tauto
        |apply list_elem_of_In in H0; simpl in H0; exfalso;
         repeat (destruct H0 as [H0|H0]; [discriminate H0|]); exact H0].

(** X23. Whenever the destructor returns, the calls it has made are, in
    this order and each at most once: release of the scene, of the
    dispatcher, of the physics context, then for the visual debugger
    [getTransport], its release and the release of the transport, and last
    the release of the foundation; each of the five members is released
    exactly when it is not null.  It is undefined only when the debugger
    exists and [getTransport] returns null. *)
Theorem Destructor_order (s : State) :
  let e := engine s in
  let full :=
    [Release_Scene (GlobalScene e); Release_Dispatcher (Dispatcher e);
     Release_Physics (Physics e); Pvd_getTransport (PVD e);
     Release_Pvd (PVD e); Release_Transport (answer s 0);
     Release_Foundation (Foundation e)] in
  (Destructor s = Undefined NullDereference
   <-> PVD e <> nullptr /\ answer s 0 = nullptr)
  /\ forall calls,
       Destructor s = Ok calls ->
       calls `sublist_of` full
       /\ (Release_Scene (GlobalScene e) ∈ calls <-> GlobalScene e <> nullptr)
       /\ (Release_Dispatcher (Dispatcher e) ∈ calls
           <-> Dispatcher e <> nullptr)
       /\ (Release_Physics (Physics e) ∈ calls <-> Physics e <> nullptr)
       /\ (Release_Pvd (PVD e) ∈ calls <-> PVD e <> nullptr)
       /\ (Release_Foundation (Foundation e) ∈ calls
           <-> Foundation e <> nullptr).
Proof.
  intros e full. subst e full. rewrite answer_0.
  unfold Destructor, release_if_set. split.
  - destruct (is_null (PVD (engine s))) eqn:Ev; simpl.
    + apply is_null_true in Ev. split; [discriminate|].
      intros [H _]. contradiction.
    + apply is_null_false in Ev.
      destruct (is_null (sdk_oracle (world s) (sdk_calls (world s)))) eqn:Et;
        simpl.
      * apply is_null_true in Et. split; [auto|reflexivity].
      * apply is_null_false in Et. split; [discriminate|].
        intros [_ H]. contradiction.
  - intros calls H.
    destruct (is_null (GlobalScene (engine s))) eqn:Es;
    destruct (is_null (Dispatcher (engine s))) eqn:Ed;
    destruct (is_null (Physics (engine s))) eqn:Ep;
    destruct (is_null (PVD (engine s))) eqn:Ev;
    destruct (is_null (Foundation (engine s))) eqn:Ef;
    try destruct (is_null (sdk_oracle (world s) (sdk_calls (world s))))
      eqn:Et;
    simpl in H; inversion H; subst; clear H;
    repeat match goal with
           | H : is_null _ = true |- _ => apply is_null_true in H
           | H : is_null _ = false |- _ => apply is_null_false in H
           end;
    (split; [sublist_tac|]);
    repeat split; member_leaf.
Qed.

Lemma Destructor_order_witness :
  Destructor ready
  = Ok [Release_Scene 5; Release_Dispatcher 4; Release_Physics 2;
        Release_Foundation 1]
  /\ (Release_Physics (Physics (engine ready))
      ∈ [Release_Scene 5; Release_Dispatcher 4; Release_Physics 2;
         Release_Foundation 1]
      <-> Physics (engine ready) <> nullptr).
Proof.
  assert (H : Destructor ready
              = Ok [Release_Scene 5; Release_Dispatcher 4; Release_Physics 2;
                    Release_Foundation 1]) by reflexivity.
  split; [exact H|].
  destruct (Destructor_order ready) as [_ Hall].
  destruct (Hall _ H) as (_ & _ & _ & Hp & _). exact Hp.
Defined.

Ltac rewrite_null_tests :=
  repeat match goal with
         | E : is_null ?x = _ |- context [is_null ?x] => rewrite E
         end.

(** X24. A new engine can be destroyed after [Initialize] whatever
    [Initialize] returned (release build): the destructor is defined.
    After a successful [Initialize] it releases the scene, the physics
    context and the foundation, in this order; after a failed one it
    releases at most the physics context and the foundation. *)
Theorem destructible_after_Initialize (NumThreads : Z) (g : PxVec3)
    (w : World) (b : bool) (s' : State) :
  DEBUG w = false ->
  Initialize NumThreads g (mkState PhysicsEngine_default w) = Ok (b, s') ->
  exists calls,
    Destructor s' = Ok calls
    /\ if b
       then [Release_Scene (GlobalScene (engine s'));
             Release_Physics (Physics (engine s'));
             Release_Foundation (Foundation (engine s'))] `sublist_of` calls
       else calls `sublist_of` [Release_Physics (Physics (engine s'));
                               Release_Foundation (Foundation (engine s'))].
Proof.
  intros Hd H. unfold Initialize in H. unfold_monad. simpl in H.
  rewrite Hd in H. simpl in H.
  split_ifs_in H; inversion H; subst; clear H;
    unfold Destructor, release_if_set; simpl; rewrite_null_tests; simpl;
    try (eexists; split; [reflexivity|]; simpl; sublist_tac).
  destruct (is_null (sdk_oracle w (S (S (S (sdk_calls w)))))); simpl;
    sublist_tac.
Qed.

Lemma destructible_after_Initialize_witness :
  exists calls,
    Destructor (ready_failing_at 2) = Ok calls
    /\ calls `sublist_of`
         [Release_Physics (Physics (engine (ready_failing_at 2)));
          Release_Foundation (Foundation (engine (ready_failing_at 2)))].
Proof.
  apply (destructible_after_Initialize 2 default_gravity
           (world0 (sdk_failing_at 2) clock_zero false) false
           (ready_failing_at 2)); reflexivity.
Defined.

(** ** [main] *)

(** X25. [main] checks no result.  In a release build its set-up (from
    [Initialize] to the second [CreateStaticActor]) runs without undefined
    behaviour exactly when nine SDK calls succeed: foundation, physics
    context, cooker, scene, controller manager, default material (answers
    0, 1, 2, 4, 5, 6), then the controller, the mesh creation and the mesh
    cooking (answers 7, 8, 9).  The dispatcher and the two static actors may
    fail. *)
Theorem main_setup_defined_iff (w : World) :
  DEBUG w = false ->
  let s := mkState PhysicsEngine_default w in
  (exists s', run main_setup s = Ok (tt, s'))
  <-> Forall (fun i => answer s i <> 0) [0; 1; 2; 4; 5; 6; 7; 8; 9]%nat.
Proof.
  intros Hd s. subst s. rewrite !Forall_cons, Forall_nil.
  unfold answer. simpl sdk_calls. simpl world.
  rewrite Nat.add_0_r.
  replace (sdk_calls w + 1)%nat with (S (sdk_calls w)) by lia.
  replace (sdk_calls w + 2)%nat with (S (S (sdk_calls w))) by lia.
  replace (sdk_calls w + 4)%nat with (S (S (S (S (sdk_calls w))))) by lia.
  replace (sdk_calls w + 5)%nat with (S (S (S (S (S (sdk_calls w)))))) by lia.
  replace (sdk_calls w + 6)%nat
    with (S (S (S (S (S (S (sdk_calls w))))))) by lia.
  replace (sdk_calls w + 7)%nat
    with (S (S (S (S (S (S (S (sdk_calls w)))))))) by lia.
  replace (sdk_calls w + 8)%nat
    with (S (S (S (S (S (S (S (S (sdk_calls w))))))))) by lia.
  replace (sdk_calls w + 9)%nat
    with (S (S (S (S (S (S (S (S (S (sdk_calls w)))))))))) by lia.
  split.
  - intros [s' H].
    unfold main_setup, main_after_character in H. simpl in H.
    unfold Initialize, CreateCharacterController, GetCharacter,
      CreatePhysicsTriangleMesh, CreateStaticActor in H.
    unfold_monad. simpl in H. rewrite Hd in H. simpl in H.
    split_ifs_in H; try discriminate H.
    all: repeat split; try (apply is_null_false; assumption); try (apply Z.eqb_neq; assumption).
  - intros (H0 & H1 & H2 & H4 & H5 & H6 & H7 & H8 & H9 & _).
    apply is_null_false in H0, H1, H2, H4, H5, H6, H7, H8.
    apply Z.eqb_neq in H9.
    unfold main_setup, main_after_character. simpl.
    unfold Initialize, CreateCharacterController, GetCharacter,
      CreatePhysicsTriangleMesh, CreateStaticActor.
    unfold_monad. simpl. rewrite Hd. simpl.
    split_ifs; try congruence; try (eexists; reflexivity).
    all: try (exfalso;
              match goal with
              | E : _ = _ |- _ => vm_compute in E; discriminate E
              end).
Qed.

Lemma main_setup_defined_iff_witness :
  exists s', run main_setup (state0 sdk_fresh clock_zero false) = Ok (tt, s').
Proof.
  apply (proj2 (main_setup_defined_iff (world0 sdk_fresh clock_zero false)
                  eq_refl)).
  repeat constructor; vm_compute; discriminate.
Defined.

(** ** Handles are never reused *)

Lemma prefix_length_le {A} (l1 l2 : list A) :
  l1 `prefix_of` l2 -> (length l1 <= length l2)%nat.
Proof. intros [k ->]. rewrite length_app. lia. Qed.

(** X26. Handles grow.  Of two successful [CreateCharacterController]
    calls, with any program of calls to the engine in between, the second
    returns a strictly larger handle than the first; likewise for
    [CreatePhysicsTriangleMesh].  So no two resources of a kind ever share a
    handle (tables shorter than [SIZE_MAX]). *)
Theorem handles_strictly_increase (s s1 s2 s3 : State) (prog : Client) :
  Z.of_nat (length (Characters (engine s2))) < 2 ^ 64 - 1 ->
  Z.of_nat (length (TriangleMeshes (engine s2))) < 2 ^ 64 - 1 ->
  run prog s1 = Ok (tt, s2) ->
  (forall pos H R pos' H' R' h1 h2,
     CreateCharacterController pos H R s = Ok (h1, s1) ->
     CreateCharacterController pos' H' R' s2 = Ok (h2, s3) ->
     h1 <> failure_handle -> h2 <> failure_handle -> h1 < h2)
  /\ (forall (V I V' I' : Type) sv si (vl : list V) (il : list I)
        sv' si' (vl' : list V') (il' : list I') h1 h2,
       CreatePhysicsTriangleMesh sv si vl il s = Ok (h1, s1) ->
       CreatePhysicsTriangleMesh sv' si' vl' il' s2 = Ok (h2, s3) ->
       h1 <> failure_handle -> h2 <> failure_handle -> h1 < h2).
Proof.
  intros Hc2 Hm2 Hrun.
  destruct (append_only_run prog _ _ _ Hrun) as [Hpc Hpm].
  apply prefix_length_le in Hpc, Hpm. split.
  - intros pos H R pos' H' R' h1 h2 Hc1 Hc3 Hok1 Hok2.
    destruct (CreateCharacterController_appends_answer _ _ _ _ _ _ Hc1 Hok1)
      as [_ Htab].
    assert (Hlen1 : length (Characters (engine s1))
                    = S (length (Characters (engine s))))
      by (rewrite Htab, length_app; simpl; lia).
    destruct (CreateCharacterController_outcome _ _ _ _ _ _ Hc2 Hc3)
      as [[Hf _]|(_ & -> & _)]; [contradiction|].
    destruct (CreateCharacterController_outcome pos H R s h1 s1) as
      [[Hf _]|(_ & -> & _)]; [lia|assumption|contradiction|lia].
  - intros V I V' I' sv si vl il sv' si' vl' il' h1 h2 Hc1 Hc3 Hok1 Hok2.
    destruct (CreatePhysicsTriangleMesh_appends_answer _ _ _ _ _ _ _ Hc1 Hok1)
      as [_ Htab].
    assert (Hlen1 : length (TriangleMeshes (engine s1))
                    = S (length (TriangleMeshes (engine s))))
      by (rewrite Htab, length_app; simpl; lia).
    destruct (CreatePhysicsTriangleMesh_outcome _ _ _ _ _ _ _ Hm2 Hc3)
      as [[Hf _]|(_ & -> & _)]; [contradiction|].
    destruct (CreatePhysicsTriangleMesh_outcome sv si vl il s h1 s1) as
      [[Hf _]|(_ & -> & _)]; [lia|assumption|contradiction|lia].
Qed.

Lemma handles_strictly_increase_witness :
  let s := initialised sdk_fresh clock_seconds in
  let create := CreateCharacterController (mkPxVec3 0 0 0) 125 20 in
  let s1 := after create s in
  let s2 := after (run (main_after_character 0 3)) s1 in
  result_of (create s) = Some 0
  /\ result_of (create s2) = Some 1
  /\ 0 < 1.
Proof.
  intros s create s1 s2.
  split; [vm_compute; reflexivity|]. split; [vm_compute; reflexivity|].
  destruct (handles_strictly_increase s s1 s2 (after create s2)
              (main_after_character 0 3)) as [H _];
    [vm_compute; reflexivity|vm_compute; reflexivity|vm_compute; reflexivity|].
  apply (H (mkPxVec3 0 0 0) 125%f32 20%f32 (mkPxVec3 0 0 0) 125%f32 20%f32 0 1);
    first [vm_compute; reflexivity|vm_compute; discriminate].
Defined.
